(** * Odds normalisation and wager settlement of the Real Madrid bot

    A shallow embedding of the betting core of the repository:
    - [src/bot.py]      : [check_bet_won], [settle_all_bets];
    - [src/api.py]      : [_parse_leon_markets], [_build_live_markets],
                          [place_bet_endpoint], [settle_bet_by_type],
                          [settle_all_bets_advanced];
    - [src/database.py] : [update_user_balance], [place_bet], [settle_bet],
                          [settle_prediction], [settle_all_for_match].

    Python integers are [Z]; Python floats (bet lines, prices) are exact
    rationals [Q]; dictionaries keyed by outcome key are [gmap string Q];
    the SQLite tables are lists of rows (users: a map keyed by the primary
    key); exceptions are an explicit [Raise] result. *)

From Stdlib Require Import ZArith QArith Qround String Ascii List Bool Lia.
From stdpp Require Import gmap strings list fin_maps pretty.
Import ListNotations.

Local Open Scope string_scope.
Local Open Scope Z_scope.

(** ** Python built-ins used by the sources *)

Module Py.

(** [s.startswith(p)] *)
Definition startswith (s p : string) : bool := String.prefix p s.

(** [p in s] for strings. *)
Fixpoint contains (p s : string) : bool :=
  String.prefix p s ||
  match s with
  | EmptyString => false
  | String _ s' => contains p s'
  end.

Fixpoint replace_go (old new : string) (skip : nat) (s : string) : string :=
  match s with
  | EmptyString => EmptyString
  | String c s' =>
      match skip with
      | S k => replace_go old new k s'
      | O => if String.prefix old s
             then new ++ replace_go old new (String.length old - 1) s'
             else String c (replace_go old new 0 s')
      end
  end.

(** [s.replace(old, new)]: every non-overlapping occurrence, left to
    right.  All call sites pass a non-empty [old]. *)
Definition replace (s old new : string) : string :=
  match old with
  | EmptyString => s
  | _ => replace_go old new 0 s
  end.

Fixpoint drop (n : nat) (s : string) : string :=
  match n, s with
  | O, _ => s
  | S k, String _ s' => drop k s'
  | S _, EmptyString => EmptyString
  end.

(** [s.replace(old, new, 1)]: the first occurrence only. *)
Fixpoint replace1 (s old new : string) : string :=
  if String.prefix old s then new ++ drop (String.length old) s
  else match s with
       | EmptyString => EmptyString
       | String c s' => String c (replace1 s' old new)
       end.

(** [s.split(sep)] for a one-character separator. *)
Fixpoint split (s : string) (sep : ascii) : list string :=
  match s with
  | EmptyString => [EmptyString]
  | String c s' =>
      if Ascii.eqb c sep then EmptyString :: split s' sep
      else match split s' sep with
           | h :: t => String c h :: t
           | [] => [String c EmptyString]
           end
  end.

Definition is_space (c : ascii) : bool :=
  let n := nat_of_ascii c in
  (Nat.eqb n 32 || (Nat.leb 9 n && Nat.leb n 13))%bool.

Fixpoint lstrip (s : string) : string :=
  match s with
  | String c s' => if is_space c then lstrip s' else s
  | EmptyString => EmptyString
  end.

Fixpoint rstrip (s : string) : string :=
  match s with
  | EmptyString => EmptyString
  | String c s' =>
      let r := rstrip s' in
      if (is_space c && String.eqb r EmptyString)%bool then EmptyString
      else String c r
  end.

(** [s.strip()] (ASCII white space). *)
Definition strip (s : string) : string := rstrip (lstrip s).

Definition is_digit (c : ascii) : bool :=
  let n := nat_of_ascii c in (Nat.leb 48 n && Nat.leb n 57)%bool.

Fixpoint all_digits (s : string) : bool :=
  match s with
  | EmptyString => true
  | String c s' => (is_digit c && all_digits s')%bool
  end.

(** [s.isdigit()] (ASCII digits): non-empty and all digits. *)
Definition isdigit (s : string) : bool :=
  match s with
  | EmptyString => false
  | _ => all_digits s
  end.

(** Value of a digit string, most significant digit first. *)
Fixpoint digits_val (acc : Z) (s : string) : Z :=
  match s with
  | EmptyString => acc
  | String c s' => digits_val (10 * acc + (Z.of_nat (nat_of_ascii c) - 48)) s'
  end.

Definition lower_ascii (c : ascii) : ascii :=
  let n := nat_of_ascii c in
  if (Nat.leb 65 n && Nat.leb n 90)%bool then ascii_of_nat (n + 32) else c.

(** [s.lower()] on UTF-8 text: ASCII letters and the Cyrillic capitals
    U+0400..U+042F (lead byte 0xD0), the alphabets of the bookmaker feed.
    Other characters are left as they are. *)
Fixpoint lower (s : string) : string :=
  match s with
  | EmptyString => EmptyString
  | String c1 tl =>
      if Nat.eqb (nat_of_ascii c1) 208 then
        match tl with
        | String c2 rest =>
            let n := nat_of_ascii c2 in
            if (Nat.leb 128 n && Nat.leb n 143)%bool then
              String (ascii_of_nat 209) (String (ascii_of_nat (n + 16)) (lower rest))
            else if (Nat.leb 144 n && Nat.leb n 159)%bool then
              String c1 (String (ascii_of_nat (n + 32)) (lower rest))
            else if (Nat.leb 160 n && Nat.leb n 175)%bool then
              String (ascii_of_nat 209) (String (ascii_of_nat (n - 32)) (lower rest))
            else String c1 (lower tl)
        | EmptyString => String c1 EmptyString
        end
      else String (lower_ascii c1) (lower tl)
  end.

Fixpoint pow10 (n : nat) : positive :=
  match n with
  | O => 1%positive
  | S k => (10 * pow10 k)%positive
  end.

(** Integer part and fraction of an unsigned decimal literal
    [digits], [digits.], [digits.digits] or [.digits]. *)
Definition unsigned_decimal (s : string) : option Q :=
  match split s "."%char with
  | [i] => if isdigit i then Some (inject_Z (digits_val 0 i)) else None
  | [i; f] =>
      if (all_digits i && all_digits f
          && negb (String.eqb i EmptyString && String.eqb f EmptyString))%bool
      then Some (Qmake (digits_val (digits_val 0 i) f)
                       (pow10 (String.length f)))
      else None
  | _ => None
  end.

(** [float(s)] on plain decimal literals: optional blanks, an optional
    sign, digits with an optional fraction.  [None] stands for
    [ValueError].  The value is the exact rational the literal denotes;
    a double holds it exactly for the half and quarter lines of the feed,
    and for any literal of up to 15 significant digits comparing it with an
    integer statistic gives the same answer.  Exponents, [inf], [nan] and
    digit-group underscores are not part of the model. *)
Definition float (s : string) : option Q :=
  match strip s with
  | String "-" r => option_map Qopp (unsigned_decimal r)
  | String "+" r => unsigned_decimal r
  | r => unsigned_decimal r
  end.

(** [int(s)] on a decimal literal with optional blanks and sign. *)
Definition int (s : string) : option Z :=
  match strip s with
  | String "-" r => if isdigit r then Some (- digits_val 0 r) else None
  | String "+" r => if isdigit r then Some (digits_val 0 r) else None
  | r => if isdigit r then Some (digits_val 0 r) else None
  end.

(** [int(x)] on a float: truncation towards zero. *)
Definition trunc (q : Q) : Z := Z.quot (Qnum q) (Zpos (Qden q)).

(** [str(n)] for an integer. *)
Definition str (n : Z) : string := pretty n.

Definition Qltb (x y : Q) : bool := negb (Qle_bool y x).

End Py.


(** ** Exceptions *)

Inductive exn : Type :=
  | KeyError (key : string)
  | ValueError (text : string)
  | HTTPException (status_code : Z) (detail : string).

Inductive result (A : Type) : Type :=
  | Ok (a : A)
  | Raise (e : exn).
Arguments Ok {A} a.
Arguments Raise {A} e.

Definition bind {A B} (r : result A) (k : A -> result B) : result B :=
  match r with
  | Ok a => k a
  | Raise e => Raise e
  end.

Notation "x <- r ;; k" := (bind r (fun x => k))
  (at level 100, r at next level, right associativity).

(** [d[key]] on a dictionary entry that may be absent. *)
Definition getitem {A} (entry : option A) (key : string) : result A :=
  match entry with
  | Some a => Ok a
  | None => Raise (KeyError key)
  end.

(** [float(s)], raising [ValueError] on a malformed literal. *)
Definition float_or_raise (s : string) : result Q :=
  match Py.float s with
  | Some q => Ok q
  | None => Raise (ValueError s)
  end.

(** Comparisons of an integer statistic with a float line. *)
Definition gt_line (n : Z) (line : Q) : bool := Py.Qltb line (inject_Z n).
Definition lt_line (n : Z) (line : Q) : bool := Py.Qltb (inject_Z n) line.
Definition eq_line (n : Z) (line : Q) : bool := Qeq_bool (inject_Z n) line.

(** [line == int(line)] *)
Definition is_whole (line : Q) : bool := Qeq_bool line (inject_Z (Py.trunc line)).

(** ** Match statistics

    The [stats] dictionary handed to the resolvers.  A field is [None]
    when the key is absent, so that [stats['k']] can raise [KeyError] and
    [stats.get('k', d)] can fall back on [d]. *)

Record stats : Type := {
  outcome : option string;
  home_score : option Z;
  away_score : option Z;
  total_goals : option Z;
  both_scored : option bool;
  total_corners : option Z;
  home_corners : option Z;
  away_corners : option Z;
  total_yellow : option Z;
  home_yellow : option Z;
  away_yellow : option Z;
  has_penalty : option bool;
  first_goal : option string
}.

(** Membership of a string in a short literal list. *)
Definition among (s : string) (l : list string) : bool :=
  existsb (String.eqb s) l.

(** What [settle_bet_by_type] returns: [True], [False] or ['push']. *)
Inductive verdict : Type := Win | Lose | Push.

Definition of_bool (b : bool) : verdict := if b then Win else Lose.

(** ** The SQLite tables

    One module per table, holding the row type with the columns the
    settlement and placement code reads or writes.  Time stamps and the
    free-text [description] of a transaction are not modelled; every column
    an [UPDATE] names is taken to exist. *)

Module user.
Record row : Type := {
  balance : Z;
  wager_remaining : Z;
  bets_total : Z;
  bets_won : Z;
  bets_lost : Z;
  bets_profit : Z;
  predictions_won : Z;
  predictions_lost : Z;
  predictions_profit : Z;
  predictions_correct : Z;
  predictions_incorrect : Z;
  referred_by : option Z
}.
End user.

Module bet.
Record row : Type := {
  bet_id : Z;
  user_id : Z;
  match_id : string;
  bet_type : string;
  amount : Z;
  odds : Q;
  potential_win : Z;
  home_team : option string;
  away_team : option string;
  match_date : option string;
  status : string;
  result : option string;
  profit : Z;
  payout : option Z;
  counted_for_wager : Z
}.
End bet.

Module prediction.
Record row : Type := {
  prediction_id : Z;
  user_id : Z;
  match_id : string;
  prediction : string;
  status : string;
  actual_result : option string;
  points_change : Z
}.
End prediction.

Module transaction.
Record row : Type := {
  user_id : Z;
  type : string;
  amount : Z;
  balance_before : option Z;
  balance_after : option Z;
  wager_before : option Z;
  wager_after : option Z;
  reference_id : option string
}.
End transaction.

(** The database: [users] is keyed by its primary key, the other tables
    are kept in row order; [transactions] only ever grows at its end. *)
Record db : Type := {
  users : gmap Z user.row;
  bets : list bet.row;
  predictions : list prediction.row;
  transactions : list transaction.row
}.

Definition with_users (f : gmap Z user.row -> gmap Z user.row) (d : db) : db :=
  {| users := f (users d); bets := bets d;
     predictions := predictions d; transactions := transactions d |}.

Definition with_bets (f : list bet.row -> list bet.row) (d : db) : db :=
  {| users := users d; bets := f (bets d);
     predictions := predictions d; transactions := transactions d |}.

Definition with_predictions (f : list prediction.row -> list prediction.row) (d : db) : db :=
  {| users := users d; bets := bets d;
     predictions := f (predictions d); transactions := transactions d |}.

(** [INSERT INTO transactions ...] *)
Definition insert_transaction (t : transaction.row) (d : db) : db :=
  {| users := users d; bets := bets d;
     predictions := predictions d; transactions := transactions d ++ [t] |}.

(** [UPDATE users SET ... WHERE user_id = ?] *)
Definition update_user (user_id : Z) (f : user.row -> user.row) (d : db) : db :=
  with_users (alter f user_id) d.

(** [UPDATE bets SET ... WHERE bet_id = ?] *)
Definition update_bet (bet_id : Z) (f : bet.row -> bet.row) (d : db) : db :=
  with_bets (map (fun b => if bet.bet_id b =? bet_id then f b else b)) d.

(** [UPDATE predictions SET ... WHERE prediction_id = ?] *)
Definition update_prediction (prediction_id : Z)
    (f : prediction.row -> prediction.row) (d : db) : db :=
  with_predictions
    (map (fun p => if prediction.prediction_id p =? prediction_id then f p else p)) d.

(** Column assignments. *)
Definition set_balance (f : Z -> Z) (u : user.row) : user.row :=
  {| user.balance := f (user.balance u);
     user.wager_remaining := user.wager_remaining u;
     user.bets_total := user.bets_total u;
     user.bets_won := user.bets_won u;
     user.bets_lost := user.bets_lost u;
     user.bets_profit := user.bets_profit u;
     user.predictions_won := user.predictions_won u;
     user.predictions_lost := user.predictions_lost u;
     user.predictions_profit := user.predictions_profit u;
     user.predictions_correct := user.predictions_correct u;
     user.predictions_incorrect := user.predictions_incorrect u;
     user.referred_by := user.referred_by u |}.

Definition set_wager_remaining (w : Z) (u : user.row) : user.row :=
  {| user.balance := user.balance u;
     user.wager_remaining := w;
     user.bets_total := user.bets_total u;
     user.bets_won := user.bets_won u;
     user.bets_lost := user.bets_lost u;
     user.bets_profit := user.bets_profit u;
     user.predictions_won := user.predictions_won u;
     user.predictions_lost := user.predictions_lost u;
     user.predictions_profit := user.predictions_profit u;
     user.predictions_correct := user.predictions_correct u;
     user.predictions_incorrect := user.predictions_incorrect u;
     user.referred_by := user.referred_by u |}.

(** The statistics counters of a user row: each is bumped by its own
    column update and never read by the settlement code. *)
Inductive counter : Type :=
  | c_bets_total | c_bets_won | c_bets_lost | c_bets_profit
  | c_predictions_won | c_predictions_lost | c_predictions_profit
  | c_predictions_correct | c_predictions_incorrect.

Definition bump (c : counter) (k : Z) (u : user.row) : user.row :=
  let on c' v := match c, c' with
                 | c_bets_total, c_bets_total
                 | c_bets_won, c_bets_won
                 | c_bets_lost, c_bets_lost
                 | c_bets_profit, c_bets_profit
                 | c_predictions_won, c_predictions_won
                 | c_predictions_lost, c_predictions_lost
                 | c_predictions_profit, c_predictions_profit
                 | c_predictions_correct, c_predictions_correct
                 | c_predictions_incorrect, c_predictions_incorrect => v + k
                 | _, _ => v
                 end in
  {| user.balance := user.balance u;
     user.wager_remaining := user.wager_remaining u;
     user.bets_total := on c_bets_total (user.bets_total u);
     user.bets_won := on c_bets_won (user.bets_won u);
     user.bets_lost := on c_bets_lost (user.bets_lost u);
     user.bets_profit := on c_bets_profit (user.bets_profit u);
     user.predictions_won := on c_predictions_won (user.predictions_won u);
     user.predictions_lost := on c_predictions_lost (user.predictions_lost u);
     user.predictions_profit := on c_predictions_profit (user.predictions_profit u);
     user.predictions_correct := on c_predictions_correct (user.predictions_correct u);
     user.predictions_incorrect := on c_predictions_incorrect (user.predictions_incorrect u);
     user.referred_by := user.referred_by u |}.

(** [UPDATE bets SET status = ?, ...]: the columns a settlement writes. *)
Definition settle_row (status : string) (result : option (option string))
    (profit : option Z) (payout : option Z) (b : bet.row) : bet.row :=
  {| bet.bet_id := bet.bet_id b;
     bet.user_id := bet.user_id b;
     bet.match_id := bet.match_id b;
     bet.bet_type := bet.bet_type b;
     bet.amount := bet.amount b;
     bet.odds := bet.odds b;
     bet.potential_win := bet.potential_win b;
     bet.home_team := bet.home_team b;
     bet.away_team := bet.away_team b;
     bet.match_date := bet.match_date b;
     bet.status := status;
     bet.result := default (bet.result b) result;
     bet.profit := default (bet.profit b) profit;
     bet.payout := match payout with Some w => Some w | None => bet.payout b end;
     bet.counted_for_wager := bet.counted_for_wager b |}.

(** [UPDATE predictions SET status = ?, ...] *)
Definition settle_prediction_row (status : string) (actual : option (option string))
    (points : option Z) (p : prediction.row) : prediction.row :=
  {| prediction.prediction_id := prediction.prediction_id p;
     prediction.user_id := prediction.user_id p;
     prediction.match_id := prediction.match_id p;
     prediction.prediction := prediction.prediction p;
     prediction.status := status;
     prediction.actual_result := default (prediction.actual_result p) actual;
     prediction.points_change := default (prediction.points_change p) points |}.

(** [SELECT ... FROM bets WHERE match_id = ? AND status = 'pending'] *)
Definition pending_bets (match_id : string) (d : db) : list bet.row :=
  List.filter (fun b => String.eqb (bet.match_id b) match_id
                        && String.eqb (bet.status b) "pending")%bool (bets d).

(** [SELECT ... FROM predictions WHERE match_id = ? AND status = 'pending'] *)
Definition pending_predictions (match_id : string) (d : db) : list prediction.row :=
  List.filter (fun p => String.eqb (prediction.match_id p) match_id
                        && String.eqb (prediction.status p) "pending")%bool (predictions d).

(** [user[0]['balance'] if user else 0] after
    [SELECT balance FROM users WHERE user_id = ?]. *)
Definition balance_or_zero (user_id : Z) (d : db) : Z :=
  match users d !! user_id with
  | Some u => user.balance u
  | None => 0
  end.

(** [int(amount * odds)] *)
Definition winnings_of (amount : Z) (odds : Q) : Z :=
  Py.trunc (inject_Z amount * odds).
(** ** [src/bot.py]: the bot-side resolver *)

Module Bot.

(** [check_bet_won(bet_type, stats)]: [Some true] is [True], [Some false]
    is [False], [None] is Python's [None] (left pending by the caller). *)
Definition check_bet_won (bet_type : string) (s : stats) : result (option bool) :=
  let outcome := default "draw" (outcome s) in
  let home_score := default 0 (home_score s) in
  let away_score := default 0 (away_score s) in
  let total := default 0 (total_goals s) in
  let bet_type :=
    if Py.startswith bet_type "LIVE_" then Py.replace bet_type "LIVE_" ""
    else bet_type in
  if among bet_type ["home"; "draw"; "away"] then
    Ok (Some (String.eqb bet_type outcome))
  else if Py.startswith bet_type "score_" then
    let score := Py.replace bet_type "score_" "" in
    Ok (Some (String.eqb score (Py.str home_score ++ "-" ++ Py.str away_score)))
  else if Py.startswith bet_type "total_over_" then
    line <- float_or_raise (Py.replace bet_type "total_over_" "") ;;
    Ok (Some (gt_line total line))
  else if Py.startswith bet_type "total_under_" then
    line <- float_or_raise (Py.replace bet_type "total_under_" "") ;;
    Ok (Some (lt_line total line))
  else if String.eqb bet_type "btts_yes" then
    Ok (Some (default false (both_scored s)))
  else if String.eqb bet_type "btts_no" then
    Ok (Some (negb (default false (both_scored s))))
  else if String.eqb bet_type "total_even" then
    Ok (Some (total mod 2 =? 0))
  else if String.eqb bet_type "total_odd" then
    Ok (Some (total mod 2 =? 1))
  else
  let corners := default 0 (total_corners s) in
  if Py.startswith bet_type "corners_over_" then
    line <- float_or_raise (Py.replace bet_type "corners_over_" "") ;;
    Ok (Some (gt_line corners line))
  else if Py.startswith bet_type "corners_under_" then
    line <- float_or_raise (Py.replace bet_type "corners_under_" "") ;;
    Ok (Some (lt_line corners line))
  else
  let cards := default 0 (total_yellow s) in
  if Py.startswith bet_type "cards_over_" then
    line <- float_or_raise (Py.replace bet_type "cards_over_" "") ;;
    Ok (Some (gt_line cards line))
  else if Py.startswith bet_type "cards_under_" then
    line <- float_or_raise (Py.replace bet_type "cards_under_" "") ;;
    Ok (Some (lt_line cards line))
  else if Py.startswith bet_type "home_over_" then
    line <- float_or_raise (Py.replace bet_type "home_over_" "") ;;
    Ok (Some (gt_line home_score line))
  else if Py.startswith bet_type "home_under_" then
    line <- float_or_raise (Py.replace bet_type "home_under_" "") ;;
    Ok (Some (lt_line home_score line))
  else if Py.startswith bet_type "away_over_" then
    line <- float_or_raise (Py.replace bet_type "away_over_" "") ;;
    Ok (Some (gt_line away_score line))
  else if Py.startswith bet_type "away_under_" then
    line <- float_or_raise (Py.replace bet_type "away_under_" "") ;;
    Ok (Some (lt_line away_score line))
  else
  let has_penalty := default false (has_penalty s) in
  if String.eqb bet_type "penalty_yes" then Ok (Some has_penalty)
  else if String.eqb bet_type "penalty_no" then Ok (Some (negb has_penalty))
  else if String.eqb bet_type "dc_1x" then Ok (Some (among outcome ["home"; "draw"]))
  else if String.eqb bet_type "dc_x2" then Ok (Some (among outcome ["draw"; "away"]))
  else if String.eqb bet_type "dc_12" then Ok (Some (among outcome ["home"; "away"]))
  else if String.eqb bet_type "dnb_home" then Ok (Some (String.eqb outcome "home"))
  else if String.eqb bet_type "dnb_away" then Ok (Some (String.eqb outcome "away"))
  else
  let first_goal := default "" (first_goal s) in
  if (Py.startswith bet_type "first_goal_" && String.eqb first_goal "")%bool then
    Ok None
  else if (Py.startswith bet_type "first_goal_" && String.eqb bet_type "first_goal_home")%bool then
    Ok (Some (String.eqb first_goal "home"))
  else if (Py.startswith bet_type "first_goal_" && String.eqb bet_type "first_goal_away")%bool then
    Ok (Some (String.eqb first_goal "away"))
  else if (Py.startswith bet_type "first_goal_" && String.eqb bet_type "first_goal_none")%bool then
    Ok (Some (String.eqb first_goal "none"))
  else if Py.startswith bet_type "handicap_home_" then
    line <- float_or_raise (Py.replace bet_type "handicap_home_" "") ;;
    Ok (Some (Py.Qltb 0 (inject_Z (home_score - away_score) + line)))
  else if Py.startswith bet_type "handicap_away_" then
    line <- float_or_raise (Py.replace bet_type "handicap_away_" "") ;;
    Ok (Some (Py.Qltb 0 (inject_Z (away_score - home_score) + line)))
  else if Py.startswith bet_type "asian_home_" then
    line <- float_or_raise (Py.replace bet_type "asian_home_" "") ;;
    Ok (Some (Py.Qltb 0 (inject_Z (home_score - away_score) + line)))
  else if Py.startswith bet_type "asian_away_" then
    line <- float_or_raise (Py.replace bet_type "asian_away_" "") ;;
    Ok (Some (Py.Qltb 0 (inject_Z (away_score - home_score) + line)))
  else
  let home_corners := default 0 (home_corners s) in
  let away_corners := default 0 (away_corners s) in
  if Py.startswith bet_type "corners_home_over_" then
    line <- float_or_raise (Py.replace bet_type "corners_home_over_" "") ;;
    Ok (Some (gt_line home_corners line))
  else if Py.startswith bet_type "corners_home_under_" then
    line <- float_or_raise (Py.replace bet_type "corners_home_under_" "") ;;
    Ok (Some (lt_line home_corners line))
  else if Py.startswith bet_type "corners_away_over_" then
    line <- float_or_raise (Py.replace bet_type "corners_away_over_" "") ;;
    Ok (Some (gt_line away_corners line))
  else if Py.startswith bet_type "corners_away_under_" then
    line <- float_or_raise (Py.replace bet_type "corners_away_under_" "") ;;
    Ok (Some (lt_line away_corners line))
  else
  let home_cards := default 0 (home_yellow s) in
  let away_cards := default 0 (away_yellow s) in
  if Py.startswith bet_type "cards_home_over_" then
    line <- float_or_raise (Py.replace bet_type "cards_home_over_" "") ;;
    Ok (Some (gt_line home_cards line))
  else if Py.startswith bet_type "cards_home_under_" then
    line <- float_or_raise (Py.replace bet_type "cards_home_under_" "") ;;
    Ok (Some (lt_line home_cards line))
  else if Py.startswith bet_type "cards_away_over_" then
    line <- float_or_raise (Py.replace bet_type "cards_away_over_" "") ;;
    Ok (Some (gt_line away_cards line))
  else if Py.startswith bet_type "cards_away_under_" then
    line <- float_or_raise (Py.replace bet_type "cards_away_under_" "") ;;
    Ok (Some (lt_line away_cards line))
  else Ok (Some false).


(** The [result] dictionary of [settle_all_bets]. *)
Record counts : Type := {
  bets_settled : Z;
  bets_won : Z;
  bets_lost : Z;
  predictions_settled : Z;
  predictions_correct : Z
}.

Definition zero : counts :=
  {| bets_settled := 0; bets_won := 0; bets_lost := 0;
     predictions_settled := 0; predictions_correct := 0 |}.

(** One turn of the loop over the pending bets. *)
Definition settle_one_bet (s : stats) (b : bet.row) (r : counts) (d : db)
  : result counts * db :=
  match check_bet_won (bet.bet_type b) s with
  | Raise e => (Raise e, d)
  | Ok None => (Ok r, d)
  | Ok (Some true) =>
      let winnings := winnings_of (bet.amount b) (bet.odds b) in
      let balance_before := balance_or_zero (bet.user_id b) d in
      let balance_after := balance_before + winnings in
      let d := update_bet (bet.bet_id b) (settle_row "won" None None (Some winnings)) d in
      let d := update_user (bet.user_id b)
                 (fun u => bump c_bets_won 1 (set_balance (fun _ => balance_after) u)) d in
      let d := insert_transaction
                 {| transaction.user_id := bet.user_id b;
                    transaction.type := "bet_win";
                    transaction.amount := winnings;
                    transaction.balance_before := Some balance_before;
                    transaction.balance_after := Some balance_after;
                    transaction.wager_before := None;
                    transaction.wager_after := None;
                    transaction.reference_id := Some (Py.str (bet.bet_id b)) |} d in
      (Ok {| bets_settled := bets_settled r + 1; bets_won := bets_won r + 1;
             bets_lost := bets_lost r;
             predictions_settled := predictions_settled r;
             predictions_correct := predictions_correct r |}, d)
  | Ok (Some false) =>
      let balance := balance_or_zero (bet.user_id b) d in
      let d := update_bet (bet.bet_id b) (settle_row "lost" None None None) d in
      let d := update_user (bet.user_id b) (bump c_bets_lost 1) d in
      let d := insert_transaction
                 {| transaction.user_id := bet.user_id b;
                    transaction.type := "bet_lose";
                    transaction.amount := 0;
                    transaction.balance_before := Some balance;
                    transaction.balance_after := Some balance;
                    transaction.wager_before := None;
                    transaction.wager_after := None;
                    transaction.reference_id := Some (Py.str (bet.bet_id b)) |} d in
      (Ok {| bets_settled := bets_settled r + 1; bets_won := bets_won r;
             bets_lost := bets_lost r + 1;
             predictions_settled := predictions_settled r;
             predictions_correct := predictions_correct r |}, d)
  end.

Fixpoint settle_bets (s : stats) (rows : list bet.row) (r : counts) (d : db)
  : result counts * db :=
  match rows with
  | [] => (Ok r, d)
  | b :: rows' =>
      match settle_one_bet s b r d with
      | (Ok r', d') => settle_bets s rows' r' d'
      | (Raise e, d') => (Raise e, d')
      end
  end.

(** One turn of the loop over the pending predictions. *)
Definition settle_one_prediction (s : stats) (p : prediction.row) (r : counts) (d : db)
  : counts * db :=
  let won := bool_decide (Some (prediction.prediction p) = outcome s) in
  let uid := prediction.user_id p in
  let pid := prediction.prediction_id p in
  let balance_before := balance_or_zero uid d in
  if won then
    let balance_after := balance_before + 5 in
    let d := update_prediction pid (settle_prediction_row "correct" None (Some 5)) d in
    let d := update_user uid
               (fun u => bump c_predictions_won 1 (set_balance (fun _ => balance_after) u)) d in
    let d := insert_transaction
               {| transaction.user_id := uid;
                  transaction.type := "prediction_win";
                  transaction.amount := 5;
                  transaction.balance_before := Some balance_before;
                  transaction.balance_after := Some balance_after;
                  transaction.wager_before := None;
                  transaction.wager_after := None;
                  transaction.reference_id := Some (Py.str pid) |} d in
    ({| bets_settled := bets_settled r; bets_won := bets_won r; bets_lost := bets_lost r;
        predictions_settled := predictions_settled r + 1;
        predictions_correct := predictions_correct r + 1 |}, d)
  else
    let balance_after := balance_before - 10 in
    let d := update_prediction pid (settle_prediction_row "incorrect" None (Some (-10))) d in
    let d := update_user uid
               (fun u => bump c_predictions_lost 1 (set_balance (fun _ => balance_after) u)) d in
    let d := insert_transaction
               {| transaction.user_id := uid;
                  transaction.type := "prediction_lose";
                  transaction.amount := -10;
                  transaction.balance_before := Some balance_before;
                  transaction.balance_after := Some balance_after;
                  transaction.wager_before := None;
                  transaction.wager_after := None;
                  transaction.reference_id := Some (Py.str pid) |} d in
    ({| bets_settled := bets_settled r; bets_won := bets_won r; bets_lost := bets_lost r;
        predictions_settled := predictions_settled r + 1;
        predictions_correct := predictions_correct r |}, d).

Fixpoint settle_predictions (s : stats) (rows : list prediction.row) (r : counts) (d : db)
  : counts * db :=
  match rows with
  | [] => (r, d)
  | p :: rows' =>
      let '(r', d') := settle_one_prediction s p r d in
      settle_predictions s rows' r' d'
  end.

(** [settle_all_bets(match_id, stats)]: the rows are selected once, before
    each loop; every statement commits on its own, so the writes made
    before an exception stay. *)
Definition settle_all_bets (match_id : string) (s : stats) (d : db)
  : result counts * db :=
  match settle_bets s (pending_bets match_id d) zero d with
  | (Raise e, d') => (Raise e, d')
  | (Ok r, d') =>
      let '(r', d'') := settle_predictions s (pending_predictions match_id d') r d' in
      (Ok r', d'')
  end.

(** *** Finished matches and the settlement jobs *)

(** A dictionary of [get_finished_matches_from_sheets()]: every key is
    set, the numbers by [int(... or 0)], [total_corners] and
    [total_yellow] as sums, the two flags by a comparison with ['yes']. *)
Module finished.
Record t : Type := {
  matchId : string;
  homeTeam : string;
  awayTeam : string;
  home_score : Z;
  away_score : Z;
  total_goals : Z;
  home_corners : Z;
  away_corners : Z;
  total_corners : Z;
  home_yellow : Z;
  away_yellow : Z;
  total_yellow : Z;
  both_scored : bool;
  outcome : string;
  has_penalty : bool;
  date : string
}.
End finished.

(** [_match_data_complete(match)] *)
Definition _match_data_complete (m : finished.t) : bool :=
  let expected_goals := finished.home_score m + finished.away_score m in
  let actual_goals := finished.total_goals m in
  if (negb (actual_goals =? expected_goals) && (0 <? expected_goals))%bool then false
  else if ((0 <? finished.total_goals m) && (finished.total_corners m =? 0))%bool then false
  else if finished.total_corners m <? 2 then false
  else true.

(** A key event of an ESPN summary: its [type.type], its [clock.value]
    and its [team.id] as text. *)
Record key_event : Type := {
  type_of : string;
  clock : Q;
  team_id : string
}.

(** [ev_type == 'goal' or ('penalty' in ev_type and 'scored' in ev_type)] *)
Definition is_goal (ke : key_event) : bool :=
  let ev_type := Py.lower (type_of ke) in
  (String.eqb ev_type "goal"
   || (Py.contains "penalty" ev_type && Py.contains "scored" ev_type))%bool.

(** [goals.sort(key=lambda x: x[0])]: equal clock values keep their
    order. *)
Fixpoint insert_goal (ke : key_event) (l : list key_event) : list key_event :=
  match l with
  | [] => [ke]
  | y :: l' => if Py.Qltb (clock ke) (clock y) then ke :: l else y :: insert_goal ke l'
  end.

Definition sort_goals (goals : list key_event) : list key_event :=
  fold_left (fun acc ke => insert_goal ke acc) goals [].

(** What [get_first_goal_team] reads off the [keyEvents] of the match it
    found, [home_id] being the id of the home side: [''] without a goal. *)
Definition first_goal_of (home_id : string) (keyEvents : list key_event) : string :=
  match sort_goals (List.filter is_goal keyEvents) with
  | [] => ""
  | g :: _ => if String.eqb (team_id g) home_id then "home" else "away"
  end.

(** [get_first_goal_team(date_str, home_team, away_team, home_score,
    away_score)]; [espn] is what the search of the ESPN score boards
    returns when both sides have scored: ['home'], ['away'] or ['']. *)
Definition get_first_goal_team (espn : string) (home_score away_score : Z) : string :=
  if ((home_score =? 0) && (away_score =? 0))%bool then "none"
  else if ((0 <? home_score) && (away_score =? 0))%bool then "home"
  else if ((0 <? away_score) && (home_score =? 0))%bool then "away"
  else espn.

(** The [stats] dictionary [auto_settle] and [settle_cmd] build for a
    finished match. *)
Definition stats_of (m : finished.t) (first_goal : string) : stats :=
  {| outcome := Some (finished.outcome m);
     home_score := Some (finished.home_score m);
     away_score := Some (finished.away_score m);
     total_goals := Some (finished.total_goals m);
     both_scored := Some (finished.both_scored m);
     total_corners := Some (finished.home_corners m + finished.away_corners m);
     home_corners := Some (finished.home_corners m);
     away_corners := Some (finished.away_corners m);
     total_yellow := Some (finished.home_yellow m + finished.away_yellow m);
     home_yellow := Some (finished.home_yellow m);
     away_yellow := Some (finished.away_yellow m);
     has_penalty := Some (finished.has_penalty m);
     first_goal := Some first_goal |}.

(** One turn of the loop of [auto_settle] over the finished matches:
    [_settled] and the database after it, or the exception that ends the
    job.  [espn] stands for the ESPN search of [get_first_goal_team]. *)
Definition auto_settle_match (espn : finished.t -> string) (m : finished.t)
    (_settled : gset string) (d : db) : result (gset string) * db :=
  let mid := finished.matchId m in
  if bool_decide (mid ∈ _settled) then (Ok _settled, d)
  else
    let pending_count := length (pending_bets mid d) in
    if Nat.eqb pending_count 0 then (Ok ({[ mid ]} ∪ _settled), d)
    else if negb (_match_data_complete m) then (Ok _settled, d)
    else
      let first_goal :=
        get_first_goal_team (espn m) (finished.home_score m) (finished.away_score m) in
      match settle_all_bets mid (stats_of m first_goal) d with
      | (Raise e, d') => (Raise e, d')
      | (Ok st, d') =>
          if ((0 <? bets_settled st) || (0 <? predictions_settled st))%bool
          then (Ok ({[ mid ]} ∪ _settled), d')
          else (Ok _settled, d')
      end.

(** [auto_settle(context)]: an exception ends the loop and is logged. *)
Fixpoint auto_settle (espn : finished.t -> string) (matches : list finished.t)
    (_settled : gset string) (d : db) : gset string * db :=
  match matches with
  | [] => (_settled, d)
  | m :: matches' =>
      match auto_settle_match espn m _settled d with
      | (Ok _settled', d') => auto_settle espn matches' _settled' d'
      | (Raise _, d') => (_settled, d')
      end
  end.

End Bot.
(** ** [src/database.py] *)

Module Database.

(** [update_user_balance(user_id, amount, transaction_type, description,
    reference_id, admin_id, affect_wager)].  Returns [False], writing
    nothing, when the user is unknown or the balance would become
    negative. *)
Definition update_user_balance (user_id amount : Z) (transaction_type : string)
    (reference_id : option string) (affect_wager : bool) (d : db) : bool * db :=
  match users d !! user_id with
  | None => (false, d)
  | Some row =>
      let balance_before := user.balance row in
      let wager_before := user.wager_remaining row in
      let balance_after := balance_before + amount in
      if balance_after <? 0 then (false, d)
      else
        let wager_after :=
          if (affect_wager && (0 <? amount))%bool then wager_before + amount
          else wager_before in
        let d := update_user user_id
                   (fun u => set_wager_remaining wager_after
                               (set_balance (fun _ => balance_after) u)) d in
        let d := insert_transaction
                   {| transaction.user_id := user_id;
                      transaction.type := transaction_type;
                      transaction.amount := amount;
                      transaction.balance_before := Some balance_before;
                      transaction.balance_after := Some balance_after;
                      transaction.wager_before := Some wager_before;
                      transaction.wager_after := Some wager_after;
                      transaction.reference_id := reference_id |} d in
        (true, d)
  end.

(** [cursor.lastrowid] of an [AUTOINCREMENT] key: one more than the
    largest key in the table (rows are never deleted). *)
Definition next_id (ids : list Z) : Z := 1 + foldr Z.max 0 ids.

(** [place_bet(user_id, match_id, bet_type, amount, odds, home_team,
    away_team, match_date)]: [None] when the user is unknown or cannot
    afford the stake. *)
Definition place_bet (user_id : Z) (match_id bet_type : string) (amount : Z) (odds : Q)
    (home_team away_team match_date : option string) (d : db) : option Z * db :=
  match users d !! user_id with
  | None => (None, d)
  | Some user =>
      if user.balance user <? amount then (None, d)
      else
        let potential_win := winnings_of amount odds in
        let balance_before := user.balance user in
        let balance_after := balance_before - amount in
        let wager_before := user.wager_remaining user in
        let wager_after := Z.max 0 (wager_before - amount) in
        let d := update_user user_id
                   (fun u => bump c_bets_total 1
                               (set_wager_remaining wager_after
                                  (set_balance (fun _ => balance_after) u))) d in
        let bet_id := next_id (map bet.bet_id (bets d)) in
        let d := with_bets (fun rows => (rows ++
                   [{| bet.bet_id := bet_id;
                       bet.user_id := user_id;
                       bet.match_id := match_id;
                       bet.bet_type := bet_type;
                       bet.amount := amount;
                       bet.odds := odds;
                       bet.potential_win := potential_win;
                       bet.home_team := home_team;
                       bet.away_team := away_team;
                       bet.match_date := match_date;
                       bet.status := "pending";
                       bet.result := None;
                       bet.profit := 0;
                       bet.payout := None;
                       bet.counted_for_wager := 1 |}])%list) d in
        let d := insert_transaction
                   {| transaction.user_id := user_id;
                      transaction.type := "bet";
                      transaction.amount := - amount;
                      transaction.balance_before := Some balance_before;
                      transaction.balance_after := Some balance_after;
                      transaction.wager_before := Some wager_before;
                      transaction.wager_after := Some wager_after;
                      transaction.reference_id := Some (Py.str bet_id) |} d in
        (Some bet_id, d)
  end.

(** [get_user_bets(user_id)] with the default [limit = 20]. *)
Definition get_user_bets (user_id : Z) (d : db) : list bet.row :=
  take 20 (List.filter (fun b => bet.user_id b =? user_id) (bets d)).

(** [SELECT * FROM bets WHERE bet_id = ? AND status = 'pending'] with
    [fetchone()]. *)
Definition fetch_pending_bet (bet_id : Z) (d : db) : option bet.row :=
  List.find (fun b => (bet.bet_id b =? bet_id)
                      && String.eqb (bet.status b) "pending")%bool (bets d).

(** [SELECT * FROM predictions WHERE prediction_id = ? AND status = 'pending']
    with [fetchone()]. *)
Definition fetch_pending_prediction (prediction_id : Z) (d : db) : option prediction.row :=
  List.find (fun p => (prediction.prediction_id p =? prediction_id)
                      && String.eqb (prediction.status p) "pending")%bool (predictions d).

(** [settle_bet(bet_id, result, exact_score)]: acts only on a bet that is
    still pending. *)
Definition settle_bet (bet_id : Z) (result : string) (exact_score : option string)
    (d : db) : bool * db :=
  match fetch_pending_bet bet_id d with
  | None => (false, d)
  | Some b =>
      let user_id := bet.user_id b in
      let amount := bet.amount b in
      let potential_win := bet.potential_win b in
      let bet_type := bet.bet_type b in
      let is_won :=
        if Py.startswith bet_type "score_" then
          let bet_score := Py.replace bet_type "score_" "" in
          match exact_score with
          | Some e => (negb (String.eqb e "") && String.eqb bet_score e)%bool
          | None => false
          end
        else String.eqb bet_type result in
      if is_won then
        let profit := potential_win - amount in
        let d := snd (update_user_balance user_id potential_win "bet_win"
                        (Some (Py.str bet_id)) false d) in
        let d := update_user user_id
                   (fun u => bump c_bets_profit profit (bump c_bets_won 1 u)) d in
        let d := update_bet bet_id (settle_row "won" (Some (Some result)) (Some profit) None) d in
        (true, d)
      else
        let profit := - amount in
        let d := update_user user_id
                   (fun u => bump c_bets_profit profit (bump c_bets_lost 1 u)) d in
        let d := update_bet bet_id (settle_row "lost" (Some (Some result)) (Some profit) None) d in
        (true, d)
  end.

(** [settle_prediction(prediction_id, actual_result)] *)
Definition settle_prediction (prediction_id : Z) (actual_result : string) (d : db)
  : bool * db :=
  match fetch_pending_prediction prediction_id d with
  | None => (false, d)
  | Some pred =>
      let user_id := prediction.user_id pred in
      let is_correct := String.eqb (prediction.prediction pred) actual_result in
      if is_correct then
        let d := snd (update_user_balance user_id 5 "prediction_win"
                        (Some (Py.str prediction_id)) false d) in
        let d := update_user user_id
                   (fun u => bump c_predictions_profit 5 (bump c_predictions_won 1 u)) d in
        let d := update_prediction prediction_id
                   (settle_prediction_row "correct" (Some (Some actual_result)) (Some 5)) d in
        (true, d)
      else
        let d := snd (update_user_balance user_id (-10) "prediction_loss"
                        (Some (Py.str prediction_id)) false d) in
        let d := update_user user_id
                   (fun u => bump c_predictions_profit (-10) (bump c_predictions_lost 1 u)) d in
        let d := update_prediction prediction_id
                   (settle_prediction_row "incorrect" (Some (Some actual_result)) (Some (-10))) d in
        (true, d)
  end.

Fixpoint settle_bets (result : string) (exact_score : option string)
    (rows : list bet.row) (n : Z) (d : db) : Z * db :=
  match rows with
  | [] => (n, d)
  | b :: rows' =>
      let '(ok, d') := settle_bet (bet.bet_id b) result exact_score d in
      settle_bets result exact_score rows' (if ok then n + 1 else n) d'
  end.

Fixpoint settle_predictions (result : string)
    (rows : list prediction.row) (n : Z) (d : db) : Z * db :=
  match rows with
  | [] => (n, d)
  | p :: rows' =>
      let '(ok, d') := settle_prediction (prediction.prediction_id p) result d in
      settle_predictions result rows' (if ok then n + 1 else n) d'
  end.

(** [settle_all_for_match(match_id, result, exact_score)]: returns
    [(bets_settled, predictions_settled)]. *)
Definition settle_all_for_match (match_id result : string) (exact_score : option string)
    (d : db) : (Z * Z) * db :=
  let '(bets_settled, d) :=
    settle_bets result exact_score (pending_bets match_id d) 0 d in
  let '(predictions_settled, d) :=
    settle_predictions result (pending_predictions match_id d) 0 d in
  ((bets_settled, predictions_settled), d).

(** *** Accounts, deposits and the wagering requirement

    The profile columns of [users] ([username], [first_name], [last_name],
    [last_active], [predictions_total], ...) are not part of [user.row];
    a statement that only writes them leaves the modelled tables as they
    are. *)

(** [get_user(user_id)] *)
Definition get_user (user_id : Z) (d : db) : option user.row := users d !! user_id.

(** The row [INSERT INTO users (user_id, username, first_name, last_name,
    balance) VALUES (?, ?, ?, ?, 50)] creates: every other column takes its
    default. *)
Definition welcome : user.row :=
  {| user.balance := 50;
     user.wager_remaining := 0;
     user.bets_total := 0;
     user.bets_won := 0;
     user.bets_lost := 0;
     user.bets_profit := 0;
     user.predictions_won := 0;
     user.predictions_lost := 0;
     user.predictions_profit := 0;
     user.predictions_correct := 0;
     user.predictions_incorrect := 0;
     user.referred_by := None |}.

(** [create_user(user_id, ...)]: [INSERT OR IGNORE], and the welcome entry
    of the ledger only when a row was inserted. *)
Definition create_user (user_id : Z) (d : db) : option user.row * db :=
  match users d !! user_id with
  | Some _ => (get_user user_id d, d)
  | None =>
      let d := with_users (insert user_id welcome) d in
      let d := insert_transaction
                 {| transaction.user_id := user_id;
                    transaction.type := "bonus";
                    transaction.amount := 50;
                    transaction.balance_before := Some 0;
                    transaction.balance_after := Some 50;
                    transaction.wager_before := Some 0;
                    transaction.wager_after := Some 0;
                    transaction.reference_id := None |} d in
      (get_user user_id d, d)
  end.

(** [get_or_create_user(user_id, ...)]: for a known user only the profile
    columns are refreshed. *)
Definition get_or_create_user (user_id : Z) (d : db) : option user.row * db :=
  match get_user user_id d with
  | None => create_user user_id d
  | Some _ => (get_user user_id d, d)
  end.

(** [can_claim_prize(user_id)]: [(can, wager_left)]. *)
Definition can_claim_prize (user_id : Z) (d : db) : bool * Z :=
  match get_user user_id d with
  | None => (false, 0)
  | Some user =>
      let wager_remaining := user.wager_remaining user in
      (wager_remaining <=? 0, Z.max 0 wager_remaining)
  end.

(** [reduce_wager(user_id, bet_amount)]: the new [wager_remaining]. *)
Definition reduce_wager (user_id bet_amount : Z) (d : db) : Z * db :=
  match users d !! user_id with
  | None => (0, d)
  | Some row =>
      let current_wager := user.wager_remaining row in
      let new_wager := Z.max 0 (current_wager - bet_amount) in
      (new_wager, update_user user_id (set_wager_remaining new_wager) d)
  end.

(** [admin_add_points(user_id, amount_points, admin_id)]: a purchase,
    which has to be wagered. *)
Definition admin_add_points (user_id amount_points : Z) (d : db) : bool * db :=
  update_user_balance user_id amount_points "deposit" None true d.

(** [admin_add_bonus(user_id, amount_points, admin_id)]: free points. *)
Definition admin_add_bonus (user_id amount_points : Z) (d : db) : bool * db :=
  update_user_balance user_id amount_points "bonus" None false d.

(** *** Selling a bet, making a prediction *)

(** [SELECT * FROM bets WHERE bet_id = ? AND user_id = ? AND status =
    'pending'] with [fetchone()]. *)
Definition fetch_own_pending_bet (bet_id user_id : Z) (d : db) : option bet.row :=
  List.find (fun b => (bet.bet_id b =? bet_id) && (bet.user_id b =? user_id)
                      && String.eqb (bet.status b) "pending")%bool (bets d).

(** [sell_bet(bet_id, user_id, sell_price)] *)
Definition sell_bet (bet_id user_id sell_price : Z) (d : db) : bool * db :=
  match fetch_own_pending_bet bet_id user_id d with
  | None => (false, d)
  | Some bet =>
      let d := update_bet bet_id
                 (settle_row "sold" None (Some (- bet.amount bet + sell_price)) None) d in
      let d := update_user user_id (set_balance (fun bal => bal + sell_price)) d in
      let d := insert_transaction
                 {| transaction.user_id := user_id;
                    transaction.type := "bet_sell";
                    transaction.amount := sell_price;
                    transaction.balance_before := None;
                    transaction.balance_after := None;
                    transaction.wager_before := None;
                    transaction.wager_after := None;
                    transaction.reference_id := Some (Py.str bet_id) |} d in
      (true, d)
  end.

(** [make_prediction(user_id, match_id, prediction, ...)]: [None] when the
    user already has a prediction on the match, whatever its status. *)
Definition make_prediction (user_id : Z) (match_id prediction : string) (d : db)
  : option Z * db :=
  if existsb (fun p => (prediction.user_id p =? user_id)
                       && String.eqb (prediction.match_id p) match_id)%bool
       (predictions d)
  then (None, d)
  else
    let prediction_id := next_id (map prediction.prediction_id (predictions d)) in
    let d := with_predictions (fun rows => (rows ++
               [{| prediction.prediction_id := prediction_id;
                   prediction.user_id := user_id;
                   prediction.match_id := match_id;
                   prediction.prediction := prediction;
                   prediction.status := "pending";
                   prediction.actual_result := None;
                   prediction.points_change := 0 |}])%list) d in
    (Some prediction_id, d).

(** [get_user_bets(user_id)] with its rows in the order of the query,
    [ORDER BY created_at DESC LIMIT 20]: the latest first, a row inserted
    later counting as created later.  [get_user_bets] above keeps the table
    order and has the same length. *)
Definition get_user_bets_latest_first (user_id : Z) (d : db) : list bet.row :=
  take 20 (rev (List.filter (fun b => bet.user_id b =? user_id) (bets d))).

End Database.
(** ** [src/api.py] *)

(** A runner and a market of the bookmaker feed.  An absent [name] is the
    empty string and an absent [open] is [true], the defaults the parser
    reads them with; an absent [price] is [None].  Prices are rationals. *)
Module runner.
Record t : Type := {
  name : string;
  open : bool;
  price : option Q
}.
End runner.

Module market.
Record t : Type := {
  name : string;
  open : bool;
  runners : list runner.t
}.
End market.

(** An option and a market of the catalogue shown to the user. *)
Module bet_option.
Record t : Type := {
  key : string;
  name : string;
  odds : Q;
  line : option Q
}.
End bet_option.

Module bet_market.
Record t : Type := {
  type : string;
  category : string;
  bets : list bet_option.t
}.
End bet_market.

Module Api.

(** *** [_parse_leon_markets] *)

(** [if not r.get('open', True) or not r.get('price'): continue], then
    [p = r.get('price', 0)]. *)
Definition offered (r : runner.t) : option Q :=
  match runner.price r with
  | Some p => if (runner.open r && negb (Qeq_bool p 0))%bool then Some p else None
  | None => None
  end.

(** [not p or p <= 1 or p > 50] *)
Definition out_of_range (p : Q) : bool :=
  (Qeq_bool p 0 || Qle_bool p 1 || negb (Qle_bool p 50))%bool.

(** [p and p > 1 and p <= 50] *)
Definition in_range (p : Q) : bool :=
  (negb (Qeq_bool p 0) && negb (Qle_bool p 1) && Qle_bool p 50)%bool.

(** The line of an over/under or handicap runner: the name without its
    marker and brackets. *)
Definition line_of (rest : string) : string :=
  Py.strip (Py.replace (Py.replace rest "(" "") ")" "").

(** The nested helper [_ou(runners, prefix)]. *)
Definition _ou (runners : list runner.t) (prefix : string) (odds : gmap string Q)
  : gmap string Q :=
  fold_left
    (fun odds r =>
       match offered r with
       | None => odds
       | Some p =>
           if out_of_range p then odds
           else
             let rn := runner.name r in
             if Py.contains "Больше" rn then
               let line := line_of (Py.replace rn "Больше" "") in
               <[prefix ++ "_over_" ++ line := p]> odds
             else if Py.contains "Меньше" rn then
               let line := line_of (Py.replace rn "Меньше" "") in
               <[prefix ++ "_under_" ++ line := p]> odds
             else odds
       end)
    runners odds.

(** The nested helper [_12(runners, p1, p2)]. *)
Definition _12 (runners : list runner.t) (p1 p2 : string) (odds : gmap string Q)
  : gmap string Q :=
  fold_left
    (fun odds r =>
       match offered r with
       | None => odds
       | Some p =>
           if out_of_range p then odds
           else
             let rn := runner.name r in
             if Py.startswith rn "1" then
               let line := line_of (Py.replace1 rn "1" "") in
               <[p1 ++ "_" ++ line := p]> odds
             else if Py.startswith rn "2" then
               let line := line_of (Py.replace1 rn "2" "") in
               <[p2 ++ "_" ++ line := p]> odds
             else odds
       end)
    runners odds.

(** The runner loop of the exact-score market. *)
Definition exact_score (runners : list runner.t) (odds : gmap string Q) : gmap string Q :=
  fold_left
    (fun odds r =>
       match offered r with
       | None => odds
       | Some p =>
           if out_of_range p then odds
           else
             let rn := runner.name r in
             if Py.contains ":" rn then
               match Py.split rn ":"%char with
               | [h; a] =>
                   let h_s := Py.strip h in
                   let a_s := Py.strip a in
                   if (Py.isdigit h_s && Py.isdigit a_s)%bool
                   then <["score_" ++ h_s ++ "-" ++ a_s := p]> odds
                   else odds
               | _ => odds
               end
             else odds
       end)
    runners odds.

(** The runner loop of the odd/even market. *)
Definition odd_even (runners : list runner.t) (odds : gmap string Q) : gmap string Q :=
  fold_left
    (fun odds r =>
       match offered r with
       | None => odds
       | Some p =>
           let rn := Py.lower (runner.name r) in
           if out_of_range p then odds
           else if among rn ["чет"; "чёт"] then <["total_even" := p]> odds
           else if among rn ["нечет"; "нечёт"] then <["total_odd" := p]> odds
           else odds
       end)
    runners odds.

(** The runner loop of a market with a fixed vocabulary: [key_of] maps a
    runner name to its outcome key. *)
Definition fixed (key_of : string -> option string) (runners : list runner.t)
    (odds : gmap string Q) : gmap string Q :=
  fold_left
    (fun odds r =>
       match offered r with
       | None => odds
       | Some p =>
           if in_range p then
             match key_of (runner.name r) with
             | Some k => <[k := p]> odds
             | None => odds
             end
           else odds
       end)
    runners odds.

(** The runner loop of the penalty market. *)
Definition penalty (runners : list runner.t) (odds : gmap string Q) : gmap string Q :=
  fold_left
    (fun odds r =>
       match offered r with
       | None => odds
       | Some p =>
           if out_of_range p then odds
           else if String.eqb (runner.name r) "Да" then <["penalty_yes" := p]> odds
           else if String.eqb (runner.name r) "Нет" then <["penalty_no" := p]> odds
           else odds
       end)
    runners odds.

Definition key_1x2 (rn : string) : option string :=
  if String.eqb rn "1" then Some "home"
  else if among rn ["X"; "Х"] then Some "draw"
  else if String.eqb rn "2" then Some "away"
  else None.

Definition key_dc (rn : string) : option string :=
  if among rn ["1X"; "1Х"] then Some "dc_1x"
  else if among rn ["X2"; "Х2"] then Some "dc_x2"
  else if String.eqb rn "12" then Some "dc_12"
  else None.

Definition key_btts (rn : string) : option string :=
  if String.eqb rn "Да" then Some "btts_yes"
  else if String.eqb rn "Нет" then Some "btts_no"
  else None.

Definition key_dnb (rn : string) : option string :=
  if String.eqb rn "1" then Some "dnb_home"
  else if String.eqb rn "2" then Some "dnb_away"
  else None.

Definition key_first_goal (rn : string) : option string :=
  if String.eqb rn "1" then Some "first_goal_home"
  else if String.eqb rn "2" then Some "first_goal_away"
  else if Py.contains "не будет" (Py.lower rn) then Some "first_goal_none"
  else None.

(** [any(x in mn for x in words)] *)
Definition any_in (words : list string) (mn : string) : bool :=
  existsb (fun x => Py.contains x mn) words.

(** One turn of the loop over the markets: the odds and the count of
    markets that were read. *)
Definition parse_market (acc : gmap string Q * Z) (m : market.t) : gmap string Q * Z :=
  let '(odds, open_markets) := acc in
  let runners := market.runners m in
  let mn := Py.lower (market.name m) in
  let has w := Py.contains w mn in
  if negb (market.open m) then acc
  else if ((has "точный счет" || has "точный счёт") && negb (has "тайм"))%bool then
    (exact_score runners odds, open_markets + 1)
  else if (has "чет" && has "нечет" && negb (has "тайм") && negb (has "угловы")
           && negb (has "карточ"))%bool then
    (odd_even runners odds, open_markets + 1)
  else if (has "тайм" || has "половин" || has "точн" || has "чет/нечет")%bool then acc
  else if (has "исход" && (has "1х2" || has "1x2"))%bool then
    (fixed key_1x2 runners odds, open_markets + 1)
  else if (has "двойной" && (has "шанс" || has "исход") && negb (has "угловы")
           && negb (has "карточ") && negb (has "желт"))%bool then
    (fixed key_dc runners odds, open_markets + 1)
  else if (has "обе" && has "забь")%bool then
    (fixed key_btts runners odds, open_markets + 1)
  else if (has "результат" && has "ничью")%bool then
    (fixed key_dnb runners odds, open_markets + 1)
  else if ((has "первый гол" || has "1-й гол") && negb (has "как "))%bool then
    (fixed key_first_goal runners odds, open_markets + 1)
  else if (has "пенал" && has "будет" && negb (has "серия") && negb (has "команда"))%bool then
    (penalty runners odds, open_markets + 1)
  else if has "угловы" then
    if any_in ["кто"; "фора"; "двойной"; "чет"; "точн"] mn then acc
    else if has "хозяев" then (_ou runners "corners_home" odds, open_markets + 1)
    else if has "гостей" then (_ou runners "corners_away" odds, open_markets + 1)
    else (_ou runners "corners" odds, open_markets + 1)
  else if (has "карточ" || (has "желт" && has "тотал"))%bool then
    if any_in ["кто"; "фора"; "чет"; "точн"] mn then acc
    else if has "хозяев" then (_ou runners "cards_home" odds, open_markets + 1)
    else if has "гостей" then (_ou runners "cards_away" odds, open_markets + 1)
    else (_ou runners "cards" odds, open_markets + 1)
  else if (String.eqb mn "фора"
           || (has "фора" && negb (has "азиат") && negb (has "угловы")))%bool then
    (_12 runners "handicap_home" "handicap_away" odds, open_markets + 1)
  else if (has "тотал" && has "хозяев" && negb (has "угловы") && negb (has "карточ")
           && negb (has "удар") && negb (has "фол") && negb (has "офсайд")
           && negb (has "аут"))%bool then
    (_ou runners "home" odds, open_markets + 1)
  else if (has "тотал" && has "гостей" && negb (has "угловы") && negb (has "карточ")
           && negb (has "удар") && negb (has "фол") && negb (has "офсайд")
           && negb (has "аут"))%bool then
    (_ou runners "away" odds, open_markets + 1)
  else if among mn ["тотал"; "тотал голов"; "тотал матча"] then
    (_ou runners "total" odds, open_markets + 1)
  else acc.

(** [_parse_leon_markets(markets)]: [(odds, open_markets)]. *)
Definition _parse_leon_markets (markets : list market.t) : gmap string Q * Z :=
  fold_left parse_market markets (∅, 0).

(** *** [_build_live_markets] *)

(** [odds.get(key)] used as a condition: present and not zero. *)
Definition priced (odds : gmap string Q) (key : string) : option Q :=
  match odds !! key with
  | Some p => if Qeq_bool p 0 then None else Some p
  | None => None
  end.

(** [odds.get(key, 0)] *)
Definition get0 (odds : gmap string Q) (key : string) : Q := default 0%Q (odds !! key).

(** The [try] block that reads the score: [(hs, as_)], or [(0, 0)] when
    anything in it raises. *)
Definition parse_score (score : string) : Z * Z :=
  match Py.split (Py.replace score "-" ":") ":"%char with
  | p0 :: p1 :: _ =>
      match Py.int p0, Py.int p1 with
      | Some hs, Some as_ => (hs, as_)
      | _, _ => (0, 0)
      end
  | _ => (0, 0)
  end.

(** Insertion into a list sorted by a rational key; equal keys keep their
    order, as with [sorted]. *)
Fixpoint insert_by {A} (f : A -> Q) (x : A) (l : list A) : list A :=
  match l with
  | [] => [x]
  | y :: l' => if Py.Qltb (f x) (f y) then x :: l else y :: insert_by f x l'
  end.

(** [sorted(l, key=f)] *)
Definition sorted {A} (f : A -> Q) (l : list A) : list A :=
  fold_left (fun acc x => insert_by f x acc) l [].

(** The line a key of the family stands for, if the first loop of
    [_collect] keeps it. *)
Definition kept_line (prefix : string) (max_line : option Q) (current_value : Z)
    (key : string) : option string :=
  if (Py.startswith key (prefix ++ "_over_")
      || Py.startswith key (prefix ++ "_under_"))%bool then
    let line := Py.replace (Py.replace key (prefix ++ "_over_") "")
                           (prefix ++ "_under_") "" in
    match Py.float line with
    | None => None
    | Some line_val =>
        if match max_line with
           | Some m => (negb (Qeq_bool m 0) && Py.Qltb m line_val)%bool
           | None => false
           end then None
        else if ((0 <? current_value) && Py.Qltb line_val (inject_Z current_value))%bool
        then None
        else Some line
    end
  else None.

(** The set [lines_found], in the order its elements are met. *)
Definition lines_found (prefix : string) (max_line : option Q) (current_value : Z)
    (odds : gmap string Q) : list string :=
  remove_dups (omap (kept_line prefix max_line current_value) (map fst (map_to_list odds))).

Definition float0 (line : string) : Q := default 0%Q (Py.float line).

(** The nested helper [_collect(prefix, max_line, current_value)]. *)
Definition _collect (odds : gmap string Q) (prefix : string) (max_line : option Q)
    (current_value : Z) : list bet_option.t :=
  flat_map
    (fun line =>
       match priced odds (prefix ++ "_over_" ++ line) with
       | Some over =>
           {| bet_option.key := prefix ++ "_over_" ++ line;
              bet_option.name := "Б " ++ line;
              bet_option.odds := over;
              bet_option.line := Some (float0 line) |}
           :: match priced odds (prefix ++ "_under_" ++ line) with
              | Some under =>
                  [{| bet_option.key := prefix ++ "_under_" ++ line;
                      bet_option.name := "М " ++ line;
                      bet_option.odds := under;
                      bet_option.line := Some (float0 line) |}]
              | None => []
              end
       | None => []
       end)
    (sorted float0 (lines_found prefix max_line current_value odds)).

Definition plain (key name : string) (odds : gmap string Q) : bet_option.t :=
  {| bet_option.key := key; bet_option.name := name;
     bet_option.odds := get0 odds key; bet_option.line := None |}.

(** A market with a fixed list of options, shown when [shown] holds. *)
Definition fixed_market (shown : bool) (type category : string)
    (bets : list bet_option.t) : list bet_market.t :=
  if shown then [{| bet_market.type := type; bet_market.category := category;
                    bet_market.bets := bets |}]
  else [].

(** A collected market: left out when it has no option. *)
Definition collected_market (type category : string) (bets : list bet_option.t)
  : list bet_market.t :=
  match bets with
  | [] => []
  | _ => [{| bet_market.type := type; bet_market.category := category;
             bet_market.bets := bets |}]
  end.

(** The handicap lines met in the keys, [None] if [float] raises on one
    of them while sorting. *)
Definition handicap_lines (odds : gmap string Q) : option (list string) :=
  let h_lines :=
    remove_dups
      (omap (fun key =>
               if (Py.startswith key "handicap_home_"
                   || Py.startswith key "handicap_away_")%bool
               then Some (Py.replace (Py.replace key "handicap_home_" "")
                                     "handicap_away_" "")
               else None)
            (map fst (map_to_list odds))) in
  if forallb (fun line => bool_decide (is_Some (Py.float line))) h_lines
  then Some (sorted float0 h_lines)
  else None.

Definition handicap_bets (odds : gmap string Q) (lines : list string) : list bet_option.t :=
  flat_map
    (fun line =>
       (match priced odds ("handicap_home_" ++ line) with
        | Some p => [{| bet_option.key := "handicap_home_" ++ line;
                        bet_option.name := "Ф1 (" ++ line ++ ")";
                        bet_option.odds := p;
                        bet_option.line := Some (float0 line) |}]
        | None => []
        end ++
        match priced odds ("handicap_away_" ++ line) with
        | Some p => [{| bet_option.key := "handicap_away_" ++ line;
                        bet_option.name := "Ф2 (" ++ line ++ ")";
                        bet_option.odds := p;
                        bet_option.line := Some (float0 line) |}]
        | None => []
        end)%list)
    lines.

(** The fifteen cheapest exact scores. *)
Definition score_bets (odds : gmap string Q) : list bet_option.t :=
  let score_keys :=
    sorted (get0 odds)
           (List.filter (fun k => Py.startswith k "score_") (map fst (map_to_list odds))) in
  map (fun key =>
         {| bet_option.key := key;
            bet_option.name := Py.replace (Py.replace key "score_" "") "-" ":";
            bet_option.odds := get0 odds key;
            bet_option.line := None |})
      (take 15 score_keys).

Definition is_priced (odds : gmap string Q) (key : string) : bool :=
  bool_decide (is_Some (priced odds key)).

(** [_build_live_markets(odds, home_team, away_team, score)] *)
Definition _build_live_markets (odds : gmap string Q) (home_team away_team score : string)
  : result (list bet_market.t) :=
  let h := if String.eqb home_team "" then "Хозяева" else home_team in
  let a := if String.eqb away_team "" then "Гости" else away_team in
  let '(hs, as_) := parse_score score in
  let total_goals := hs + as_ in
  match handicap_lines odds with
  | None => Raise (ValueError "could not convert string to float")
  | Some h_lines =>
      Ok (fixed_market (is_priced odds "home") "match_result" "Исход матча"
            [plain "home" "П1" odds; plain "draw" "X" odds; plain "away" "П2" odds]
          ++ fixed_market (is_priced odds "dc_1x") "double_chance" "Двойной шанс"
            [plain "dc_1x" "1X" odds; plain "dc_x2" "X2" odds; plain "dc_12" "12" odds]
          ++ collected_market "total_goals" "Тотал голов"
               (_collect odds "total" (Some 10.5%Q) total_goals)
          ++ fixed_market (is_priced odds "btts_yes" && (total_goals =? 0)) "btts" "Обе забьют"
            [plain "btts_yes" "Да" odds; plain "btts_no" "Нет" odds]
          ++ fixed_market (is_priced odds "dnb_home") "dnb" "Результат без ничьей"
            [plain "dnb_home" ("П1 (" ++ h ++ ")") odds;
             plain "dnb_away" ("П2 (" ++ a ++ ")") odds]
          ++ fixed_market (is_priced odds "first_goal_home" && (total_goals =? 0))
               "first_goal" "Кто забьёт первый гол"
            [plain "first_goal_home" ("1 (" ++ h ++ ")") odds;
             plain "first_goal_none" "Не будет" odds;
             plain "first_goal_away" ("2 (" ++ a ++ ")") odds]
          ++ collected_market "handicap" "Фора" (handicap_bets odds h_lines)
          ++ collected_market "correct_score" "Точный счёт" (score_bets odds)
          ++ fixed_market (is_priced odds "total_even" && is_priced odds "total_odd")
               "odd_even" "Чёт/Нечёт голов"
            [plain "total_even" "Чёт" odds; plain "total_odd" "Нечёт" odds]
          ++ collected_market "home_total" ("ИТ хозяев (" ++ h ++ ")")
               (_collect odds "home" (Some 7.5%Q) hs)
          ++ collected_market "away_total" ("ИТ гостей (" ++ a ++ ")")
               (_collect odds "away" (Some 7.5%Q) as_)
          ++ collected_market "total_corners" "Тотал угловых"
               (_collect odds "corners" (Some 20%Q) 0)
          ++ collected_market "corners_home" ("Угловые хозяев (" ++ h ++ ")")
               (_collect odds "corners_home" None 0)
          ++ collected_market "corners_away" ("Угловые гостей (" ++ a ++ ")")
               (_collect odds "corners_away" None 0)
          ++ collected_market "total_cards" "Тотал карточек"
               (_collect odds "cards" (Some 12%Q) 0)
          ++ collected_market "cards_home" ("Карточки хозяев (" ++ h ++ ")")
               (_collect odds "cards_home" None 0)
          ++ collected_market "cards_away" ("Карточки гостей (" ++ a ++ ")")
               (_collect odds "cards_away" None 0)
          ++ fixed_market (is_priced odds "penalty_yes") "penalty" "Будет ли пенальти"
            [plain "penalty_yes" "Да" odds; plain "penalty_no" "Нет" odds])%list
  end.

(** *** [settle_bet_by_type] and the settlement loop *)

(** The over/under rule shared by the goal, corner and per-team branches:
    a whole line hit exactly is a push, otherwise compare strictly. *)
Definition over (total : Z) (line : Q) : verdict :=
  if (eq_line total line && is_whole line)%bool then Push else of_bool (gt_line total line).

Definition under (total : Z) (line : Q) : verdict :=
  if (eq_line total line && is_whole line)%bool then Push else of_bool (lt_line total line).

Definition handicap (diff : Q) : verdict :=
  if Qeq_bool diff 0 then Push else of_bool (Py.Qltb 0 diff).

Definition settle_bet_by_type (bet_type : string) (s : stats) : result verdict :=
  if among bet_type ["home"; "draw"; "away"] then
    o <- getitem (outcome s) "outcome" ;;
    Ok (of_bool (String.eqb bet_type o))
  else if Py.startswith bet_type "score_" then
    let score := Py.replace bet_type "score_" "" in
    h <- getitem (home_score s) "home_score" ;;
    a <- getitem (away_score s) "away_score" ;;
    Ok (of_bool (String.eqb score (Py.str h ++ "-" ++ Py.str a)))
  else if Py.startswith bet_type "total_over_" then
    line <- float_or_raise (Py.replace bet_type "total_over_" "") ;;
    total <- getitem (total_goals s) "total_goals" ;;
    Ok (over total line)
  else if Py.startswith bet_type "total_under_" then
    line <- float_or_raise (Py.replace bet_type "total_under_" "") ;;
    total <- getitem (total_goals s) "total_goals" ;;
    Ok (under total line)
  else if String.eqb bet_type "btts_yes" then
    b <- getitem (both_scored s) "both_scored" ;; Ok (of_bool (Bool.eqb b true))
  else if String.eqb bet_type "btts_no" then
    b <- getitem (both_scored s) "both_scored" ;; Ok (of_bool (Bool.eqb b false))
  else if String.eqb bet_type "dc_1x" then
    o <- getitem (outcome s) "outcome" ;; Ok (of_bool (among o ["home"; "draw"]))
  else if String.eqb bet_type "dc_x2" then
    o <- getitem (outcome s) "outcome" ;; Ok (of_bool (among o ["draw"; "away"]))
  else if String.eqb bet_type "dc_12" then
    o <- getitem (outcome s) "outcome" ;; Ok (of_bool (among o ["home"; "away"]))
  else if String.eqb bet_type "dnb_home" then
    o <- getitem (outcome s) "outcome" ;;
    if String.eqb o "draw" then Ok Push else Ok (of_bool (String.eqb o "home"))
  else if String.eqb bet_type "dnb_away" then
    o <- getitem (outcome s) "outcome" ;;
    if String.eqb o "draw" then Ok Push else Ok (of_bool (String.eqb o "away"))
  else if Py.startswith bet_type "corners_over_" then
    line <- float_or_raise (Py.replace bet_type "corners_over_" "") ;;
    Ok (over (default 0 (total_corners s)) line)
  else if Py.startswith bet_type "corners_under_" then
    line <- float_or_raise (Py.replace bet_type "corners_under_" "") ;;
    Ok (under (default 0 (total_corners s)) line)
  else if Py.startswith bet_type "home_total_over_" then
    line <- float_or_raise (Py.replace bet_type "home_total_over_" "") ;;
    Ok (over (default 0 (home_score s)) line)
  else if Py.startswith bet_type "home_total_under_" then
    line <- float_or_raise (Py.replace bet_type "home_total_under_" "") ;;
    Ok (under (default 0 (home_score s)) line)
  else if Py.startswith bet_type "away_total_over_" then
    line <- float_or_raise (Py.replace bet_type "away_total_over_" "") ;;
    Ok (over (default 0 (away_score s)) line)
  else if Py.startswith bet_type "away_total_under_" then
    line <- float_or_raise (Py.replace bet_type "away_total_under_" "") ;;
    Ok (under (default 0 (away_score s)) line)
  else if Py.startswith bet_type "handicap_home_" then
    line <- float_or_raise (Py.replace bet_type "handicap_home_" "") ;;
    h <- getitem (home_score s) "home_score" ;;
    a <- getitem (away_score s) "away_score" ;;
    Ok (handicap (inject_Z (h - a) + line))
  else if Py.startswith bet_type "handicap_away_" then
    line <- float_or_raise (Py.replace bet_type "handicap_away_" "") ;;
    a <- getitem (away_score s) "away_score" ;;
    h <- getitem (home_score s) "home_score" ;;
    Ok (handicap (inject_Z (a - h) + line))
  else if String.eqb bet_type "first_goal_home" then
    Ok (of_bool (bool_decide (first_goal s = Some "home")))
  else if String.eqb bet_type "first_goal_away" then
    Ok (of_bool (bool_decide (first_goal s = Some "away")))
  else if String.eqb bet_type "first_goal_none" then
    total <- getitem (total_goals s) "total_goals" ;;
    Ok (of_bool (total =? 0))
  else Ok Lose.



(** The [result] dictionary of [settle_all_bets_advanced]. *)
Record counts : Type := {
  bets_settled : Z;
  predictions_settled : Z;
  bets_won : Z;
  bets_lost : Z;
  bets_pushed : Z
}.

Definition zero : counts :=
  {| bets_settled := 0; predictions_settled := 0;
     bets_won := 0; bets_lost := 0; bets_pushed := 0 |}.

(** One turn of the loop over the pending bets. *)
Definition settle_one_bet (s : stats) (b : bet.row) (r : counts) (d : db)
  : result counts * db :=
  let bet_id := bet.bet_id b in
  let user_id := bet.user_id b in
  let amount := bet.amount b in
  match settle_bet_by_type (bet.bet_type b) s with
  | Raise e => (Raise e, d)
  | Ok Push =>
      let d := update_bet bet_id (settle_row "returned" None None None) d in
      let d := update_user user_id (set_balance (fun bal => bal + amount)) d in
      (Ok {| bets_settled := bets_settled r + 1;
             predictions_settled := predictions_settled r;
             bets_won := bets_won r; bets_lost := bets_lost r;
             bets_pushed := bets_pushed r + 1 |}, d)
  | Ok Win =>
      let winnings := winnings_of amount (bet.odds b) in
      let d := update_bet bet_id (settle_row "won" None None None) d in
      let d := update_user user_id (set_balance (fun bal => bal + winnings)) d in
      (Ok {| bets_settled := bets_settled r + 1;
             predictions_settled := predictions_settled r;
             bets_won := bets_won r + 1; bets_lost := bets_lost r;
             bets_pushed := bets_pushed r |}, d)
  | Ok Lose =>
      let d := update_bet bet_id (settle_row "lost" None None None) d in
      (Ok {| bets_settled := bets_settled r + 1;
             predictions_settled := predictions_settled r;
             bets_won := bets_won r; bets_lost := bets_lost r + 1;
             bets_pushed := bets_pushed r |}, d)
  end.

Fixpoint settle_bets (s : stats) (rows : list bet.row) (r : counts) (d : db)
  : result counts * db :=
  match rows with
  | [] => (Ok r, d)
  | b :: rows' =>
      match settle_one_bet s b r d with
      | (Ok r', d') => settle_bets s rows' r' d'
      | (Raise e, d') => (Raise e, d')
      end
  end.

(** One turn of the loop over the pending predictions. *)
Definition settle_one_prediction (s : stats) (p : prediction.row) (r : counts) (d : db)
  : result counts * db :=
  let pred_id := prediction.prediction_id p in
  let user_id := prediction.user_id p in
  match getitem (outcome s) "outcome" with
  | Raise e => (Raise e, d)
  | Ok o =>
      let won := String.eqb (prediction.prediction p) o in
      let d :=
        if won then
          let d := update_prediction pred_id (settle_prediction_row "correct" None None) d in
          update_user user_id
            (fun u => bump c_predictions_correct 1 (set_balance (fun bal => bal + 10) u)) d
        else
          let d := update_prediction pred_id (settle_prediction_row "incorrect" None None) d in
          update_user user_id (bump c_predictions_incorrect 1) d in
      (Ok {| bets_settled := bets_settled r;
             predictions_settled := predictions_settled r + 1;
             bets_won := bets_won r; bets_lost := bets_lost r;
             bets_pushed := bets_pushed r |}, d)
  end.

Fixpoint settle_predictions (s : stats) (rows : list prediction.row) (r : counts) (d : db)
  : result counts * db :=
  match rows with
  | [] => (Ok r, d)
  | p :: rows' =>
      match settle_one_prediction s p r d with
      | (Ok r', d') => settle_predictions s rows' r' d'
      | (Raise e, d') => (Raise e, d')
      end
  end.

(** [settle_all_bets_advanced(match_id, stats)]: each statement commits on
    its own, so the writes made before an exception stay. *)
Definition settle_all_bets_advanced (match_id : string) (s : stats) (d : db)
  : result counts * db :=
  match settle_bets s (pending_bets match_id d) zero d with
  | (Raise e, d') => (Raise e, d')
  | (Ok r, d') => settle_predictions s (pending_predictions match_id d') r d'
  end.

(** [process_referral_bonus(user_id)]: 25 points to the referrer and to
    the new user after the first bet, once. *)
Definition process_referral_bonus (user_id : Z) (d : db) : db :=
  match users d !! user_id with
  | None => d
  | Some u =>
      match user.referred_by u with
      | None => d
      | Some referrer_id =>
          if referrer_id =? 0 then d
          else if existsb (fun t => (transaction.user_id t =? user_id)
                       && String.eqb (transaction.type t) "referral_bonus"
                       && bool_decide (transaction.reference_id t = Some (Py.str referrer_id)))%bool
                    (transactions d) then d
          else
            let bonus := 25 in
            let d :=
              match users d !! referrer_id with
              | Some referrer =>
                  let ref_balance := user.balance referrer in
                  let d := update_user referrer_id (set_balance (fun bal => bal + bonus)) d in
                  insert_transaction
                    {| transaction.user_id := referrer_id;
                       transaction.type := "referral_bonus";
                       transaction.amount := bonus;
                       transaction.balance_before := Some ref_balance;
                       transaction.balance_after := Some (ref_balance + bonus);
                       transaction.wager_before := None;
                       transaction.wager_after := None;
                       transaction.reference_id := Some (Py.str user_id) |} d
              | None => d
              end in
            match users d !! user_id with
            | Some u' =>
                let ub := user.balance u' in
                let d := update_user user_id (set_balance (fun bal => bal + bonus)) d in
                insert_transaction
                  {| transaction.user_id := user_id;
                     transaction.type := "referral_bonus";
                     transaction.amount := bonus;
                     transaction.balance_before := Some ub;
                     transaction.balance_after := Some (ub + bonus);
                     transaction.wager_before := None;
                     transaction.wager_after := None;
                     transaction.reference_id := Some (Py.str referrer_id) |} d
            | None => d
            end
      end
  end.

(** What the endpoint reads from its collaborators: the fixture sheet, the
    clock and the cached bookmaker feed. *)
Record match_info : Type := {
  opponent : string;
  is_home : bool;
  date : string;
  time : string
}.

Record leon : Type := {
  live_odds : gmap string Q;
  bets_suspended : bool
}.

Record env : Type := {
  (** [sheets_client.get_matches(limit=1)] *)
  matches : list match_info;
  (** kick-off in minutes, [None] when [strptime] raises [ValueError] *)
  kickoff : option Z;
  (** [datetime.now(MOSCOW_TZ)] in minutes *)
  now : Z;
  (** [_get_leon_cached(target_opponent)]; [None] is an empty answer *)
  _get_leon_cached : option string -> option leon
}.

(** [BetRequest] *)
Record BetRequest : Type := {
  req_match_id : string;
  req_bet_type : string;
  req_amount : Z
}.

(** The JSON body of a successful placement. *)
Record placed : Type := {
  placed_bet_id : Z;
  placed_amount : Z;
  placed_odds : Q;
  placed_potential_win : Z
}.

Definition leon_odds_of (leon_data : option leon) : gmap string Q :=
  match leon_data with
  | Some l => live_odds l
  | None => ∅
  end.

Definition insufficient : exn := HTTPException 400 "Недостаточно очков".
Definition suspended : exn :=
  HTTPException 400 "Ставки приостановлены (пересчёт коэффициентов)".

(** [now >= mt - timedelta(minutes=5)], skipped when the kick-off time
    does not parse. *)
Definition too_late (e : env) : bool :=
  match kickoff e with
  | Some mt => mt - 5 <=? now e
  | None => false
  end.

(** The feed answer the endpoint ends up with: the one for the opponent,
    or the default one when the first carries no odds. *)
Definition consulted_feed (e : env) (match_ : match_info) : option leon * gmap string Q :=
  let leon_data := _get_leon_cached e (Some (opponent match_)) in
  let leon_odds := leon_odds_of leon_data in
  if bool_decide (leon_odds = ∅) then
    let leon_data := _get_leon_cached e None in
    (leon_data, leon_odds_of leon_data)
  else (leon_data, leon_odds).

(** The checks of [place_bet_endpoint] up to the call of [place_bet]:
    the price and the fixture the bet is placed with. *)
Definition place_bet_checks (e : env) (bet : BetRequest) (user : user.row)
  : result (Q * match_info) :=
  if req_amount bet <=? 0 then
    Raise (HTTPException 400 "Сумма должна быть больше 0")
  else if user.balance user <? req_amount bet then Raise insufficient
  else
    match matches e with
    | [] => Raise (HTTPException 404 "Матч не найден")
    | match_ :: _ =>
        if too_late e
        then Raise (HTTPException 400 "Ставки закрыты (до матча менее 5 минут)")
        else
          let '(leon_data, leon_odds) := consulted_feed e match_ in
          if match leon_data with Some l => bets_suspended l | None => false end
          then Raise suspended
          else
            let bet_type := req_bet_type bet in
            let not_found :=
              Raise (HTTPException 400
                       ("Коэффициент для '" ++ bet_type ++ "' не найден в Leon")) in
            if Py.startswith bet_type "score_" then Ok (30%Q, match_)
            else match priced leon_odds bet_type with
                 | Some odds => Ok (odds, match_)
                 | None =>
                     match priced leon_odds (Py.replace bet_type "," ".") with
                     | Some odds => Ok (odds, match_)
                     | None =>
                         match priced leon_odds (Py.replace bet_type "." ",") with
                         | Some odds => Ok (odds, match_)
                         | None => not_found
                         end
                     end
                 end
    end.

(** [place_bet_endpoint(bet, user)], [user] being the row the
    authentication dependency has read for [user_id]. *)
Definition place_bet_endpoint (e : env) (bet : BetRequest) (user_id : Z)
    (user : user.row) (d : db) : result placed * db :=
  match place_bet_checks e bet user with
  | Raise x => (Raise x, d)
  | Ok (odds, match_) =>
      let home_team := if is_home match_ then "Real Madrid" else opponent match_ in
      let away_team := if is_home match_ then opponent match_ else "Real Madrid" in
      let match_date := date match_ ++ " " ++ time match_ in
      match Database.place_bet user_id (req_match_id bet) (req_bet_type bet)
              (req_amount bet) odds (Some home_team) (Some away_team) (Some match_date) d with
      | (None, d) => (Raise (HTTPException 500 "Ошибка создания ставки"), d)
      | (Some bet_id, d) =>
          let d :=
            if Nat.eqb (length (Database.get_user_bets user_id d)) 1
            then process_referral_bonus user_id d else d in
          (Ok {| placed_bet_id := bet_id;
                 placed_amount := req_amount bet;
                 placed_odds := odds;
                 placed_potential_win := winnings_of (req_amount bet) odds |}, d)
      end
  end.

(** *** [sell_bet_endpoint] *)

(** [max(1, bet['amount'] // 2)] *)
Definition sell_price_of (amount : Z) : Z := Z.max 1 (amount / 2).

(** [sell_bet_endpoint(req, user)].  [strptime] reads a stored
    [match_date] as a kick-off in minutes, [None] when
    [datetime.strptime] raises; [now] is the clock in minutes. *)
Definition sell_bet_endpoint (strptime : string -> option Z) (now : Z)
    (bet_id user_id : Z) (d : db) : result Z * db :=
  match List.find (fun b => (bet.bet_id b =? bet_id)
                            && String.eqb (bet.status b) "pending")%bool
          (Database.get_user_bets_latest_first user_id d) with
  | None => (Raise (HTTPException 404 "Ставка не найдена"), d)
  | Some bet =>
      match match bet.match_date bet with
            | Some text => strptime text
            | None => None
            end with
      | None => (Raise (HTTPException 400 "Ошибка проверки времени матча"), d)
      | Some mt =>
          if mt - 1 <=? now then
            (Raise (HTTPException 400
                      "Нельзя продать - матч скоро начнётся или уже идёт"), d)
          else
            let sell_price := sell_price_of (bet.amount bet) in
            match Database.sell_bet bet_id user_id sell_price d with
            | (true, d) => (Ok sell_price, d)
            | (false, d) => (Raise (HTTPException 500 "Ошибка продажи"), d)
            end
      end
  end.

(** *** [place_live_bet] *)

(** What [get_sofascore_live_match()] returned: [None], the dictionary
    [{'is_live': False}] or the match in progress. *)
Inductive sofascore : Type :=
  | sofa_none
  | sofa_idle
  | sofa_live (home_team away_team : string) (home_score away_score : Z)
              (minute : string).

(** What [_get_leon_cached()] returned: the dictionary [{'is_live': False}]
    or the event with its feed; [score] and [minute] are [None] without a
    live status. *)
Inductive leon_answer : Type :=
  | leon_idle
  | leon_event (is_live : bool) (feed : leon) (home_team away_team : string)
               (score minute : option string).

(** [LiveBetRequest] *)
Record LiveBetRequest : Type := {
  live_req_match_id : string;
  live_req_bet_type : string;
  live_req_amount : Z;
  live_req_odds : Q
}.

(** The JSON body of a successful live placement. *)
Record placed_live : Type := {
  live_placed : placed;
  live_minute : option string;
  live_score : string
}.

(** [a or b] on strings. *)
Definition or_else (a b : string) : string := if String.eqb a "" then b else a.

(** The price a live bet is stored with: the current price of the feed
    for the key when the feed carries one, otherwise the price the request
    came with. *)
Definition live_price (leon_data : leon_answer) (bet_type : string) (sent : Q) : Q :=
  match leon_data with
  | leon_idle => sent
  | leon_event _ feed _ _ _ _ =>
      if bool_decide (live_odds feed = ∅) then sent
      else match priced (live_odds feed) bet_type with
           | Some current_odds => if Qeq_bool current_odds sent then sent else current_odds
           | None => sent
           end
  end.

(** [place_live_bet(bet, user)], [user] being the row the authentication
    dependency has read for [user_id]. *)
Definition place_live_bet (live_match : sofascore) (leon_data : leon_answer)
    (bet : LiveBetRequest) (user_id : Z) (user : user.row) (d : db)
  : result placed_live * db :=
  if live_req_amount bet <=? 0 then
    (Raise (HTTPException 400 "Сумма должна быть больше 0"), d)
  else if user.balance user <? live_req_amount bet then (Raise insufficient, d)
  else
    let sofa_is_live :=
      match live_match with sofa_live _ _ _ _ _ => true | _ => false end in
    let leon_is_live :=
      match leon_data with leon_event is_live _ _ _ _ _ => is_live | leon_idle => false end in
    if (negb sofa_is_live && negb leon_is_live)%bool then
      (Raise (HTTPException 400 "Нет live матча"), d)
    else if match leon_data with
            | leon_event _ feed _ _ _ _ => bets_suspended feed
            | leon_idle => false
            end then
      (Raise (HTTPException 400 "Ставки временно приостановлены"), d)
    else
      let odds := live_price leon_data (live_req_bet_type bet) (live_req_odds bet) in
      let sofa_text f :=
        match live_match with
        | sofa_live h a _ _ m => f h a m
        | _ => ""
        end in
      let leon_text f :=
        match leon_data with
        | leon_event _ _ h a _ _ => f h a
        | leon_idle => ""
        end in
      let home_team := or_else (sofa_text (fun h _ _ => h)) (leon_text (fun h _ => h)) in
      let away_team := or_else (sofa_text (fun _ a _ => a)) (leon_text (fun _ a => a)) in
      let minute :=
        if String.eqb (sofa_text (fun _ _ m => m)) "" then
          match leon_data with
          | leon_event _ _ _ _ _ m => m
          | leon_idle => Some ""
          end
        else Some (sofa_text (fun _ _ m => m)) in
      let score :=
        match match leon_data with
              | leon_event _ _ _ _ (Some sc) _ => if String.eqb sc "" then None else Some sc
              | _ => None
              end with
        | Some sc => sc
        | None =>
            match live_match with
            | sofa_live _ _ hs as_ _ => Py.str hs ++ ":" ++ Py.str as_
            | _ => "0:0"
            end
        end in
      let match_date := "LIVE " ++ default "None" minute ++ " (" ++ score ++ ")" in
      match Database.place_bet user_id (live_req_match_id bet)
              ("LIVE_" ++ live_req_bet_type bet) (live_req_amount bet) odds
              (Some home_team) (Some away_team) (Some match_date) d with
      | (None, d) => (Raise (HTTPException 500 "Ошибка создания ставки"), d)
      | (Some bet_id, d) =>
          (Ok {| live_placed :=
                   {| placed_bet_id := bet_id;
                      placed_amount := live_req_amount bet;
                      placed_odds := odds;
                      placed_potential_win := winnings_of (live_req_amount bet) odds |};
                 live_minute := minute;
                 live_score := score |}, d)
      end.

(** *** The feed answer *)

(** The [live_odds] and [bets_suspended] entries [get_leon_live_match]
    computes from the market list of the event it has found. *)
Definition feed_of_markets (is_live : bool) (markets : list market.t) : leon :=
  let '(odds, open_markets) := _parse_leon_markets markets in
  {| live_odds := odds;
     bets_suspended :=
       (is_live && (Nat.eqb (size odds) 0 || (open_markets =? 0)))%bool |}.

(** *** [get_match_statistics] and the settlement jobs *)

(** An HTTP exchange: the request raised, came back with another status
    than 200, or came back with a body. *)
Inductive response (A : Type) : Type :=
  | failed
  | refused
  | answered (body : A).
Arguments failed {A}.
Arguments refused {A}.
Arguments answered {A} body.

(** An entry of [statisticsItems]: the values are the texts SofaScore
    sends, [''] for an absent or empty one. *)
Record statistics_item : Type := {
  item_name : string;
  item_home : string;
  item_away : string
}.

(** The dictionary [get_match_statistics] returns. *)
Module match_stats.
Record t : Type := {
  total_goals : Z;
  home_score : Z;
  away_score : Z;
  total_corners : Z;
  home_corners : Z;
  away_corners : Z;
  total_yellow_cards : Z;
  total_red_cards : Z;
  both_scored : bool;
  outcome : string
}.
End match_stats.

(** That dictionary as the resolver reads it: [total_yellow], the
    per-side cards, [has_penalty] and [first_goal] are not among its
    keys. *)
Definition as_stats (m : match_stats.t) : stats :=
  {| outcome := Some (match_stats.outcome m);
     home_score := Some (match_stats.home_score m);
     away_score := Some (match_stats.away_score m);
     total_goals := Some (match_stats.total_goals m);
     both_scored := Some (match_stats.both_scored m);
     total_corners := Some (match_stats.total_corners m);
     home_corners := Some (match_stats.home_corners m);
     away_corners := Some (match_stats.away_corners m);
     total_yellow := None;
     home_yellow := None;
     away_yellow := None;
     has_penalty := None;
     first_goal := None |}.

(** [int(v or 0)], [None] when [int] raises. *)
Definition int_or_zero (v : string) : option Z :=
  if String.eqb v "" then Some 0 else Py.int v.

(** The loop over the statistics items; an item whose value is not an
    integer raises and ends the reading, the entries written so far
    stay. *)
Fixpoint read_items (items : list statistics_item) (m : match_stats.t) : match_stats.t :=
  match items with
  | [] => m
  | stat :: items' =>
      match int_or_zero (item_home stat), int_or_zero (item_away stat) with
      | Some home_val, Some away_val =>
          let name := item_name stat in
          let m :=
            if String.eqb name "Corner kicks" then
              {| match_stats.total_goals := match_stats.total_goals m;
                 match_stats.home_score := match_stats.home_score m;
                 match_stats.away_score := match_stats.away_score m;
                 match_stats.total_corners := home_val + away_val;
                 match_stats.home_corners := home_val;
                 match_stats.away_corners := away_val;
                 match_stats.total_yellow_cards := match_stats.total_yellow_cards m;
                 match_stats.total_red_cards := match_stats.total_red_cards m;
                 match_stats.both_scored := match_stats.both_scored m;
                 match_stats.outcome := match_stats.outcome m |}
            else m in
          let m :=
            if String.eqb name "Yellow cards" then
              {| match_stats.total_goals := match_stats.total_goals m;
                 match_stats.home_score := match_stats.home_score m;
                 match_stats.away_score := match_stats.away_score m;
                 match_stats.total_corners := match_stats.total_corners m;
                 match_stats.home_corners := match_stats.home_corners m;
                 match_stats.away_corners := match_stats.away_corners m;
                 match_stats.total_yellow_cards := home_val + away_val;
                 match_stats.total_red_cards := match_stats.total_red_cards m;
                 match_stats.both_scored := match_stats.both_scored m;
                 match_stats.outcome := match_stats.outcome m |}
            else m in
          let m :=
            if String.eqb name "Red cards" then
              {| match_stats.total_goals := match_stats.total_goals m;
                 match_stats.home_score := match_stats.home_score m;
                 match_stats.away_score := match_stats.away_score m;
                 match_stats.total_corners := match_stats.total_corners m;
                 match_stats.home_corners := match_stats.home_corners m;
                 match_stats.away_corners := match_stats.away_corners m;
                 match_stats.total_yellow_cards := match_stats.total_yellow_cards m;
                 match_stats.total_red_cards := home_val + away_val;
                 match_stats.both_scored := match_stats.both_scored m;
                 match_stats.outcome := match_stats.outcome m |}
            else m in
          read_items items' m
      | _, _ => m
      end
  end.

(** [get_match_statistics(event_id)], given the two exchanges with
    SofaScore: the event with its current scores, and the statistics as
    groups of groups of items. *)
Definition get_match_statistics (event : response (Z * Z))
    (statistics : response (list (list (list statistics_item)))) : match_stats.t :=
  let stats :=
    {| match_stats.total_goals := 0;
       match_stats.home_score := 0;
       match_stats.away_score := 0;
       match_stats.total_corners := 0;
       match_stats.home_corners := 0;
       match_stats.away_corners := 0;
       match_stats.total_yellow_cards := 0;
       match_stats.total_red_cards := 0;
       match_stats.both_scored := false;
       match_stats.outcome := "draw" |} in
  let read_statistics stats :=
    match statistics with
    | answered stats_data => read_items (concat (concat stats_data)) stats
    | _ => stats
    end in
  match event with
  | failed => stats
  | refused => read_statistics stats
  | answered (home_score, away_score) =>
      read_statistics
        {| match_stats.total_goals := home_score + away_score;
           match_stats.home_score := home_score;
           match_stats.away_score := away_score;
           match_stats.total_corners := 0;
           match_stats.home_corners := 0;
           match_stats.away_corners := 0;
           match_stats.total_yellow_cards := 0;
           match_stats.total_red_cards := 0;
           match_stats.both_scored := ((0 <? home_score) && (0 <? away_score))%bool;
           match_stats.outcome :=
             if away_score <? home_score then "home"
             else if home_score <? away_score then "away"
             else "draw" |}
  end.

(** A dictionary of [get_sofascore_recent_matches()]. *)
Module recent.
Record t : Type := {
  matchId : string;
  homeTeam : string;
  awayTeam : string;
  homeScore : Z;
  awayScore : Z
}.
End recent.

(** An entry of the [settled] list [check_and_settle] answers with. *)
Record settled_entry : Type := {
  entry_match : string;
  entry_score : string;
  entry_outcome : string;
  entry_corners : Z;
  entry_both_scored : bool;
  entry_bets_settled : Z;
  entry_bets_won : Z;
  entry_predictions_settled : Z
}.

(** What SofaScore answers for an event id. *)
Definition sofascore_api : Type :=
  string -> response (Z * Z) * response (list (list (list statistics_item))).

(** The loop of [check_and_settle]: the [settled] list, or the exception
    that ends the job, with [_settled_matches] and the database. *)
Fixpoint check_and_settle (api : sofascore_api) (results : list recent.t)
    (settled_info : list settled_entry) (_settled_matches : gset string) (d : db)
  : result (list settled_entry) * (gset string * db) :=
  match results with
  | [] => (Ok settled_info, (_settled_matches, d))
  | result :: results' =>
      let match_id := recent.matchId result in
      if (String.eqb match_id "" || bool_decide (match_id ∈ _settled_matches))%bool then
        check_and_settle api results' settled_info _settled_matches d
      else
        let stats := get_match_statistics (fst (api match_id)) (snd (api match_id)) in
        if ((match_stats.total_goals stats =? 0)
            && (match_stats.home_score stats =? 0))%bool then
          check_and_settle api results' settled_info _settled_matches d
        else
          match settle_all_bets_advanced match_id (as_stats stats) d with
          | (Raise e, d') => (Raise e, (_settled_matches, d'))
          | (Ok st, d') =>
              let settled_info :=
                if ((0 <? bets_settled st) || (0 <? predictions_settled st))%bool then
                  (settled_info ++
                   [{| entry_match := recent.homeTeam result ++ " vs "
                                      ++ recent.awayTeam result;
                       entry_score := Py.str (match_stats.home_score stats) ++ ":"
                                      ++ Py.str (match_stats.away_score stats);
                       entry_outcome := match_stats.outcome stats;
                       entry_corners := match_stats.total_corners stats;
                       entry_both_scored := match_stats.both_scored stats;
                       entry_bets_settled := bets_settled st;
                       entry_bets_won := bets_won st;
                       entry_predictions_settled := predictions_settled st |}])%list
                else settled_info in
              check_and_settle api results' settled_info
                ({[ match_id ]} ∪ _settled_matches) d'
          end
  end.

(** One round of [auto_settle_task], after its sleep: the matches are
    settled through [settle_all_for_match], on the score alone. *)
Fixpoint auto_settle_task (results : list recent.t) (_settled_matches : gset string)
    (d : db) : gset string * db :=
  match results with
  | [] => (_settled_matches, d)
  | result :: results' =>
      let match_id := recent.matchId result in
      if (String.eqb match_id "" || bool_decide (match_id ∈ _settled_matches))%bool then
        auto_settle_task results' _settled_matches d
      else
        let home_score := recent.homeScore result in
        let away_score := recent.awayScore result in
        let outcome :=
          if away_score <? home_score then "home"
          else if home_score <? away_score then "away"
          else "draw" in
        let exact_score := Py.str home_score ++ "-" ++ Py.str away_score in
        let '((bets_settled, predictions_settled), d') :=
          Database.settle_all_for_match match_id outcome (Some exact_score) d in
        auto_settle_task results'
          (if ((0 <? bets_settled) || (0 <? predictions_settled))%bool
           then {[ match_id ]} ∪ _settled_matches else _settled_matches)
          d'
  end.

End Api.

(** ** Sample data for the worked examples *)

Module Sample.

(** Final statistics of a match that ended [h]:[a], as both settlement
    jobs build them, with the first-goal side left out. *)
Definition final (h a corners yellow : Z) : stats :=
  {| outcome := Some (if a <? h then "home" else if h <? a then "away" else "draw");
     home_score := Some h;
     away_score := Some a;
     total_goals := Some (h + a);
     both_scored := Some ((0 <? h) && (0 <? a))%bool;
     total_corners := Some corners;
     home_corners := None;
     away_corners := None;
     total_yellow := Some yellow;
     home_yellow := None;
     away_yellow := None;
     has_penalty := None;
     first_goal := None |}.

Definition player (balance wager : Z) : user.row :=
  {| user.balance := balance;
     user.wager_remaining := wager;
     user.bets_total := 1;
     user.bets_won := 0;
     user.bets_lost := 0;
     user.bets_profit := 0;
     user.predictions_won := 0;
     user.predictions_lost := 0;
     user.predictions_profit := 0;
     user.predictions_correct := 0;
     user.predictions_incorrect := 0;
     user.referred_by := None |}.

Definition wager (bet_id user_id : Z) (bet_type : string) (amount : Z) (odds : Q) : bet.row :=
  {| bet.bet_id := bet_id;
     bet.user_id := user_id;
     bet.match_id := "m1";
     bet.bet_type := bet_type;
     bet.amount := amount;
     bet.odds := odds;
     bet.potential_win := winnings_of amount odds;
     bet.home_team := Some "Real Madrid";
     bet.away_team := Some "Barcelona";
     bet.match_date := Some "15.01.2026 21:00";
     bet.status := "pending";
     bet.result := None;
     bet.profit := 0;
     bet.payout := None;
     bet.counted_for_wager := 1 |}.

Definition forecast (prediction_id user_id : Z) (prediction : string) : prediction.row :=
  {| prediction.prediction_id := prediction_id;
     prediction.user_id := user_id;
     prediction.match_id := "m1";
     prediction.prediction := prediction;
     prediction.status := "pending";
     prediction.actual_result := None;
     prediction.points_change := 0 |}.

(** User 7 holds [balance] points after staking on the listed bets. *)
Definition book (balance : Z) (rows : list bet.row) (preds : list prediction.row) : db :=
  {| users := {[ 7 := player balance 0 ]};
     bets := rows;
     predictions := preds;
     transactions := [] |}.

(** A fixture at minute 1000, a feed pricing [home] at 1.85, the clock
    at [now]. *)
Definition feed (suspended : bool) : Api.leon :=
  {| Api.live_odds := {[ "home" := 1.85%Q ]}; Api.bets_suspended := suspended |}.

Definition world (now : Z) (suspended : bool) : Api.env :=
  {| Api.matches := [{| Api.opponent := "Barcelona"; Api.is_home := true;
                        Api.date := "15.01.2026"; Api.time := "21:00" |}];
     Api.kickoff := Some 1000;
     Api.now := now;
     Api._get_leon_cached := fun _ => Some (feed suspended) |}.

Definition request (bet_type : string) (amount : Z) : Api.BetRequest :=
  {| Api.req_match_id := "m1"; Api.req_bet_type := bet_type; Api.req_amount := amount |}.

(** A user brought in by user 3. *)
Definition invited (balance : Z) : user.row :=
  {| user.balance := balance;
     user.wager_remaining := 40;
     user.bets_total := 0;
     user.bets_won := 0;
     user.bets_lost := 0;
     user.bets_profit := 0;
     user.predictions_won := 0;
     user.predictions_lost := 0;
     user.predictions_profit := 0;
     user.predictions_correct := 0;
     user.predictions_incorrect := 0;
     user.referred_by := Some 3 |}.

Definition club : db :=
  {| users := {[ 3 := player 10 0; 7 := invited 100 ]};
     bets := [];
     predictions := [];
     transactions := [] |}.

(** The database before anybody has registered. *)
Definition nobody : db :=
  {| users := ∅; bets := []; predictions := []; transactions := [] |}.

(** User 7 has registered and staked 10 points on [home] at 1.85. *)
Definition opened : db :=
  snd (Database.place_bet 7 "m1" "home" 10 1.85 (Some "Real Madrid") (Some "Barcelona")
         (Some "15.01.2026 21:00") (snd (Database.create_user 7 nobody))).

End Sample.

Module Feed.

Definition quote (name : string) (price : Q) : runner.t :=
  {| runner.name := name; runner.open := true; runner.price := Some price |}.

(** A feed with a goal total, a home total and a 1X2 market; one runner
    of each kind the guard drops: priced at 60, at 1, closed, unpriced. *)
Definition listing : list market.t :=
  [ {| market.name := "Тотал"; market.open := true;
       market.runners := [quote "Больше (2.5)" 1.9; quote "Меньше (2.5)" 60;
                          quote "Больше (3.5)" 3.2; quote "Меньше (3.5)" 1.3;
                          quote "Больше (1.5)" 1.2; quote "Меньше (1.5)" 4.5] |};
    {| market.name := "Тотал хозяев"; market.open := true;
       market.runners := [quote "Больше (1.5)" 2.1; quote "Меньше (1.5)" 1] |};
    {| market.name := "Исход 1X2"; market.open := true;
       market.runners := [quote "1" 1.85;
                          {| runner.name := "X"; runner.open := false;
                             runner.price := Some 3.4%Q |};
                          {| runner.name := "2"; runner.open := true;
                             runner.price := None |}] |} ].

(** Markets on the home goals, the cards, odd/even and a penalty. *)
Definition side_markets : list market.t :=
  [ {| market.name := "Тотал хозяев"; market.open := true;
       market.runners := [quote "Больше (1.5)" 2.1; quote "Меньше (1.5)" 1.7] |};
    {| market.name := "Тотал желтых карточек"; market.open := true;
       market.runners := [quote "Больше (3.5)" 1.8; quote "Меньше (3.5)" 1.95] |};
    {| market.name := "Чет/Нечет"; market.open := true;
       market.runners := [quote "Чет" 1.9; quote "Нечет" 1.9] |};
    {| market.name := "Будет ли пенальти"; market.open := true;
       market.runners := [quote "Да" 3.5; quote "Нет" 1.25] |} ].

(** A fixture at minute 1000 whose feed answers are built from
    [listing], the clock at [now]. *)
Definition world (now : Z) : Api.env :=
  {| Api.matches := [{| Api.opponent := "Barcelona"; Api.is_home := true;
                        Api.date := "15.01.2026"; Api.time := "21:00" |}];
     Api.kickoff := Some 1000;
     Api.now := now;
     Api._get_leon_cached := fun _ => Some (Api.feed_of_markets false listing) |}.

(** The catalogue of that feed with the score at 2:1. *)
Definition shown_at_2_1 : list bet_market.t :=
  Eval vm_compute in
    match Api._build_live_markets (fst (Api._parse_leon_markets listing)) "" "" "2:1" with
    | Ok markets => markets
    | Raise _ => []
    end.

End Feed.

(** ** Vocabulary used to state the properties *)

(** Outcome keys the bookmaker parser writes ([_ou] with the prefixes
    [home], [away] and [cards], the odd/even and the penalty markets) for
    which [Api.settle_bet_by_type] has no branch. *)
Definition unresolved_by_api (key : string) : bool :=
  (Py.startswith key "home_over_" || Py.startswith key "away_over_"
   || Py.startswith key "cards_over_" || Py.startswith key "cards_under_"
   || among key ["total_even"; "total_odd"; "penalty_yes"; "penalty_no"])%bool.

(** The status column of every bet, in row order. *)
Definition statuses (d : db) : list string := map bet.status (bets d).

(** The balance of a user, if the row exists. *)
Definition balance_of (user_id : Z) (d : db) : option Z :=
  user.balance <$> users d !! user_id.

(** The playthrough counter of a user, if the row exists. *)
Definition wager_of (user_id : Z) (d : db) : option Z :=
  user.wager_remaining <$> users d !! user_id.

(** The signed amounts of the ledger, oldest first. *)
Definition ledger_amounts (d : db) : list Z := map transaction.amount (transactions d).

(** What a successful placement leaves behind: the stake is taken from the
    balance, the playthrough counter drops by [min wager_remaining stake],
    one pending bet and one ledger entry of [- stake] are appended, and
    nothing else moves. *)
Definition wager_placed (user_id stake : Z) (odds : Q) (bet_type : string)
    (d d1 : db) : Prop :=
  exists (u : user.row) (b : bet.row) (t : transaction.row),
    users d !! user_id = Some u /\
    balance_of user_id d1 = Some (user.balance u - stake) /\
    wager_of user_id d1 =
      Some (user.wager_remaining u - Z.min (user.wager_remaining u) stake) /\
    0 <= user.wager_remaining u - Z.min (user.wager_remaining u) stake /\
    (forall v, v <> user_id -> users d1 !! v = users d !! v) /\
    bets d1 = (bets d ++ [b])%list /\
    bet.status b = "pending" /\
    bet.user_id b = user_id /\
    bet.bet_type b = bet_type /\
    bet.amount b = stake /\
    bet.odds b = odds /\
    bet.potential_win b = winnings_of stake odds /\
    predictions d1 = predictions d /\
    transactions d1 = (transactions d ++ [t])%list /\
    transaction.user_id t = user_id /\
    transaction.amount t = - stake /\
    transaction.balance_before t = Some (user.balance u) /\
    transaction.balance_after t = Some (user.balance u - stake) /\
    transaction.reference_id t = Some (Py.str (bet.bet_id b)).

(** Every stored price lies in the interval (1, 50]. *)
Definition price_bounded (odds : gmap string Q) : Prop :=
  forall (key : string) (p : Q), odds !! key = Some p -> (1 < p)%Q /\ (p <= 50)%Q.

(** A runner that is open and carries a price in (1, 50]. *)
Definition usable (r : runner.t) : bool :=
  match runner.price r with
  | Some p => (runner.open r && Py.Qltb 1 p && Qle_bool p 50)%bool
  | None => false
  end.

(** The market without its closed, unpriced and out-of-range runners. *)
Definition only_usable (m : market.t) : market.t :=
  {| market.name := market.name m;
     market.open := market.open m;
     market.runners := List.filter usable (market.runners m) |}.

(** The over/under family a catalogue market shows, with the cap and the
    current tally [_build_live_markets] hands to [_collect] for it. *)
Definition family_of (type : string) (hs as_ : Z) : option (string * option Q * Z) :=
  if String.eqb type "total_goals" then Some ("total", Some 10.5%Q, hs + as_)
  else if String.eqb type "home_total" then Some ("home", Some 7.5%Q, hs)
  else if String.eqb type "away_total" then Some ("away", Some 7.5%Q, as_)
  else if String.eqb type "total_corners" then Some ("corners", Some 20%Q, 0)
  else if String.eqb type "total_cards" then Some ("cards", Some 12%Q, 0)
  else if String.eqb type "corners_home" then Some ("corners_home", None, 0)
  else if String.eqb type "corners_away" then Some ("corners_away", None, 0)
  else if String.eqb type "cards_home" then Some ("cards_home", None, 0)
  else if String.eqb type "cards_away" then Some ("cards_away", None, 0)
  else None.

(** An option of an over/under family that respects the cap and is not
    already decided by the tally. *)
Definition live_option (odds : gmap string Q) (prefix : string) (cap : option Q)
    (tally : Z) (b : bet_option.t) : Prop :=
  exists (line : string) (l : Q),
    (bet_option.key b = prefix ++ "_over_" ++ line \/
     bet_option.key b = prefix ++ "_under_" ++ line) /\
    Py.float line = Some l /\
    bet_option.line b = Some l /\
    odds !! bet_option.key b = Some (bet_option.odds b) /\
    (forall c, cap = Some c -> (l <= c)%Q) /\
    (0 < tally -> (inject_Z tally <= l)%Q).

(** The outcome keys a catalogue offers, market by market. *)
Definition offered_keys (catalogue : result (list bet_market.t))
  : result (list (string * list string)) :=
  markets <- catalogue ;;
  Ok (map (fun m => (bet_market.type m, map bet_option.key (bet_market.bets m))) markets).

(** Where the price of a placed bet comes from: the fixed 30 of an exact
    score, or the feed's entry for the key, read as it is or with the
    decimal mark of its line exchanged. *)
Definition quoted (leon_odds : gmap string Q) (bet_type : string) (odds : Q) : Prop :=
  (Py.startswith bet_type "score_" = true /\ odds = 30%Q) \/
  Api.priced leon_odds bet_type = Some odds \/
  Api.priced leon_odds (Py.replace bet_type "," ".") = Some odds \/
  Api.priced leon_odds (Py.replace bet_type "." ",") = Some odds.

(** ** Tables during a settlement pass *)

Section closing.

(** A table whose rows carry a key, a match and a status. *)
Context {row : Type}.
Variables (key : row -> Z) (match_of status_of : row -> string).

(** [l'] is [l] after the rows with a key in [closed] were closed: keys and
    matches are kept, a closed row is no longer pending and every other row
    is untouched. *)
Definition closes (closed : Z -> Prop) (l l' : list row) : Prop :=
  Forall2 (fun b b' =>
             key b' = key b /\ match_of b' = match_of b /\
             (closed (key b) -> status_of b' <> "pending") /\
             (~ closed (key b) -> b' = b)) l l'.

Definition select (match_id : string) (l : list row) : list row :=
  List.filter (fun b => String.eqb (match_of b) match_id
                        && String.eqb (status_of b) "pending")%bool l.

End closing.

(** ** Ledger and balances *)

(** The signed amounts the ledger holds for a user, added up. *)
Definition ledger_sum_of (user_id : Z) (l : list transaction.row) : Z :=
  foldr (fun t acc => if transaction.user_id t =? user_id
                      then transaction.amount t + acc else acc) 0 l.

Definition ledger_sum (user_id : Z) (d : db) : Z := ledger_sum_of user_id (transactions d).

(** The ledger accounts for every balance: a user holds exactly what the
    entries under his name add up to, and nothing is booked under an
    unknown name. *)
Definition reconciled (d : db) : Prop :=
  forall u, balance_or_zero u d = ledger_sum u d.

(** No user owes points or playthrough. *)
Definition solvent (d : db) : Prop :=
  forall u row, users d !! u = Some row ->
                0 <= user.balance row /\ 0 <= user.wager_remaining row.

(** Every bet and every prediction belongs to a known user. *)
Definition owned (d : db) : Prop :=
  (forall b, In b (bets d) -> is_Some (users d !! bet.user_id b)) /\
  (forall p, In p (predictions d) -> is_Some (users d !! prediction.user_id p)).

(** The same users are known in both databases. *)
Definition same_names (d d' : db) : Prop :=
  forall u, is_Some (users d' !! u) <-> is_Some (users d !! u).

(** The user and the match a prediction is made for. *)
Definition forecast_key (p : prediction.row) : Z * string :=
  (prediction.user_id p, prediction.match_id p).

(** The goal that is earliest so far after one more goal has been seen: a
    later goal takes the place only with a strictly smaller clock. *)
Definition earlier (best : option Bot.key_event) (ke : Bot.key_event)
  : option Bot.key_event :=
  match best with
  | None => Some ke
  | Some y => if Py.Qltb (Bot.clock ke) (Bot.clock y) then Some ke else Some y
  end.

(** The runner loops of [_parse_leon_markets]. *)
Inductive runner_loop : (list runner.t -> gmap string Q -> gmap string Q) -> Prop :=
  | loop_ou prefix : runner_loop (fun rs => Api._ou rs prefix)
  | loop_12 p1 p2 : runner_loop (fun rs => Api._12 rs p1 p2)
  | loop_score : runner_loop Api.exact_score
  | loop_odd_even : runner_loop Api.odd_even
  | loop_fixed key_of : runner_loop (Api.fixed key_of)
  | loop_penalty : runner_loop Api.penalty.

(** * Properties *)

(** ** Outcome keys and prefixes *)

Lemma prefix_comparable (p q s : string) :
  String.prefix p s = true -> String.prefix q s = true ->
  (String.prefix p q || String.prefix q p)%bool = true.
Proof.
  revert p q. induction s as [|c s IH]; intros [|a p] [|b q]; simpl;
    intros Hp Hq; try reflexivity; try discriminate.
  destruct (ascii_dec a c) as [->|]; [|discriminate].
  destruct (ascii_dec b c) as [->|]; [|discriminate].
  destruct (ascii_dec c c); [|contradiction]. now apply IH.
Qed.

(** A key cannot start with two prefixes neither of which starts with the
    other. *)
Lemma startswith_apart (s p q : string) :
  (String.prefix p q || String.prefix q p)%bool = false ->
  Py.startswith s p = true -> Py.startswith s q = false.
Proof.
  unfold Py.startswith. intros Hpq Hp.
  destruct (String.prefix q s) eqn:Hq; [|reflexivity].
  now rewrite (prefix_comparable p q s Hp Hq) in Hpq.
Qed.

Lemma startswith_not_eq (s p q : string) :
  String.prefix p q = false -> Py.startswith s p = true -> String.eqb s q = false.
Proof.
  unfold Py.startswith. intros Hpq Hp.
  destruct (String.eqb s q) eqn:E; [|reflexivity].
  apply String.eqb_eq in E. subst. congruence.
Qed.

Lemma startswith_not_among (s p : string) (l : list string) :
  forallb (fun q => negb (String.prefix p q)) l = true ->
  Py.startswith s p = true -> among s l = false.
Proof.
  intros Hl Hp. unfold among. induction l as [|q l IH]; simpl in *; [reflexivity|].
  apply andb_true_iff in Hl as [Hq Hl].
  rewrite (startswith_not_eq s p q); [now apply IH | | assumption].
  now destruct (String.prefix p q).
Qed.

(** Discharge the branches of a resolver that the prefix [H] of the key
    rules out. *)
Ltac skip_branches H :=
  match type of H with
  | Py.startswith ?s ?p = true =>
      repeat match goal with
        | |- context [among s ?l] =>
            rewrite (startswith_not_among s p l eq_refl H)
        | |- context [Py.startswith s ?q] =>
            rewrite (startswith_apart s p q eq_refl H)
        | |- context [String.eqb s ?q] =>
            rewrite (startswith_not_eq s p q eq_refl H)
        end
  end.

(** ** The over/under, handicap and first-goal rules of the API resolver *)

Lemma api_total_over (bet_type : string) (s : stats) (line : Q) :
  Py.startswith bet_type "total_over_" = true ->
  Py.float (Py.replace bet_type "total_over_" "") = Some line ->
  Api.settle_bet_by_type bet_type s =
    (total <- getitem (total_goals s) "total_goals" ;; Ok (Api.over total line)).
Proof.
  intros H Hl. unfold Api.settle_bet_by_type.
  skip_branches H. rewrite H. unfold float_or_raise. now rewrite Hl.
Qed.

Lemma api_total_under (bet_type : string) (s : stats) (line : Q) :
  Py.startswith bet_type "total_under_" = true ->
  Py.float (Py.replace bet_type "total_under_" "") = Some line ->
  Api.settle_bet_by_type bet_type s =
    (total <- getitem (total_goals s) "total_goals" ;; Ok (Api.under total line)).
Proof.
  intros H Hl. unfold Api.settle_bet_by_type.
  skip_branches H. rewrite H. unfold float_or_raise. now rewrite Hl.
Qed.

Lemma api_corners_over (bet_type : string) (s : stats) (line : Q) :
  Py.startswith bet_type "corners_over_" = true ->
  Py.float (Py.replace bet_type "corners_over_" "") = Some line ->
  Api.settle_bet_by_type bet_type s = Ok (Api.over (default 0 (total_corners s)) line).
Proof.
  intros H Hl. unfold Api.settle_bet_by_type.
  skip_branches H. rewrite H. unfold float_or_raise. now rewrite Hl.
Qed.

Lemma api_corners_under (bet_type : string) (s : stats) (line : Q) :
  Py.startswith bet_type "corners_under_" = true ->
  Py.float (Py.replace bet_type "corners_under_" "") = Some line ->
  Api.settle_bet_by_type bet_type s = Ok (Api.under (default 0 (total_corners s)) line).
Proof.
  intros H Hl. unfold Api.settle_bet_by_type.
  skip_branches H. rewrite H. unfold float_or_raise. now rewrite Hl.
Qed.

Lemma api_handicap_home (bet_type : string) (s : stats) (line : Q) (h a : Z) :
  Py.startswith bet_type "handicap_home_" = true ->
  Py.float (Py.replace bet_type "handicap_home_" "") = Some line ->
  home_score s = Some h -> away_score s = Some a ->
  Api.settle_bet_by_type bet_type s = Ok (Api.handicap (inject_Z (h - a) + line)).
Proof.
  intros H Hl Hh Ha. unfold Api.settle_bet_by_type.
  skip_branches H. rewrite H. unfold float_or_raise. now rewrite Hl, Hh, Ha.
Qed.

Lemma api_handicap_away (bet_type : string) (s : stats) (line : Q) (h a : Z) :
  Py.startswith bet_type "handicap_away_" = true ->
  Py.float (Py.replace bet_type "handicap_away_" "") = Some line ->
  home_score s = Some h -> away_score s = Some a ->
  Api.settle_bet_by_type bet_type s = Ok (Api.handicap (inject_Z (a - h) + line)).
Proof.
  intros H Hl Hh Ha. unfold Api.settle_bet_by_type.
  skip_branches H. rewrite H. unfold float_or_raise. now rewrite Hl, Hh, Ha.
Qed.

(** A whole line hit exactly is a push, for "over" and for "under". *)
Lemma api_push_on_whole_line (total : Z) (line : Q) :
  (inject_Z total == line)%Q ->
  Api.over total line = Push /\ Api.under total line = Push.
Proof.
  intros E. unfold Api.over, Api.under, eq_line, is_whole.
  assert (Qeq_bool (inject_Z total) line = true) as -> by now apply Qeq_bool_iff.
  assert (Qeq_bool line (inject_Z (Py.trunc line)) = true) as ->; [|easy].
  apply Qeq_bool_iff. unfold Qeq, Py.trunc in *. simpl in *.
  assert (Qnum line = total * Z.pos (Qden line)) as -> by lia.
  rewrite Z.quot_mul by easy. lia.
Qed.

(** A line that is not whole never pushes: the comparison is strict. *)
Lemma api_strict_off_whole_line (total : Z) (line : Q) :
  is_whole line = false ->
  Api.over total line = of_bool (gt_line total line) /\
  Api.under total line = of_bool (lt_line total line).
Proof.
  intros E. unfold Api.over, Api.under. rewrite E, andb_false_r. easy.
Qed.

Lemma half_line_not_whole (n : Z) : is_whole (inject_Z n + (1 # 2)) = false.
Proof.
  unfold is_whole. destruct (Qeq_bool _ _) eqn:E; [|reflexivity].
  apply Qeq_bool_iff in E. unfold Qeq, Py.trunc in E. simpl in E.
  exfalso. revert E.
  generalize (Z.quot (n * 2 + 1) 2). intros z E. lia.
Qed.

(** The sign rule of the handicap branch. *)
Lemma api_handicap_rule (diff : Q) :
  ((diff == 0)%Q -> Api.handicap diff = Push) /\
  ((0 < diff)%Q -> Api.handicap diff = Win) /\
  ((diff < 0)%Q -> Api.handicap diff = Lose).
Proof.
  unfold Api.handicap, Py.Qltb. repeat split; intros H.
  - now apply Qeq_bool_iff in H as ->.
  - destruct (Qeq_bool diff 0) eqn:E.
    + apply Qeq_bool_iff in E. rewrite E in H. now apply Qlt_irrefl in H.
    + destruct (Qle_bool diff 0) eqn:L; [|reflexivity].
      apply Qle_bool_iff in L. exfalso. now apply (Qlt_not_le _ _ H).
  - destruct (Qeq_bool diff 0) eqn:E.
    + apply Qeq_bool_iff in E. rewrite E in H. now apply Qlt_irrefl in H.
    + assert (Qle_bool diff 0 = true) as ->; [|reflexivity].
      apply Qle_bool_iff. now apply Qlt_le_weak.
Qed.

(** A push on the API path hands back exactly the stake. *)
Lemma api_push_refunds_stake (s : stats) (b : bet.row) (r : Api.counts) (d : db) :
  Api.settle_bet_by_type (bet.bet_type b) s = Ok Push ->
  exists r',
    Api.settle_one_bet s b r d =
      (Ok r', update_user (bet.user_id b) (set_balance (fun bal => bal + bet.amount b))
                (update_bet (bet.bet_id b) (settle_row "returned" None None None) d)).
Proof. intros H. unfold Api.settle_one_bet. rewrite H. eauto. Qed.

(** The one-character checks on a first-goal key. *)
Lemma bot_first_goal_undetermined (bet_type : string) (s : stats) :
  bet_type = "first_goal_home" \/ bet_type = "first_goal_away" ->
  default "" (first_goal s) = "" ->
  Bot.check_bet_won bet_type s = Ok None.
Proof.
  intros [-> | ->] H; unfold Bot.check_bet_won; rewrite H; reflexivity.
Qed.

(** On the bot path an undetermined bet is skipped: nothing is written. *)
Lemma bot_undetermined_left_pending (s : stats) (b : bet.row) (r : Bot.counts) (d : db) :
  Bot.check_bet_won (bet.bet_type b) s = Ok None ->
  Bot.settle_one_bet s b r d = (Ok r, d).
Proof. intros H. unfold Bot.settle_one_bet. now rewrite H. Qed.

(** ** The two resolvers disagree *)

(** C1 (code defect on the API path).  A pending bet on [first_goal_home]
    settled with statistics that carry no first-goal side: the bot path
    answers [None] and leaves the bet pending, but
    [Api.settle_bet_by_type] answers [False] and
    [Api.settle_all_bets_advanced] closes the bet as lost. *)
Theorem api_first_goal_without_side_settles_lost :
  let s := Sample.final 1 1 9 4 in
  let d := Sample.book 100 [Sample.wager 1 7 "first_goal_home" 50 2.1%Q] [] in
  first_goal s = None /\
  Bot.check_bet_won "first_goal_home" s = Ok None /\
  statuses (snd (Bot.settle_all_bets "m1" s d)) = ["pending"] /\
  Api.settle_bet_by_type "first_goal_home" s = Ok Lose /\
  statuses (snd (Api.settle_all_bets_advanced "m1" s d)) = ["lost"] /\
  balance_of 7 (snd (Api.settle_all_bets_advanced "m1" s d)) = Some 100.
Proof. vm_compute. repeat split. Qed.

(** The three worked examples of the whole-line rule, on the API path. *)
Example api_over_under_examples :
  Api.settle_bet_by_type "total_over_2" (Sample.final 1 1 9 4) = Ok Push /\
  Api.settle_bet_by_type "total_under_2" (Sample.final 1 1 9 4) = Ok Push /\
  Api.settle_bet_by_type "total_over_2.5" (Sample.final 2 1 9 4) = Ok Win /\
  Api.settle_bet_by_type "total_under_2.5" (Sample.final 1 1 9 4) = Ok Win.
Proof. vm_compute. repeat split. Qed.

(** C2 (code defect).  The whole-line push exists only in the goal, corner
    and [home_total]/[away_total] branches of the API resolver.  The bot
    resolver compares strictly, so [total_over_2] with two goals is lost and
    the stake is not handed back; the API resolver has no card branch, so
    [cards_over_4] with four cards is lost as well. *)
Theorem whole_line_push_missing :
  let s := Sample.final 1 1 9 4 in
  let d := Sample.book 100 [Sample.wager 1 7 "total_over_2" 50 2.1%Q] [] in
  Api.settle_bet_by_type "total_over_2" s = Ok Push /\
  balance_of 7 (snd (Api.settle_all_bets_advanced "m1" s d)) = Some 150 /\
  Bot.check_bet_won "total_over_2" s = Ok (Some false) /\
  statuses (snd (Bot.settle_all_bets "m1" s d)) = ["lost"] /\
  balance_of 7 (snd (Bot.settle_all_bets "m1" s d)) = Some 100 /\
  Api.settle_bet_by_type "cards_over_4" s = Ok Lose.
Proof. vm_compute. repeat split. Qed.

(** C6 (code defect on the bot path).  [handicap_home_1] with a final
    score of 3:4 gives [3 - 4 + 1 = 0]: the API resolver answers ['push']
    and the stake is handed back, the bot resolver answers [False] and the
    bet is closed as lost. *)
Theorem bot_handicap_zero_is_lost :
  let s := Sample.final 3 4 9 4 in
  let d := Sample.book 100 [Sample.wager 1 7 "handicap_home_1" 50 1.9%Q] [] in
  Api.settle_bet_by_type "handicap_home_1" s = Ok Push /\
  statuses (snd (Api.settle_all_bets_advanced "m1" s d)) = ["returned"] /\
  balance_of 7 (snd (Api.settle_all_bets_advanced "m1" s d)) = Some 150 /\
  Bot.check_bet_won "handicap_home_1" s = Ok (Some false) /\
  statuses (snd (Bot.settle_all_bets "m1" s d)) = ["lost"] /\
  balance_of 7 (snd (Bot.settle_all_bets "m1" s d)) = Some 100.
Proof. vm_compute. repeat split. Qed.

(** ** Keys the API resolver does not know *)

(** C10.  A key of the parser's per-team goal, card, odd/even or penalty
    vocabulary reaches the final [return False] of
    [Api.settle_bet_by_type] whatever the statistics are, and the
    settlement loop closes a bet on it as lost. *)
Theorem api_resolver_misses_parser_keys (key : string) (s : stats) :
  unresolved_by_api key = true ->
  Api.settle_bet_by_type key s = Ok Lose /\
  forall (b : bet.row) (r : Api.counts) (d : db),
    bet.bet_type b = key ->
    exists r',
      Api.settle_one_bet s b r d =
        (Ok r', update_bet (bet.bet_id b) (settle_row "lost" None None None) d) /\
      Api.bets_lost r' = Api.bets_lost r + 1.
Proof.
  intros H.
  assert (Api.settle_bet_by_type key s = Ok Lose) as E.
  { unfold unresolved_by_api, among in H. simpl in H.
    repeat (apply orb_true_iff in H as [H | H]);
      first [ discriminate H
            | apply String.eqb_eq in H; subst key; reflexivity
            | unfold Api.settle_bet_by_type; skip_branches H; reflexivity ]. }
  split; [exact E|].
  intros b r d <-. unfold Api.settle_one_bet. rewrite E. eauto.
Qed.

Lemma api_resolver_misses_parser_keys_witness :
  unresolved_by_api "home_over_1.5" = true /\
  Api.settle_bet_by_type "home_over_1.5" (Sample.final 2 0 9 4) = Ok Lose.
Proof.
  split; [reflexivity|].
  apply (api_resolver_misses_parser_keys "home_over_1.5" (Sample.final 2 0 9 4)).
  reflexivity.
Defined.

(** The statistics may well satisfy such a bet: the bot resolver pays
    the same keys on the same statistics. *)
Example api_loses_bets_the_bot_pays :
  let s := Sample.final 2 0 9 4 in
  Bot.check_bet_won "home_over_1.5" s = Ok (Some true) /\
  Api.settle_bet_by_type "home_over_1.5" s = Ok Lose /\
  Bot.check_bet_won "cards_over_3.5" s = Ok (Some true) /\
  Api.settle_bet_by_type "cards_over_3.5" s = Ok Lose /\
  Bot.check_bet_won "total_even" s = Ok (Some true) /\
  Api.settle_bet_by_type "total_even" s = Ok Lose.
Proof. vm_compute. repeat split. Qed.

(** The bookmaker parser does write such keys. *)
Example parser_writes_unresolved_keys :
  let odds := fst (Api._parse_leon_markets Feed.side_markets) in
  Forall (fun key => is_Some (odds !! key) /\ unresolved_by_api key = true)
    ["home_over_1.5"; "cards_over_3.5"; "cards_under_3.5";
     "total_even"; "total_odd"; "penalty_yes"; "penalty_no"].
Proof. vm_compute. repeat constructor; eauto. Qed.
(** ** Settlement closes every selected row *)

Section closing.

(** A table whose rows carry a key, a match and a status. *)
Context {row : Type}.
Variables (key : row -> Z) (match_of status_of : row -> string).

Local Abbreviation closing := (closes key match_of status_of).
Local Abbreviation selected := (select match_of status_of).

Lemma closes_refl (l : list row) : closing (fun _ => False) l l.
Proof. induction l; constructor; auto. Qed.

Lemma closes_equiv (P Q : Z -> Prop) (l l' : list row) :
  (forall i, P i <-> Q i) -> closing P l l' -> closing Q l l'.
Proof.
  intros HPQ H. induction H as [|b b' l l' (Hk & Hm & Hc & Hu) _ IH]; constructor; auto.
  split; [exact Hk|]. split; [exact Hm|]. split.
  - intros HQ. apply Hc, HPQ, HQ.
  - intros HQ. apply Hu. intros HP. apply HQ, HPQ, HP.
Qed.

(** [UPDATE ... SET status = st WHERE key = k] with [st] not pending. *)
Lemma closes_update (P : Z -> Prop) (l l' : list row) (k : Z) (f : row -> row) :
  (forall b, key (f b) = key b /\ match_of (f b) = match_of b /\
             status_of (f b) <> "pending") ->
  closing P l l' ->
  closing (fun i => i = k \/ P i) l (map (fun b => if key b =? k then f b else b) l').
Proof.
  intros Hf H. induction H as [|b b' l l' (Hk & Hm & Hc & Hu) _ IH]; simpl; constructor; auto.
  destruct (Z.eqb_spec (key b') k) as [E|E].
  - destruct (Hf b') as (Hk' & Hm' & Hs').
    split; [congruence|]. split; [congruence|]. split.
    + intros _. exact Hs'.
    + intros N. exfalso. apply N. left. congruence.
  - split; [exact Hk|]. split; [exact Hm|]. split.
    + intros [Ek | HP]; [congruence | exact (Hc HP)].
    + intros N. apply Hu. intros HP. apply N. now right.
Qed.

(** Nothing with key [k] is pending: [k] counts as closed. *)
Lemma closes_none_pending (P : Z -> Prop) (l l' : list row) (k : Z) :
  (forall b', In b' l' -> key b' = k -> status_of b' <> "pending") ->
  closing P l l' -> closing (fun i => i = k \/ P i) l l'.
Proof.
  intros Hn H. induction H as [|b b' l l' (Hk & Hm & Hc & Hu) _ IH]; constructor.
  - split; [exact Hk|]. split; [exact Hm|]. split.
    + intros [Ek | HP]; [|exact (Hc HP)].
      apply (Hn b' (or_introl eq_refl)). congruence.
    + intros N. apply Hu. intros HP. apply N. now right.
  - apply IH. intros x Hx. apply Hn. now right.
Qed.

(** The rows still selected afterwards are the selected rows that were
    not closed, in the same order. *)
Lemma closes_select (P : Z -> Prop) (mem : Z -> bool) (l l' : list row)
    (match_id : string) :
  (forall i, mem i = true <-> P i) ->
  closing P l l' ->
  selected match_id l' = List.filter (fun b => negb (mem (key b))) (selected match_id l).
Proof.
  intros Hmem H. unfold select.
  induction H as [|b b' l l' (Hk & Hm & Hc & Hu) _ IH]; [reflexivity|].
  simpl. destruct (mem (key b)) eqn:M.
  - assert (String.eqb (status_of b') "pending" = false) as ->.
    { apply String.eqb_neq. apply Hc, Hmem, M. }
    rewrite andb_false_r.
    destruct (_ && _)%bool; simpl; rewrite ?M; exact IH.
  - assert (b' = b) as ->.
    { apply Hu. intros HP. apply Hmem in HP. congruence. }
    destruct (_ && _)%bool; simpl; rewrite ?M; simpl; now rewrite IH.
Qed.

(** Once every selected row is closed the selection is empty. *)
Lemma closes_select_nil (P : Z -> Prop) (l l' : list row) (match_id : string) :
  closing P l l' ->
  (forall b, In b (selected match_id l) -> P (key b)) ->
  selected match_id l' = [].
Proof.
  intros H. induction H as [|b b' l l' (Hk & Hm & Hc & Hu) _ IH]; intros Hall;
    [reflexivity|].
  assert (selected match_id l' = []) as IH'.
  { apply IH. intros x Hx. apply Hall. unfold select in *. simpl.
    destruct (_ && _)%bool; [now right | assumption]. }
  unfold select in *. simpl.
  destruct (String.eqb (match_of b') match_id) eqn:Em; simpl; [|exact IH'].
  destruct (String.eqb (status_of b') "pending") eqn:Es; simpl; [|exact IH'].
  exfalso. pose proof Es as Es'. apply String.eqb_eq in Es'.
  assert (~ P (key b)) as N by (intros HP; now apply (Hc HP)).
  pose proof (Hu N) as Eb. subst b'.
  apply N, Hall. simpl. rewrite Em, Es. now left.
Qed.

(** Keys stay distinct in a selection. *)
Lemma NoDup_keys_filter (p : row -> bool) (l : list row) :
  List.NoDup (map key l) -> List.NoDup (map key (List.filter p l)).
Proof.
  induction l as [|b l IH]; simpl; intros H; [constructor|].
  inversion H as [|? ? Hb Hl]; subst.
  destruct (p b); simpl; [|now apply IH].
  constructor; [|now apply IH].
  intros Hin. apply Hb. apply in_map_iff in Hin as (x & Ex & Hx).
  apply filter_In in Hx as [Hx _]. apply in_map_iff. eauto.
Qed.

(** Dropping the rows already handled leaves the rest of the selection. *)
Lemma filter_handled (done rest : list row) :
  List.NoDup (map key (done ++ rest)) ->
  List.filter (fun b => negb (existsb (Z.eqb (key b)) (map key done))) (done ++ rest)
  = rest.
Proof.
  intros H. rewrite List.filter_app.
  assert (forall ks l, (forall b, In b l -> In (key b) ks) ->
            List.filter (fun b => negb (existsb (Z.eqb (key b)) ks)) l = []) as G1.
  { intros ks l. induction l as [|b l IH]; intros G; [reflexivity|]. simpl.
    assert (existsb (Z.eqb (key b)) ks = true) as ->.
    { apply existsb_exists. exists (key b). split; [apply G; now left|apply Z.eqb_refl]. }
    simpl. apply IH. intros x Hx. apply G. now right. }
  assert (forall ks l, (forall b, In b l -> ~ In (key b) ks) ->
            List.filter (fun b => negb (existsb (Z.eqb (key b)) ks)) l = l) as G2.
  { intros ks l. induction l as [|b l IH]; intros G; [reflexivity|]. simpl.
    assert (existsb (Z.eqb (key b)) ks = false) as ->.
    { destruct (existsb _ ks) eqn:E; [|reflexivity].
      apply existsb_exists in E as (k & Hk & Ek). apply Z.eqb_eq in Ek. subst k.
      exfalso. apply (G b); [now left|exact Hk]. }
    simpl. f_equal. apply IH. intros x Hx. apply G. now right. }
  rewrite G1 by (intros b Hb; now apply in_map).
  rewrite G2; [reflexivity|].
  intros b Hb Hin. rewrite map_app in H.
  apply NoDup_ListNoDup in H. apply NoDup_app in H as (_ & Hd & _).
  apply (Hd (key b)); apply list_elem_of_In; [exact Hin | now apply in_map].
Qed.

End closing.

Lemma settle_row_closes (st : string) (x : option (option string)) (y z : option Z) :
  st <> "pending" ->
  forall b, bet.bet_id (settle_row st x y z b) = bet.bet_id b /\
            bet.match_id (settle_row st x y z b) = bet.match_id b /\
            bet.status (settle_row st x y z b) <> "pending".
Proof. intros H b. repeat split. exact H. Qed.

Lemma settle_prediction_row_closes (st : string) (x : option (option string)) (y : option Z) :
  st <> "pending" ->
  forall p, prediction.prediction_id (settle_prediction_row st x y p) = prediction.prediction_id p /\
            prediction.match_id (settle_prediction_row st x y p) = prediction.match_id p /\
            prediction.status (settle_prediction_row st x y p) <> "pending".
Proof. intros H p. repeat split. exact H. Qed.

Abbreviation bets_closed := (closes bet.bet_id bet.match_id bet.status).
Abbreviation predictions_closed :=
  (closes prediction.prediction_id prediction.match_id prediction.status).

(** *** The API path *)

Lemma api_one_bet_closes (s : stats) (b : bet.row) (r r' : Api.counts) (d d' : db)
    (P : Z -> Prop) (l0 : list bet.row) :
  Api.settle_one_bet s b r d = (Ok r', d') ->
  bets_closed P l0 (bets d) ->
  bets_closed (fun i => i = bet.bet_id b \/ P i) l0 (bets d') /\
  predictions d' = predictions d.
Proof.
  unfold Api.settle_one_bet. intros H Hc.
  destruct (Api.settle_bet_by_type (bet.bet_type b) s) as [[| |]|]; inversion H; subst;
    simpl; (split; [|reflexivity]);
    apply closes_update; auto; apply settle_row_closes; discriminate.
Qed.

Lemma api_one_bet_raises (s : stats) (b : bet.row) (r : Api.counts) (d d' : db) (e : exn) :
  Api.settle_one_bet s b r d = (Raise e, d') ->
  d' = d /\ Api.settle_bet_by_type (bet.bet_type b) s = Raise e.
Proof.
  unfold Api.settle_one_bet.
  destruct (Api.settle_bet_by_type (bet.bet_type b) s) as [[| |]|x]; inversion 1; auto.
Qed.

(** The loop over the bets closes the rows it handled, [done], and stops
    at the first bet whose resolution raises. *)
Lemma api_bets_run (s : stats) (rows : list bet.row) :
  forall (r : Api.counts) (d d' : db) (res : result Api.counts)
         (P : Z -> Prop) (l0 : list bet.row),
    Api.settle_bets s rows r d = (res, d') ->
    bets_closed P l0 (bets d) ->
    exists done rest,
      rows = (done ++ rest)%list /\
      bets_closed (fun i => In i (map bet.bet_id done) \/ P i) l0 (bets d') /\
      predictions d' = predictions d /\
      match res with
      | Ok _ => rest = []
      | Raise e => exists b rest', rest = b :: rest' /\
                                   Api.settle_bet_by_type (bet.bet_type b) s = Raise e
      end.
Proof.
  induction rows as [|b rows IH]; simpl; intros r d d' res P l0 H Hc.
  - inversion H; subst. exists [], []. repeat split; auto.
    eapply closes_equiv; [|exact Hc]. simpl. tauto.
  - destruct (Api.settle_one_bet s b r d) as [[r1|e] d1] eqn:E.
    + destruct (api_one_bet_closes _ _ _ _ _ _ _ _ E Hc) as [Hc1 Hp1].
      destruct (IH _ _ _ _ _ _ H Hc1) as (done & rest & -> & Hc2 & Hp2 & Hres).
      exists (b :: done), rest. split; [reflexivity|]. split; [|split; [congruence|exact Hres]].
      eapply closes_equiv; [|exact Hc2]. simpl. intros i. split.
      * intros [H1|[->|H2]]; auto.
      * intros [[<-|H1]|H2]; auto.
    + inversion H; subst. apply api_one_bet_raises in E as [-> E].
      exists [], (b :: rows). split; [reflexivity|]. split; [|split; [reflexivity|eauto]].
      eapply closes_equiv; [|exact Hc]. simpl. tauto.
Qed.

Lemma api_one_prediction_closes (s : stats) (p : prediction.row) (r r' : Api.counts)
    (d d' : db) (P : Z -> Prop) (l0 : list prediction.row) :
  Api.settle_one_prediction s p r d = (Ok r', d') ->
  predictions_closed P l0 (predictions d) ->
  predictions_closed (fun i => i = prediction.prediction_id p \/ P i) l0 (predictions d') /\
  bets d' = bets d.
Proof.
  unfold Api.settle_one_prediction. intros H Hc.
  destruct (getitem (outcome s) "outcome") as [o|]; [|discriminate].
  inversion H; subst. destruct (String.eqb (prediction.prediction p) o); simpl;
    (split; [|reflexivity]);
    apply closes_update; auto; apply settle_prediction_row_closes; discriminate.
Qed.

Lemma api_predictions_close (s : stats) (rows : list prediction.row) :
  forall (r r' : Api.counts) (d d' : db) (P : Z -> Prop) (l0 : list prediction.row),
    Api.settle_predictions s rows r d = (Ok r', d') ->
    predictions_closed P l0 (predictions d) ->
    predictions_closed (fun i => In i (map prediction.prediction_id rows) \/ P i)
                       l0 (predictions d') /\
    bets d' = bets d.
Proof.
  induction rows as [|p rows IH]; simpl; intros r r' d d' P l0 H Hc.
  - inversion H; subst. split; [|reflexivity].
    eapply closes_equiv; [|exact Hc]. simpl. tauto.
  - destruct (Api.settle_one_prediction s p r d) as [[r1|e] d1] eqn:E; [|discriminate].
    destruct (api_one_prediction_closes _ _ _ _ _ _ _ _ E Hc) as [Hc1 Hp1].
    destruct (IH _ _ _ _ _ _ H Hc1) as [Hc2 Hp2].
    split; [|congruence].
    eapply closes_equiv; [|exact Hc2]. simpl. intros i. split.
    + intros [H1|[->|H2]]; auto.
    + intros [[<-|H1]|H2]; auto.
Qed.

(** The loop over the predictions raises only for want of an outcome, and
    then at its first turn, before any write. *)
Lemma api_predictions_raise (s : stats) (rows : list prediction.row) (r : Api.counts)
    (d d' : db) (e : exn) :
  Api.settle_predictions s rows r d = (Raise e, d') ->
  d' = d /\ forall r0, Api.settle_predictions s rows r0 d = (Raise e, d).
Proof.
  destruct rows as [|p rows]; simpl; [discriminate|].
  unfold Api.settle_one_prediction.
  destruct (getitem (outcome s) "outcome") as [o|x] eqn:O.
  - intros H. exfalso. revert H.
    match goal with |- Api.settle_predictions s rows ?r1 ?d1 = _ -> _ =>
      generalize r1, d1 end.
    induction rows as [|q rows IH]; simpl; intros r1 d1; [discriminate|].
    unfold Api.settle_one_prediction. rewrite O. apply IH.
  - intros [= <- <-]. auto.
Qed.

(** After a pass that returned normally no row of the match is pending. *)
Lemma api_pass_leaves_nothing_pending (match_id : string) (s : stats) (d d1 : db)
    (c : Api.counts) :
  Api.settle_all_bets_advanced match_id s d = (Ok c, d1) ->
  pending_bets match_id d1 = [] /\ pending_predictions match_id d1 = [].
Proof.
  unfold Api.settle_all_bets_advanced. intros H.
  destruct (Api.settle_bets s (pending_bets match_id d) Api.zero d) as [[r|e] d'] eqn:Eb;
    [|discriminate].
  destruct (api_bets_run _ _ _ _ _ _ _ _ Eb (closes_refl _ _ _ (bets d)))
    as (done & rest & Er & Hb & Hp & ->).
  rewrite app_nil_r in Er. subst done.
  destruct (api_predictions_close _ _ _ _ _ _ _ _ H
              (closes_refl _ _ _ (predictions d'))) as [Hp' Hb'].
  split.
  - unfold pending_bets. rewrite Hb'.
    apply (closes_select_nil _ _ _ _ _ _ match_id Hb).
    intros b Hin. left. now apply in_map.
  - apply (closes_select_nil _ _ _ _ _ _ match_id Hp').
    intros p Hin. left. now apply in_map.
Qed.

(** A pass that raised stopped at a row that is still the first pending
    one: the next pass raises there again, before any write. *)
Lemma api_pass_raises_again (match_id : string) (s : stats) (d d1 : db) (e : exn) :
  List.NoDup (map bet.bet_id (bets d)) ->
  Api.settle_all_bets_advanced match_id s d = (Raise e, d1) ->
  Api.settle_all_bets_advanced match_id s d1 = (Raise e, d1).
Proof.
  unfold Api.settle_all_bets_advanced. intros Hnd H.
  destruct (Api.settle_bets s (pending_bets match_id d) Api.zero d) as [[r|x] d'] eqn:Eb.
  - destruct (api_bets_run _ _ _ _ _ _ _ _ Eb (closes_refl _ _ _ (bets d)))
      as (done & rest & Er & Hb & Hp & ->).
    rewrite app_nil_r in Er. subst done.
    apply api_predictions_raise in H as [-> Hagain].
    assert (pending_bets match_id d' = []) as ->.
    { apply (closes_select_nil _ _ _ _ _ _ match_id Hb).
      intros b Hin. left. now apply in_map. }
    simpl. apply Hagain.
  - inversion H; subst; clear H.
    destruct (api_bets_run _ _ _ _ _ _ _ _ Eb (closes_refl _ _ _ (bets d)))
      as (done & rest & Er & Hb & Hp & b & rest' & -> & Hraise).
    assert (pending_bets match_id d1 = b :: rest') as ->.
    { assert (forall i, existsb (Z.eqb i) (map bet.bet_id done) = true <->
                        (In i (map bet.bet_id done) \/ False)) as Hmem.
      { intros i. rewrite existsb_exists. split.
        - intros (k & Hk & Ek). apply Z.eqb_eq in Ek. subst k. now left.
        - intros [Hi|[]]. exists i. split; [exact Hi|apply Z.eqb_refl]. }
      pose proof (closes_select bet.bet_id bet.match_id bet.status _ _ _ _
                    match_id Hmem Hb) as S.
      unfold pending_bets in *. unfold select in S. rewrite S, Er.
      apply (filter_handled bet.bet_id). rewrite <- Er.
      now apply NoDup_keys_filter. }
    simpl. unfold Api.settle_one_bet. now rewrite Hraise.
Qed.

(** *** The database path *)

Lemma update_user_balance_tables (user_id amount : Z) (ty : string)
    (ref : option string) (w : bool) (d : db) :
  bets (snd (Database.update_user_balance user_id amount ty ref w d)) = bets d /\
  predictions (snd (Database.update_user_balance user_id amount ty ref w d)) = predictions d.
Proof.
  unfold Database.update_user_balance.
  destruct (users d !! user_id); [|easy].
  destruct (_ <? 0); easy.
Qed.

Lemma db_settle_bet_closes (bet_id : Z) (res : string) (sc : option string)
    (d : db) (P : Z -> Prop) (l0 : list bet.row) :
  bets_closed P l0 (bets d) ->
  bets_closed (fun i => i = bet_id \/ P i) l0
              (bets (snd (Database.settle_bet bet_id res sc d))) /\
  predictions (snd (Database.settle_bet bet_id res sc d)) = predictions d.
Proof.
  intros Hc. unfold Database.settle_bet, Database.fetch_pending_bet.
  destruct (List.find _ (bets d)) as [b|] eqn:F.
  - destruct (update_user_balance_tables (bet.user_id b) (bet.potential_win b) "bet_win"
                (Some (Py.str bet_id)) false d) as [Eb Ep].
    match goal with |- context [if ?c then _ else _] => destruct c end; simpl.
    + rewrite Eb, Ep. split; [|reflexivity].
      apply closes_update; auto; apply settle_row_closes; discriminate.
    + split; [|reflexivity].
      apply closes_update; auto; apply settle_row_closes; discriminate.
  - simpl. split; [|reflexivity].
    apply closes_none_pending; auto.
    intros x Hx Ek Hs. pose proof (find_none _ _ F x Hx) as N. simpl in N.
    rewrite Ek, Z.eqb_refl, Hs in N. discriminate.
Qed.

Lemma db_bets_close (res : string) (sc : option string) (rows : list bet.row) :
  forall (n : Z) (d : db) (P : Z -> Prop) (l0 : list bet.row),
    bets_closed P l0 (bets d) ->
    bets_closed (fun i => In i (map bet.bet_id rows) \/ P i) l0
                (bets (snd (Database.settle_bets res sc rows n d))) /\
    predictions (snd (Database.settle_bets res sc rows n d)) = predictions d.
Proof.
  induction rows as [|b rows IH]; simpl; intros n d P l0 Hc.
  - split; [|reflexivity].
    eapply closes_equiv; [|exact Hc]. simpl. tauto.
  - destruct (db_settle_bet_closes (bet.bet_id b) res sc d P l0 Hc) as [Hc1 Hp1].
    destruct (Database.settle_bet (bet.bet_id b) res sc d) as [ok d1]. simpl in *.
    destruct (IH (if ok then n + 1 else n) d1 _ l0 Hc1) as [Hc2 Hp2].
    split; [|congruence].
    eapply closes_equiv; [|exact Hc2]. simpl. intros i. split.
    + intros [H1|[->|H2]]; auto.
    + intros [[<-|H1]|H2]; auto.
Qed.

Lemma db_settle_prediction_closes (prediction_id : Z) (res : string)
    (d : db) (P : Z -> Prop) (l0 : list prediction.row) :
  predictions_closed P l0 (predictions d) ->
  predictions_closed (fun i => i = prediction_id \/ P i) l0
              (predictions (snd (Database.settle_prediction prediction_id res d))) /\
  bets (snd (Database.settle_prediction prediction_id res d)) = bets d.
Proof.
  intros Hc. unfold Database.settle_prediction, Database.fetch_pending_prediction.
  destruct (List.find _ (predictions d)) as [p|] eqn:F.
  - destruct (String.eqb (prediction.prediction p) res); simpl.
    + destruct (update_user_balance_tables (prediction.user_id p) 5 "prediction_win"
                  (Some (Py.str prediction_id)) false d) as [Eb Ep].
      rewrite Eb, Ep. split; [|reflexivity].
      apply closes_update; auto; apply settle_prediction_row_closes; discriminate.
    + destruct (update_user_balance_tables (prediction.user_id p) (-10) "prediction_loss"
                  (Some (Py.str prediction_id)) false d) as [Eb Ep].
      rewrite Eb, Ep. split; [|reflexivity].
      apply closes_update; auto; apply settle_prediction_row_closes; discriminate.
  - simpl. split; [|reflexivity].
    apply closes_none_pending; auto.
    intros x Hx Ek Hs. pose proof (find_none _ _ F x Hx) as N. simpl in N.
    rewrite Ek, Z.eqb_refl, Hs in N. discriminate.
Qed.

Lemma db_predictions_close (res : string) (rows : list prediction.row) :
  forall (n : Z) (d : db) (P : Z -> Prop) (l0 : list prediction.row),
    predictions_closed P l0 (predictions d) ->
    predictions_closed (fun i => In i (map prediction.prediction_id rows) \/ P i) l0
                (predictions (snd (Database.settle_predictions res rows n d))) /\
    bets (snd (Database.settle_predictions res rows n d)) = bets d.
Proof.
  induction rows as [|p rows IH]; simpl; intros n d P l0 Hc.
  - split; [|reflexivity].
    eapply closes_equiv; [|exact Hc]. simpl. tauto.
  - destruct (db_settle_prediction_closes (prediction.prediction_id p) res d P l0 Hc)
      as [Hc1 Hp1].
    destruct (Database.settle_prediction (prediction.prediction_id p) res d) as [ok d1].
    simpl in *.
    destruct (IH (if ok then n + 1 else n) d1 _ l0 Hc1) as [Hc2 Hp2].
    split; [|congruence].
    eapply closes_equiv; [|exact Hc2]. simpl. intros i. split.
    + intros [H1|[->|H2]]; auto.
    + intros [[<-|H1]|H2]; auto.
Qed.

Lemma db_pass_leaves_nothing_pending (match_id res : string) (sc : option string) (d : db) :
  let d1 := snd (Database.settle_all_for_match match_id res sc d) in
  pending_bets match_id d1 = [] /\ pending_predictions match_id d1 = [].
Proof.
  unfold Database.settle_all_for_match.
  destruct (db_bets_close res sc (pending_bets match_id d) 0 d _ _
              (closes_refl _ _ _ (bets d))) as [Hb Hp].
  destruct (Database.settle_bets res sc (pending_bets match_id d) 0 d) as [n1 d1].
  simpl in Hb, Hp.
  destruct (db_predictions_close res (pending_predictions match_id d1) 0 d1 _ _
              (closes_refl _ _ _ (predictions d1))) as [Hp' Hb'].
  destruct (Database.settle_predictions res (pending_predictions match_id d1) 0 d1)
    as [n2 d2].
  simpl in *. split.
  - unfold pending_bets. rewrite Hb'.
    apply (closes_select_nil _ _ _ _ _ _ match_id Hb).
    intros b Hin. left. now apply in_map.
  - apply (closes_select_nil _ _ _ _ _ _ match_id Hp').
    intros p Hin. left. now apply in_map.
Qed.



(** ** Ledger effects of a lost bet *)

Lemma balance_of_update_user (u user_id : Z) (f : user.row -> user.row) (d : db) :
  balance_of u (update_user user_id f d) =
    if decide (u = user_id) then (fun x => user.balance (f x)) <$> users d !! u
    else balance_of u d.
Proof.
  unfold balance_of, update_user. simpl.
  destruct (decide (u = user_id)) as [->|N].
  - rewrite lookup_alter_eq. now destruct (users d !! user_id).
  - now rewrite lookup_alter_ne.
Qed.

Lemma wager_of_update_user (u user_id : Z) (f : user.row -> user.row) (d : db) :
  (forall x, user.wager_remaining (f x) = user.wager_remaining x) ->
  wager_of u (update_user user_id f d) = wager_of u d.
Proof.
  intros Hf. unfold wager_of, update_user. simpl.
  destruct (decide (u = user_id)) as [->|N].
  - rewrite lookup_alter_eq. destruct (users d !! user_id); simpl; [|reflexivity].
    now rewrite Hf.
  - now rewrite lookup_alter_ne.
Qed.

Lemma balance_of_update_user_frame (u user_id : Z) (f : user.row -> user.row) (d : db) :
  (forall x, user.balance (f x) = user.balance x) ->
  balance_of u (update_user user_id f d) = balance_of u d.
Proof.
  intros Hf. rewrite balance_of_update_user. destruct (decide _) as [->|]; [|reflexivity].
  unfold balance_of. destruct (users d !! user_id); simpl; [|reflexivity].
  now rewrite Hf.
Qed.

(** On the bot path a lost bet gets its zero-amount ledger entry and
    leaves every balance and playthrough counter as it was. *)
Lemma bot_lost_bet (s : stats) (b : bet.row) (r : Bot.counts) (d : db) :
  Bot.check_bet_won (bet.bet_type b) s = Ok (Some false) ->
  exists r' d' t,
    Bot.settle_one_bet s b r d = (Ok r', d') /\
    (forall x, In x (bets d') -> bet.bet_id x = bet.bet_id b -> bet.status x = "lost") /\
    (forall u, balance_of u d' = balance_of u d) /\
    (forall u, wager_of u d' = wager_of u d) /\
    transactions d' = (transactions d ++ [t])%list /\
    transaction.amount t = 0 /\
    transaction.user_id t = bet.user_id b /\
    transaction.reference_id t = Some (Py.str (bet.bet_id b)).
Proof.
  intros H. unfold Bot.settle_one_bet. rewrite H.
  eexists _, _, _. split; [reflexivity|]. simpl. repeat split.
  - intros x Hx Hid. apply in_map_iff in Hx as (y & <- & _).
    destruct (Z.eqb_spec (bet.bet_id y) (bet.bet_id b)) as [E|E]; [reflexivity|].
    now rewrite Hid in E.
  - intros u.
    apply (balance_of_update_user_frame u (bet.user_id b) (bump c_bets_lost 1)
             (update_bet (bet.bet_id b) (settle_row "lost" None None None) d)).
    reflexivity.
  - intros u.
    apply (wager_of_update_user u (bet.user_id b) (bump c_bets_lost 1)
             (update_bet (bet.bet_id b) (settle_row "lost" None None None) d)).
    reflexivity.
Qed.

(** On the API path a lost bet only changes its status column. *)
Lemma api_lost_bet (s : stats) (b : bet.row) (r : Api.counts) (d : db) :
  Api.settle_bet_by_type (bet.bet_type b) s = Ok Lose ->
  exists r' d',
    Api.settle_one_bet s b r d = (Ok r', d') /\
    (forall x, In x (bets d') -> bet.bet_id x = bet.bet_id b -> bet.status x = "lost") /\
    users d' = users d /\
    transactions d' = transactions d.
Proof.
  intros H. unfold Api.settle_one_bet. rewrite H.
  eexists _, _. split; [reflexivity|]. simpl. repeat split.
  intros x Hx Hid. apply in_map_iff in Hx as (y & <- & _).
  destruct (Z.eqb_spec (bet.bet_id y) (bet.bet_id b)) as [E|E]; [reflexivity|].
  now rewrite Hid in E.
Qed.

(** C5 (code defect on the API and database paths).  A pending bet on
    [home] for a match the away side won.  All three settlement paths leave
    the balance at 100 and close the bet as lost, but only the bot path
    appends the zero-amount ledger entry; [Api.settle_all_bets_advanced]
    and [Database.settle_all_for_match] leave the ledger empty. *)
Theorem lost_bet_ledger_entry_missing :
  let s := Sample.final 0 1 9 4 in
  let d := Sample.book 100 [Sample.wager 1 7 "home" 50 1.85%Q] [] in
  let bot := snd (Bot.settle_all_bets "m1" s d) in
  let api := snd (Api.settle_all_bets_advanced "m1" s d) in
  let dbp := snd (Database.settle_all_for_match "m1" "away" (Some "0-1") d) in
  (statuses bot = ["lost"] /\ balance_of 7 bot = Some 100 /\ ledger_amounts bot = [0]) /\
  (statuses api = ["lost"] /\ balance_of 7 api = Some 100 /\ ledger_amounts api = []) /\
  (statuses dbp = ["lost"] /\ balance_of 7 dbp = Some 100 /\ ledger_amounts dbp = []).
Proof. vm_compute. repeat split. Qed.

(** ** Predictions *)

Lemma status_after_update_prediction (pid : Z) (f : prediction.row -> prediction.row)
    (st : string) (d : db) :
  (forall p, prediction.status (f p) = st /\
             prediction.prediction_id (f p) = prediction.prediction_id p) ->
  forall q, In q (predictions (update_prediction pid f d)) ->
            prediction.prediction_id q = pid -> prediction.status q = st.
Proof.
  intros Hf q Hq Hid. simpl in Hq. apply in_map_iff in Hq as (y & <- & _).
  destruct (Z.eqb_spec (prediction.prediction_id y) pid) as [E|E].
  - apply Hf.
  - contradiction.
Qed.




(** ** Placing a bet *)

(** [int()] of a non-negative float is its floor. *)
Lemma trunc_is_floor (q : Q) : (0 <= q)%Q -> Py.trunc q = Qfloor q.
Proof.
  destruct q as [n dn]. unfold Qle, Py.trunc, Qfloor. simpl. intros H.
  apply Z.quot_div_nonneg; lia.
Qed.

Lemma place_bet_refused (user_id : Z) (match_id bet_type : string) (amount : Z) (odds : Q)
    (home away date : option string) (d d1 : db) :
  Database.place_bet user_id match_id bet_type amount odds home away date d = (None, d1) ->
  d1 = d.
Proof.
  unfold Database.place_bet. destruct (users d !! user_id); [|now inversion 1].
  destruct (_ <? amount); now inversion 1.
Qed.

Lemma place_bet_effects (user_id : Z) (match_id bet_type : string) (amount : Z) (odds : Q)
    (home away date : option string) (d : db) (u : user.row) :
  users d !! user_id = Some u ->
  amount <= user.balance u ->
  exists bet_id d1,
    Database.place_bet user_id match_id bet_type amount odds home away date d
      = (Some bet_id, d1) /\
    wager_placed user_id amount odds bet_type d d1.
Proof.
  intros U Hle. unfold Database.place_bet. rewrite U.
  destruct (Z.ltb_spec (user.balance u) amount) as [L|L]; [lia|].
  eexists _, _. split; [reflexivity|].
  unfold wager_placed. eexists u, _, _.
  split; [exact U|].
  unfold balance_of, wager_of. simpl. rewrite lookup_alter_eq, U. simpl.
  split; [reflexivity|].
  split; [f_equal; lia|].
  split; [lia|].
  split; [intros v Hv; now rewrite lookup_alter_ne|].
  repeat (split; [reflexivity|]). reflexivity.
Qed.

Lemma place_bet_checks_passed (e : Api.env) (bet : Api.BetRequest) (user : user.row)
    (odds : Q) (m : Api.match_info) :
  Api.place_bet_checks e bet user = Ok (odds, m) ->
  0 < Api.req_amount bet <= user.balance user /\
  (exists ms, Api.matches e = m :: ms) /\
  Api.too_late e = false /\
  match fst (Api.consulted_feed e m) with
  | Some l => Api.bets_suspended l = false
  | None => True
  end /\
  quoted (snd (Api.consulted_feed e m)) (Api.req_bet_type bet) odds.
Proof.
  unfold Api.place_bet_checks.
  destruct (Z.leb_spec (Api.req_amount bet) 0); [discriminate|].
  destruct (Z.ltb_spec (user.balance user) (Api.req_amount bet)); [discriminate|].
  destruct (Api.matches e) as [|m' ms]; [discriminate|].
  destruct (Api.too_late e); [discriminate|].
  destruct (Api.consulted_feed e m') as [leon_data leon_odds] eqn:F.
  assert (forall (ok : bool),
            (if ok then Raise Api.suspended
             else
               if Py.startswith (Api.req_bet_type bet) "score_" then Ok (30%Q, m')
               else match Api.priced leon_odds (Api.req_bet_type bet) with
                    | Some o => Ok (o, m')
                    | None =>
                        match Api.priced leon_odds
                                (Py.replace (Api.req_bet_type bet) "," ".") with
                        | Some o => Ok (o, m')
                        | None =>
                            match Api.priced leon_odds
                                    (Py.replace (Api.req_bet_type bet) "." ",") with
                            | Some o => Ok (o, m')
                            | None =>
                                Raise (HTTPException 400
                                  ("Коэффициент для '" ++ Api.req_bet_type bet
                                   ++ "' не найден в Leon"))
                            end
                        end
                    end) = Ok (odds, m) ->
            ok = false /\ m = m' /\ quoted leon_odds (Api.req_bet_type bet) odds) as G.
  { intros ok Hok. destruct ok; [discriminate|]. split; [reflexivity|].
    unfold quoted.
    destruct (Py.startswith _ _); [injection Hok as <- <-; auto|].
    destruct (Api.priced leon_odds (Api.req_bet_type bet)) as [o|];
      [injection Hok as <- <-; auto|].
    destruct (Api.priced leon_odds (Py.replace _ "," ".")) as [o|];
      [injection Hok as <- <-; auto|].
    destruct (Api.priced leon_odds (Py.replace _ "." ",")) as [o|];
      [injection Hok as <- <-; auto 6|discriminate]. }
  intros Hok. apply G in Hok as (Hs & -> & Hq).
  rewrite F. cbn [fst snd].
  split; [lia|]. split; [eauto|]. split; [reflexivity|]. split; [|exact Hq].
  destruct leon_data; [exact Hs|exact I].
Qed.




(** ** The price guard of the bookmaker parser *)

Lemma fold_left_preserves {A B} (P : A -> Prop) (f : A -> B -> A) (l : list B) :
  (forall a x, P a -> P (f a x)) -> forall a, P a -> P (fold_left f l a).
Proof. intros Hf. induction l as [|x l IH]; simpl; auto. Qed.

Lemma fold_left_filter {A B} (keep : B -> bool) (f : A -> B -> A) (l : list B) :
  (forall a x, keep x = false -> f a x = a) ->
  forall a, fold_left f (List.filter keep l) a = fold_left f l a.
Proof.
  intros Hf. induction l as [|x l IH]; simpl; intros a; [reflexivity|].
  destruct (keep x) eqn:K; simpl; [apply IH|]. rewrite (Hf a x K). apply IH.
Qed.

Lemma price_bounded_insert (odds : gmap string Q) (key : string) (p : Q) :
  (1 < p)%Q /\ (p <= 50)%Q -> price_bounded odds -> price_bounded (<[key := p]> odds).
Proof.
  intros Hp Ho k q. destruct (decide (key = k)) as [->|N].
  - rewrite lookup_insert_eq. intros [= <-]. exact Hp.
  - rewrite lookup_insert_ne by exact N. apply Ho.
Qed.

Lemma out_of_range_false (p : Q) :
  Api.out_of_range p = false -> (1 < p)%Q /\ (p <= 50)%Q.
Proof.
  unfold Api.out_of_range. intros H.
  apply orb_false_iff in H as [H H50]. apply orb_false_iff in H as [_ H1].
  apply negb_false_iff, Qle_bool_iff in H50. split; [|exact H50].
  apply Qnot_le_lt. intros L. apply Qle_bool_iff in L. congruence.
Qed.

Lemma in_range_out_of_range (p : Q) : Api.in_range p = negb (Api.out_of_range p).
Proof.
  unfold Api.in_range, Api.out_of_range.
  destruct (Qeq_bool p 0), (Qle_bool p 1), (Qle_bool p 50); reflexivity.
Qed.

(** An unusable runner is dropped by the first or by the second test of
    every runner loop. *)
Lemma unusable_rejected (r : runner.t) :
  usable r = false ->
  match Api.offered r with
  | Some p => Api.out_of_range p = true
  | None => True
  end.
Proof.
  unfold usable, Api.offered, Py.Qltb.
  destruct (runner.price r) as [p|]; [|easy].
  destruct (runner.open r), (Qeq_bool p 0) eqn:E0; cbn; try easy.
  unfold Api.out_of_range. rewrite E0.
  destruct (Qle_bool p 1), (Qle_bool p 50); cbn; easy.
Qed.

Ltac runner_cases :=
  repeat match goal with
    | |- context [match ?x with _ => _ end] => destruct x eqn:?
    end.

Lemma runner_loop_bounded F (rs : list runner.t) (odds : gmap string Q) :
  runner_loop F -> price_bounded odds -> price_bounded (F rs odds).
Proof.
  intros [prefix|p1 p2| | |key_of|];
    unfold Api._ou, Api._12, Api.exact_score, Api.odd_even, Api.fixed, Api.penalty;
    apply fold_left_preserves; intros a r Ha;
    destruct (Api.offered r) as [p|]; try assumption;
    try rewrite in_range_out_of_range;
    destruct (Api.out_of_range p) eqn:R; try assumption;
    apply out_of_range_false in R;
    cbv zeta; runner_cases; try assumption; now apply price_bounded_insert.
Qed.

Lemma runner_loop_only_usable F (rs : list runner.t) (odds : gmap string Q) :
  runner_loop F -> F (List.filter usable rs) odds = F rs odds.
Proof.
  intros [prefix|p1 p2| | |key_of|];
    unfold Api._ou, Api._12, Api.exact_score, Api.odd_even, Api.fixed, Api.penalty;
    apply fold_left_filter; intros a r Hr;
    apply unusable_rejected in Hr;
    destruct (Api.offered r) as [p|]; try reflexivity;
    try rewrite in_range_out_of_range; rewrite Hr; reflexivity.
Qed.

(** One turn of the market loop either skips the market or runs one
    runner loop over its runners and counts it. *)
Lemma parse_market_elim (P : gmap string Q * Z -> Prop) (odds : gmap string Q) (n : Z)
    (m : market.t) :
  P (odds, n) ->
  (forall F, runner_loop F -> P (F (market.runners m) odds, n + 1)) ->
  P (Api.parse_market (odds, n) m).
Proof.
  intros Hskip Hrun. unfold Api.parse_market.
  repeat match goal with
    | |- context [if ?c then _ else _] => destruct c
    end;
    first [ exact Hskip | apply Hrun; constructor ].
Qed.

Lemma parse_market_only_usable (acc : gmap string Q * Z) (m : market.t) :
  Api.parse_market acc (only_usable m) = Api.parse_market acc m.
Proof.
  destruct acc as [odds n]. unfold Api.parse_market, only_usable.
  cbn [market.name market.open market.runners].
  repeat match goal with
    | |- context [if ?c then _ else _] => destruct c
    end;
    try reflexivity; f_equal;
    first [ apply (runner_loop_only_usable _ _ _ (loop_ou _))
          | apply (runner_loop_only_usable _ _ _ (loop_12 _ _))
          | apply (runner_loop_only_usable _ _ _ loop_score)
          | apply (runner_loop_only_usable _ _ _ loop_odd_even)
          | apply (runner_loop_only_usable _ _ _ (loop_fixed _))
          | apply (runner_loop_only_usable _ _ _ loop_penalty) ].
Qed.



(** ** The catalogue *)

Lemma In_insert_by {A} (f : A -> Q) (x y : A) (l : list A) :
  In y (Api.insert_by f x l) -> y = x \/ In y l.
Proof.
  induction l as [|z l IH]; simpl.
  - intros [->|[]]. now left.
  - destruct (Py.Qltb (f x) (f z)); simpl.
    + intros [->|H]; auto.
    + intros [->|H]; auto. destruct (IH H); auto.
Qed.

Lemma In_sorted {A} (f : A -> Q) (y : A) (l : list A) :
  In y (Api.sorted f l) -> In y l.
Proof.
  unfold Api.sorted.
  assert (forall acc, In y (fold_left (fun acc x => Api.insert_by f x acc) l acc) ->
                      In y l \/ In y acc) as G.
  { induction l as [|x l IH]; simpl; intros acc H; [now right|].
    destruct (IH _ H) as [H'|H']; [now left; right|].
    apply In_insert_by in H' as [->|H']; auto. }
  intros H. destruct (G [] H) as [H'|[]]. exact H'.
Qed.

Lemma priced_lookup (odds : gmap string Q) (key : string) (p : Q) :
  Api.priced odds key = Some p -> odds !! key = Some p.
Proof.
  unfold Api.priced. destruct (odds !! key) as [q|]; [|discriminate].
  destruct (Qeq_bool q 0); [discriminate|]. congruence.
Qed.

(** What the first loop of [_collect] keeps. *)
Lemma kept_line_bounds (prefix : string) (max_line : option Q) (current_value : Z)
    (key line : string) :
  Api.kept_line prefix max_line current_value key = Some line ->
  exists l, Py.float line = Some l /\
            (forall c, max_line = Some c -> ~ (c == 0)%Q -> (l <= c)%Q) /\
            (0 < current_value -> (inject_Z current_value <= l)%Q).
Proof.
  unfold Api.kept_line.
  destruct (_ || _)%bool; [|discriminate].
  destruct (Py.float _) as [l|] eqn:F; [|discriminate].
  destruct (match max_line with Some _ => _ | None => _ end) eqn:M; [discriminate|].
  destruct (_ && _)%bool eqn:C; [discriminate|].
  intros [= <-]. exists l. split; [exact F|]. split.
  - intros c -> Hc. apply andb_false_iff in M as [M|M].
    + apply negb_false_iff, Qeq_bool_iff in M. contradiction.
    + unfold Py.Qltb in M. apply negb_false_iff, Qle_bool_iff in M. exact M.
  - intros Hpos. apply andb_false_iff in C as [C|C].
    + apply Z.ltb_ge in C. lia.
    + unfold Py.Qltb in C. apply negb_false_iff, Qle_bool_iff in C. exact C.
Qed.

Lemma collect_live (odds : gmap string Q) (prefix : string) (cap : Q) (use_cap : bool)
    (tally : Z) (b : bet_option.t) :
  ~ (cap == 0)%Q ->
  In b (Api._collect odds prefix (if use_cap then Some cap else None) tally) ->
  live_option odds prefix (if use_cap then Some cap else None) tally b.
Proof.
  intros Hcap H. unfold Api._collect in H.
  apply in_flat_map in H as (line & Hline & Hb).
  apply In_sorted in Hline. unfold Api.lines_found in Hline.
  apply list_elem_of_In, elem_of_remove_dups, list_elem_of_omap in Hline
    as (key & _ & K).
  apply kept_line_bounds in K as (l & F & Hmax & Hcur).
  assert (Api.float0 line = l) as E by (unfold Api.float0; now rewrite F).
  assert (forall c, (if use_cap then Some cap else None) = Some c -> (l <= c)%Q) as Hc.
  { intros c Hc. apply Hmax; [exact Hc|]. destruct use_cap; [|discriminate].
    now injection Hc as <-. }
  destruct (Api.priced odds (prefix ++ "_over_" ++ line)) as [over|] eqn:O; [|destruct Hb].
  destruct Hb as [<-|Hb].
  - exists line, l. simpl. rewrite E.
    repeat split; auto. now apply priced_lookup.
  - destruct (Api.priced odds (prefix ++ "_under_" ++ line)) as [under|] eqn:U;
      [|destruct Hb].
    destruct Hb as [<-|[]]. exists line, l. simpl. rewrite E.
    repeat split; auto. now apply priced_lookup.
Qed.

Lemma In_insert_by_conv {A} (f : A -> Q) (x y : A) (l : list A) :
  y = x \/ In y l -> In y (Api.insert_by f x l).
Proof.
  induction l as [|z l IH]; simpl.
  - intros [->|[]]. now left.
  - destruct (Py.Qltb (f x) (f z)); simpl.
    + intros [->|H]; auto.
    + intros [->|[->|H]]; auto.
Qed.

Lemma In_sorted_conv {A} (f : A -> Q) (y : A) (l : list A) :
  In y l -> In y (Api.sorted f l).
Proof.
  unfold Api.sorted.
  assert (forall acc, In y l \/ In y acc ->
                      In y (fold_left (fun acc x => Api.insert_by f x acc) l acc)) as G.
  { induction l as [|x l IH]; simpl; intros acc H; [now destruct H|].
    apply IH. destruct H as [[->|H]|H]; auto.
    - right. apply In_insert_by_conv. now left.
    - right. apply In_insert_by_conv. now right. }
  intros H. apply G. now left.
Qed.

Lemma string_app_assoc (a b c : string) : (a ++ b) ++ c = a ++ (b ++ c).
Proof.
  induction a as [|x a IH]; [reflexivity|].
  change (String x ((a ++ b) ++ c) = String x (a ++ (b ++ c))). now rewrite IH.
Qed.

Lemma prefix_app (p s : string) : String.prefix p (p ++ s) = true.
Proof.
  induction p as [|c p IH]; [now destruct s|].
  change (String.prefix (String c p) (String c (p ++ s)) = true). simpl.
  destruct (ascii_dec c c); [exact IH|contradiction].
Qed.

(** What the first loop of [_collect] keeps, from the side of the key. *)
Lemma kept_line_intro (prefix : string) (cap : option Q) (tally : Z)
    (line : string) (l : Q) :
  let key := prefix ++ "_over_" ++ line in
  Py.replace (Py.replace key (prefix ++ "_over_") "") (prefix ++ "_under_") "" = line ->
  Py.float line = Some l ->
  (forall c, cap = Some c -> (l <= c)%Q) ->
  (0 < tally -> (inject_Z tally <= l)%Q) ->
  Api.kept_line prefix cap tally key = Some line.
Proof.
  intros key R F Hcap Htally. unfold Api.kept_line. fold key.
  assert (Py.startswith key (prefix ++ "_over_") = true) as ->.
  { unfold Py.startswith, key. rewrite <- string_app_assoc. apply prefix_app. }
  cbn [orb]. rewrite R, F.
  assert (match cap with
          | Some m => (negb (Qeq_bool m 0) && Py.Qltb m l)%bool
          | None => false
          end = false) as ->.
  { destruct cap as [c|]; [|reflexivity].
    apply andb_false_iff. right. unfold Py.Qltb.
    apply negb_false_iff, Qle_bool_iff. now apply Hcap. }
  assert (((0 <? tally) && Py.Qltb l (inject_Z tally))%bool = false) as ->; [|reflexivity].
  destruct (Z.ltb_spec 0 tally) as [Hpos|]; [|reflexivity]. simpl.
  unfold Py.Qltb. apply negb_false_iff, Qle_bool_iff. now apply Htally.
Qed.

Lemma collect_retains (odds : gmap string Q) (prefix : string) (cap : option Q)
    (tally : Z) (line : string) (p : Q) :
  let key := prefix ++ "_over_" ++ line in
  Api.priced odds key = Some p ->
  Api.kept_line prefix cap tally key = Some line ->
  exists b, In b (Api._collect odds prefix cap tally) /\
            bet_option.key b = key /\ bet_option.odds b = p.
Proof.
  intros key P K.
  assert (In line (Api.sorted Api.float0 (Api.lines_found prefix cap tally odds))) as L.
  { apply In_sorted_conv. unfold Api.lines_found.
    apply list_elem_of_In, elem_of_remove_dups, list_elem_of_omap.
    exists key. split; [|exact K].
    apply list_elem_of_In, in_map_iff. exists (key, p). split; [reflexivity|].
    apply list_elem_of_In, elem_of_map_to_list. now apply priced_lookup. }
  exists {| bet_option.key := key; bet_option.name := "Б " ++ line;
            bet_option.odds := p; bet_option.line := Some (Api.float0 line) |}.
  split; [|split; reflexivity].
  unfold Api._collect. apply in_flat_map. exists line. split; [exact L|].
  fold key. rewrite P. left. reflexivity.
Qed.

Lemma fixed_market_shape (shown : bool) (type category : string)
    (bets : list bet_option.t) (m : bet_market.t) :
  In m (Api.fixed_market shown type category bets) ->
  bet_market.type m = type /\ bet_market.bets m = bets.
Proof. unfold Api.fixed_market. destruct shown; [|easy]. now intros [<-|[]]. Qed.

Lemma collected_market_shape (type category : string)
    (bets : list bet_option.t) (m : bet_market.t) :
  In m (Api.collected_market type category bets) ->
  bet_market.type m = type /\ bet_market.bets m = bets /\ bets <> [].
Proof. unfold Api.collected_market. destruct bets; [easy|]. now intros [<-|[]]. Qed.

Ltac catalogue_piece Hm :=
  first
    [ apply fixed_market_shape in Hm as [Ht Hb];
      split; [rewrite Hb; discriminate|];
      intros prefix cap tally F; rewrite Ht in F; discriminate F
    | apply collected_market_shape in Hm as (Ht & Hb & Hne);
      split; [now rewrite Hb|];
      intros prefix cap tally F; rewrite Ht in F;
      first [ discriminate F
            | injection F as <- <- <-; intros b Hin; rewrite Hb in Hin;
              first [ apply (collect_live _ _ 10.5%Q true _ b); [easy | exact Hin]
                    | apply (collect_live _ _ 7.5%Q true _ b); [easy | exact Hin]
                    | apply (collect_live _ _ 20%Q true _ b); [easy | exact Hin]
                    | apply (collect_live _ _ 12%Q true _ b); [easy | exact Hin]
                    | apply (collect_live _ _ 1%Q false _ b); [easy | exact Hin] ] ] ].

Ltac retained_piece :=
  repeat first
    [ apply in_or_app; left;
      solve [ unfold Api.collected_market;
              match goal with
              | H : In ?b ?l |- In _ (match ?l with _ => _ end) =>
                  destruct l; [destruct H | left; reflexivity]
              end ]
    | apply in_or_app; right ].

(** C9.  Every market [_build_live_markets] returns has at least one
    option, and every option of an over/under market stands for a key of
    the odds mapping whose line is at most the cap of its family (10.5 for
    goals, 7.5 for the per-team goals, 20 for corners, 12 for cards) and,
    when the tally of the family is positive, not below that tally: the
    lines strictly below the tally are dropped.  An "over" key that is
    priced and whose line is within the cap and not below a positive tally
    is offered. *)
Theorem catalogue_drops_decided_lines (odds : gmap string Q)
    (home_team away_team score : string) (markets : list bet_market.t) :
  Api._build_live_markets odds home_team away_team score = Ok markets ->
  (forall m, In m markets ->
     bet_market.bets m <> [] /\
     forall prefix cap tally,
       family_of (bet_market.type m) (fst (Api.parse_score score))
                 (snd (Api.parse_score score)) = Some (prefix, cap, tally) ->
       forall b, In b (bet_market.bets m) -> live_option odds prefix cap tally b) /\
  (forall type prefix cap tally line l p,
     family_of type (fst (Api.parse_score score))
               (snd (Api.parse_score score)) = Some (prefix, cap, tally) ->
     let key := prefix ++ "_over_" ++ line in
     Api.priced odds key = Some p ->
     Py.replace (Py.replace key (prefix ++ "_over_") "") (prefix ++ "_under_") "" = line ->
     Py.float line = Some l ->
     (forall c, cap = Some c -> (l <= c)%Q) ->
     (0 < tally -> (inject_Z tally <= l)%Q) ->
     exists m b, In m markets /\ bet_market.type m = type /\
                 In b (bet_market.bets m) /\
                 bet_option.key b = key /\ bet_option.odds b = p).
Proof.
  unfold Api._build_live_markets.
  destruct (Api.parse_score score) as [hs as_]. cbn [fst snd].
  destruct (Api.handicap_lines odds) as [h_lines|]; [|discriminate].
  intros [= <-]. split.
  - intros m Hm.
    repeat (apply in_app_or in Hm as [Hm|Hm]; [catalogue_piece Hm|]).
    catalogue_piece Hm.
  - intros type prefix cap tally line l p Fam P R F Hcap Htally.
    pose proof (kept_line_intro prefix cap tally line l R F Hcap Htally) as K.
    destruct (collect_retains odds prefix cap tally line p P K) as (b & Hb & Hk & Ho).
    unfold family_of in Fam.
    repeat match type of Fam with
           | (if ?c then _ else _) = _ =>
               let E := fresh "E" in destruct c eqn:E
           end;
      try discriminate Fam;
      injection Fam as <- <- <-;
      match goal with E : String.eqb type ?t = true |- _ => apply String.eqb_eq in E end;
      subst type;
      (eexists {| bet_market.type := _; bet_market.category := _;
                  bet_market.bets := _ |}, b;
       split; [|split; [reflexivity|split; [exact Hb|split; [exact Hk|exact Ho]]]]);
      cbn [bet_market.bets] in *.
    all: retained_piece.
Qed.

(** The worked example: with the score at 2:1 the catalogue of the sample
    feed hides both 1.5 and 2.5 goal lines and the home line 1.5, and keeps
    the 3.5 line. *)
Example catalogue_at_two_one :
  let odds := fst (Api._parse_leon_markets Feed.listing) in
  is_Some (odds !! "total_under_1.5") /\
  is_Some (odds !! "total_over_3.5") /\
  offered_keys (Api._build_live_markets odds "" "" "0:0") =
    Ok [("match_result", ["home"; "draw"; "away"]);
        ("total_goals", ["total_over_1.5"; "total_under_1.5"; "total_over_2.5";
                         "total_over_3.5"; "total_under_3.5"]);
        ("home_total", ["home_over_1.5"])] /\
  offered_keys (Api._build_live_markets odds "" "" "2:1") =
    Ok [("match_result", ["home"; "draw"; "away"]);
        ("total_goals", ["total_over_3.5"; "total_under_3.5"])].
Proof. vm_compute. repeat split; eauto. Qed.

Lemma catalogue_drops_decided_lines_witness :
  let odds := fst (Api._parse_leon_markets Feed.listing) in
  Api._build_live_markets odds "" "" "2:1" = Ok Feed.shown_at_2_1 /\
  offered_keys (Ok Feed.shown_at_2_1) =
    Ok [("match_result", ["home"; "draw"; "away"]);
        ("total_goals", ["total_over_3.5"; "total_under_3.5"])] /\
  forall m, In m Feed.shown_at_2_1 ->
    bet_market.bets m <> [] /\
    (bet_market.type m = "total_goals" ->
     forall b, In b (bet_market.bets m) -> live_option odds "total" (Some 10.5%Q) 3 b).
Proof.
  cbv zeta.
  assert (Api._build_live_markets (fst (Api._parse_leon_markets Feed.listing)) "" "" "2:1"
          = Ok Feed.shown_at_2_1) as E by (vm_compute; reflexivity).
  split; [exact E|]. split; [reflexivity|].
  intros m Hm.
  destruct (proj1 (catalogue_drops_decided_lines _ _ _ _ _ E) m Hm) as [Hne Hlive].
  split; [exact Hne|].
  intros Ht. apply Hlive. rewrite Ht. reflexivity.
Defined.

(** * Further properties of the code *)

(** ** Live keys in the two resolvers *)

Lemma contains_prefix (p s : string) :
  Py.contains p s = false -> String.prefix p s = false.
Proof. destruct s; simpl; intros H; now apply orb_false_iff in H. Qed.

(** Replacing a text that does not occur changes nothing. *)
Lemma replace_go_absent (old new s : string) :
  Py.contains old s = false -> Py.replace_go old new 0 s = s.
Proof.
  induction s as [|c s IH]; [reflexivity|].
  intros H. pose proof (contains_prefix _ _ H) as P.
  simpl in H. apply orb_false_iff in H as [_ H].
  cbn [Py.replace_go]. rewrite P. now rewrite IH.
Qed.

Lemma replace_absent (old new s : string) :
  Py.contains old s = false -> Py.replace s old new = s.
Proof.
  intros H. unfold Py.replace. destruct old; [reflexivity|].
  now apply replace_go_absent.
Qed.

Lemma replace_go_skip (old new t k : string) :
  Py.replace_go old new (String.length t) (t ++ k) = Py.replace_go old new 0 k.
Proof.
  induction t as [|c t IH]; [reflexivity|].
  change (Py.replace_go old new (String.length t) (t ++ k) = Py.replace_go old new 0 k).
  exact IH.
Qed.

(** Removing a prefix: the rest of the key is searched on. *)
Lemma replace_prefixed (c : ascii) (old k : string) :
  Py.replace (String c old ++ k) (String c old) "" = Py.replace_go (String c old) "" 0 k.
Proof.
  unfold Py.replace.
  change (String c old ++ k) with (String c (old ++ k)).
  cbn [Py.replace_go].
  change (String c (old ++ k)) with (String c old ++ k). rewrite prefix_app.
  replace (String.length (String c old) - 1)%nat with (String.length old)
    by (simpl; lia).
  now rewrite replace_go_skip.
Qed.

(** The API resolver has no branch for a key that starts with [LIVE_],
    the mark [place_live_bet] stores a live bet under: whatever the
    statistics, the answer is [False], and the settlement loop closes the
    bet as lost without touching a balance or the ledger. *)
Theorem api_live_bet_is_lost (s : stats) (b : bet.row) (r : Api.counts) (d : db) :
  Py.startswith (bet.bet_type b) "LIVE_" = true ->
  Api.settle_bet_by_type (bet.bet_type b) s = Ok Lose /\
  exists r',
    Api.settle_one_bet s b r d =
      (Ok r', update_bet (bet.bet_id b) (settle_row "lost" None None None) d) /\
    Api.bets_lost r' = Api.bets_lost r + 1 /\
    Api.bets_won r' = Api.bets_won r /\
    Api.bets_pushed r' = Api.bets_pushed r.
Proof.
  intros H.
  assert (Api.settle_bet_by_type (bet.bet_type b) s = Ok Lose) as E.
  { unfold Api.settle_bet_by_type. skip_branches H. reflexivity. }
  split; [exact E|].
  unfold Api.settle_one_bet. rewrite E. eexists. split; [reflexivity|].
  simpl. auto.
Qed.

Lemma api_live_bet_is_lost_witness :
  let b := Sample.wager 1 7 "LIVE_home" 10 1.85%Q in
  Py.startswith (bet.bet_type b) "LIVE_" = true /\
  Api.settle_bet_by_type "LIVE_home" (Sample.final 2 0 9 4) = Ok Lose.
Proof.
  split; [reflexivity|].
  exact (proj1 (api_live_bet_is_lost (Sample.final 2 0 9 4)
                  (Sample.wager 1 7 "LIVE_home" 10 1.85%Q) Api.zero
                  (Sample.book 90 [] []) eq_refl)).
Defined.

(** The bot resolver drops the mark: a live bet is judged exactly like
    the pre-match bet on the same key. *)
Theorem bot_live_prefix_is_dropped (key : string) (s : stats) :
  Py.contains "LIVE_" key = false ->
  Bot.check_bet_won ("LIVE_" ++ key) s = Bot.check_bet_won key s.
Proof.
  intros H.
  assert ((if Py.startswith ("LIVE_" ++ key) "LIVE_"
           then Py.replace ("LIVE_" ++ key) "LIVE_" "" else "LIVE_" ++ key) = key) as E1.
  { unfold Py.startswith. rewrite prefix_app, replace_prefixed.
    now apply replace_go_absent. }
  assert ((if Py.startswith key "LIVE_" then Py.replace key "LIVE_" "" else key) = key)
    as E2.
  { unfold Py.startswith. now rewrite (contains_prefix _ _ H). }
  unfold Bot.check_bet_won. rewrite E1, E2. reflexivity.
Qed.

Lemma bot_live_prefix_is_dropped_witness :
  Py.contains "LIVE_" "total_over_2.5" = false /\
  Bot.check_bet_won "LIVE_total_over_2.5" (Sample.final 2 1 9 4) = Ok (Some true).
Proof.
  split; [reflexivity|].
  change (Bot.check_bet_won ("LIVE_" ++ "total_over_2.5") (Sample.final 2 1 9 4)
          = Ok (Some true)).
  rewrite (bot_live_prefix_is_dropped "total_over_2.5" (Sample.final 2 1 9 4) eq_refl).
  reflexivity.
Defined.

(** ** Over and under on the same line *)

Lemma Qltb_lt (x y : Q) : (x < y)%Q -> Py.Qltb x y = true.
Proof.
  intros H. unfold Py.Qltb. destruct (Qle_bool y x) eqn:E; [|reflexivity].
  apply Qle_bool_iff in E. exfalso. now apply (Qlt_not_le _ _ H).
Qed.

Lemma Qltb_ge (x y : Q) : (y <= x)%Q -> Py.Qltb x y = false.
Proof.
  intros H. unfold Py.Qltb. now apply Qle_bool_iff in H as ->.
Qed.

Lemma Qeq_bool_lt (x y : Q) : (x < y)%Q -> Qeq_bool x y = false.
Proof.
  intros H. destruct (Qeq_bool x y) eqn:E; [|reflexivity].
  apply Qeq_bool_iff in E. rewrite E in H. now apply Qlt_irrefl in H.
Qed.

Lemma Qeq_bool_gt (x y : Q) : (y < x)%Q -> Qeq_bool x y = false.
Proof.
  intros H. destruct (Qeq_bool x y) eqn:E; [|reflexivity].
  apply Qeq_bool_iff in E. rewrite E in H. now apply Qlt_irrefl in H.
Qed.

(** The three positions of a tally against a line, in the API rule. *)
Lemma api_over_under_cases (total : Z) (line : Q) :
  ((inject_Z total == line)%Q -> Api.over total line = Push /\ Api.under total line = Push) /\
  ((inject_Z total < line)%Q -> Api.over total line = Lose /\ Api.under total line = Win) /\
  ((line < inject_Z total)%Q -> Api.over total line = Win /\ Api.under total line = Lose).
Proof.
  split; [apply api_push_on_whole_line|].
  unfold Api.over, Api.under, eq_line, gt_line, lt_line. split; intros H.
  - rewrite (Qeq_bool_lt _ _ H), (Qltb_lt _ _ H), (Qltb_ge line (inject_Z total)).
    + easy.
    + now apply Qlt_le_weak.
  - rewrite (Qeq_bool_gt _ _ H), (Qltb_lt _ _ H), (Qltb_ge (inject_Z total) line).
    + easy.
    + now apply Qlt_le_weak.
Qed.

(** ... and in the bot rule, which compares strictly on both sides. *)
Lemma bot_over_under_cases (total : Z) (line : Q) :
  ((inject_Z total == line)%Q -> gt_line total line = false /\ lt_line total line = false) /\
  ((inject_Z total < line)%Q -> gt_line total line = false /\ lt_line total line = true) /\
  ((line < inject_Z total)%Q -> gt_line total line = true /\ lt_line total line = false).
Proof.
  unfold gt_line, lt_line. split; [|split]; intros H; split.
  - apply Qltb_ge. rewrite H. apply Qle_refl.
  - apply Qltb_ge. rewrite H. apply Qle_refl.
  - apply Qltb_ge. now apply Qlt_le_weak.
  - now apply Qltb_lt.
  - now apply Qltb_lt.
  - apply Qltb_ge. now apply Qlt_le_weak.
Qed.

(** In the API resolver a bet over a line and a bet under the same line
    are complementary, on the goals and on the corners: the tally on the
    line hands both stakes back, otherwise exactly one of the two wins. *)
Theorem api_over_under_complementary (family over_key under_key : string)
    (line : Q) (tally : Z) (s : stats) :
  (family = "total" /\ total_goals s = Some tally) \/
  (family = "corners" /\ default 0 (total_corners s) = tally) ->
  Py.startswith over_key (family ++ "_over_") = true ->
  Py.startswith under_key (family ++ "_under_") = true ->
  Py.float (Py.replace over_key (family ++ "_over_") "") = Some line ->
  Py.float (Py.replace under_key (family ++ "_under_") "") = Some line ->
  let over := Api.settle_bet_by_type over_key s in
  let under := Api.settle_bet_by_type under_key s in
  ((inject_Z tally == line)%Q -> over = Ok Push /\ under = Ok Push) /\
  ((inject_Z tally < line)%Q -> over = Ok Lose /\ under = Ok Win) /\
  ((line < inject_Z tally)%Q -> over = Ok Win /\ under = Ok Lose).
Proof.
  intros [[-> T] | [-> T]] Ho Hu Lo Lu; cbv zeta.
  - rewrite (api_total_over _ s line Ho Lo), (api_total_under _ s line Hu Lu), T.
    cbn [bind getitem].
    destruct (api_over_under_cases tally line) as (E & L & G).
    split; [|split]; intros H;
      first [apply E in H | apply L in H | apply G in H];
      destruct H as [-> ->]; split; reflexivity.
  - rewrite (api_corners_over _ s line Ho Lo), (api_corners_under _ s line Hu Lu), T.
    destruct (api_over_under_cases tally line) as (E & L & G).
    split; [|split]; intros H;
      first [apply E in H | apply L in H | apply G in H];
      destruct H as [-> ->]; split; reflexivity.
Qed.

Lemma api_over_under_complementary_witness :
  Api.settle_bet_by_type "total_over_3" (Sample.final 2 1 9 4) = Ok Push /\
  Api.settle_bet_by_type "total_under_3" (Sample.final 2 1 9 4) = Ok Push.
Proof.
  apply (proj1 (api_over_under_complementary "total" "total_over_3" "total_under_3"
                  3 3 (Sample.final 2 1 9 4)
                  (or_introl (conj eq_refl eq_refl)) eq_refl eq_refl eq_refl eq_refl)).
  reflexivity.
Defined.

(** The branch of the bot resolver a prefixed key takes. *)
Ltac bot_branch H :=
  unfold Bot.check_bet_won;
  match type of H with
  | Py.startswith ?s ?p = true =>
      rewrite (startswith_apart s p "LIVE_" eq_refl H)
  end;
  cbv beta iota zeta; skip_branches H; rewrite H; unfold float_or_raise.

Lemma bot_total_over (bet_type : string) (s : stats) (line : Q) :
  Py.startswith bet_type "total_over_" = true ->
  Py.float (Py.replace bet_type "total_over_" "") = Some line ->
  Bot.check_bet_won bet_type s = Ok (Some (gt_line (default 0 (total_goals s)) line)).
Proof. intros H Hl. bot_branch H. now rewrite Hl. Qed.

Lemma bot_total_under (bet_type : string) (s : stats) (line : Q) :
  Py.startswith bet_type "total_under_" = true ->
  Py.float (Py.replace bet_type "total_under_" "") = Some line ->
  Bot.check_bet_won bet_type s = Ok (Some (lt_line (default 0 (total_goals s)) line)).
Proof. intros H Hl. bot_branch H. now rewrite Hl. Qed.

Lemma bot_corners_over (bet_type : string) (s : stats) (line : Q) :
  Py.startswith bet_type "corners_over_" = true ->
  Py.float (Py.replace bet_type "corners_over_" "") = Some line ->
  Bot.check_bet_won bet_type s = Ok (Some (gt_line (default 0 (total_corners s)) line)).
Proof. intros H Hl. bot_branch H. now rewrite Hl. Qed.

Lemma bot_corners_under (bet_type : string) (s : stats) (line : Q) :
  Py.startswith bet_type "corners_under_" = true ->
  Py.float (Py.replace bet_type "corners_under_" "") = Some line ->
  Bot.check_bet_won bet_type s = Ok (Some (lt_line (default 0 (total_corners s)) line)).
Proof. intros H Hl. bot_branch H. now rewrite Hl. Qed.

(** In the bot resolver the two sides of a line never win together, and
    a tally on the line loses on both: there is no refund. *)
Theorem bot_over_under_both_lose_on_the_line (family over_key under_key : string)
    (line : Q) (tally : Z) (s : stats) :
  (family = "total" /\ default 0 (total_goals s) = tally) \/
  (family = "corners" /\ default 0 (total_corners s) = tally) ->
  Py.startswith over_key (family ++ "_over_") = true ->
  Py.startswith under_key (family ++ "_under_") = true ->
  Py.float (Py.replace over_key (family ++ "_over_") "") = Some line ->
  Py.float (Py.replace under_key (family ++ "_under_") "") = Some line ->
  let over := Bot.check_bet_won over_key s in
  let under := Bot.check_bet_won under_key s in
  ((inject_Z tally == line)%Q -> over = Ok (Some false) /\ under = Ok (Some false)) /\
  ((inject_Z tally < line)%Q -> over = Ok (Some false) /\ under = Ok (Some true)) /\
  ((line < inject_Z tally)%Q -> over = Ok (Some true) /\ under = Ok (Some false)).
Proof.
  intros [[-> T] | [-> T]] Ho Hu Lo Lu; cbv zeta.
  - rewrite (bot_total_over _ s line Ho Lo), (bot_total_under _ s line Hu Lu), T.
    destruct (bot_over_under_cases tally line) as (E & L & G).
    split; [|split]; intros H;
      first [apply E in H | apply L in H | apply G in H];
      destruct H as [-> ->]; split; reflexivity.
  - rewrite (bot_corners_over _ s line Ho Lo), (bot_corners_under _ s line Hu Lu), T.
    destruct (bot_over_under_cases tally line) as (E & L & G).
    split; [|split]; intros H;
      first [apply E in H | apply L in H | apply G in H];
      destruct H as [-> ->]; split; reflexivity.
Qed.

Lemma bot_over_under_both_lose_on_the_line_witness :
  Bot.check_bet_won "corners_over_9" (Sample.final 2 1 9 4) = Ok (Some false) /\
  Bot.check_bet_won "corners_under_9" (Sample.final 2 1 9 4) = Ok (Some false).
Proof.
  apply (proj1 (bot_over_under_both_lose_on_the_line "corners" "corners_over_9"
                  "corners_under_9" 9 9 (Sample.final 2 1 9 4)
                  (or_intror (conj eq_refl eq_refl)) eq_refl eq_refl eq_refl eq_refl)).
  reflexivity.
Defined.

(** ** The ledger accounts for the balances *)

Lemma ledger_sum_of_app (u : Z) (l : list transaction.row) (t : transaction.row) :
  ledger_sum_of u (l ++ [t])%list =
    ledger_sum_of u l + (if transaction.user_id t =? u then transaction.amount t else 0).
Proof.
  induction l as [|x l IH]; simpl.
  - destruct (_ =? _); lia.
  - rewrite IH. destruct (transaction.user_id x =? u), (transaction.user_id t =? u); lia.
Qed.

(** One balance moves by [delta] and one entry of [delta] is booked under
    the same name. *)
Lemma reconciled_step (v delta : Z) (f : user.row -> user.row) (t : transaction.row)
    (d d' : db) :
  reconciled d ->
  users d' = alter f v (users d) ->
  (forall r, users d !! v = Some r -> user.balance (f r) = user.balance r + delta) ->
  transactions d' = (transactions d ++ [t])%list ->
  transaction.user_id t = v ->
  transaction.amount t = delta ->
  is_Some (users d !! v) \/ delta = 0 ->
  reconciled d'.
Proof.
  intros R U F T Tv Ta S u. specialize (R u).
  unfold balance_or_zero, ledger_sum in *. rewrite U, T, ledger_sum_of_app, Tv, Ta.
  destruct (decide (v = u)) as [->|N].
  - rewrite lookup_alter_eq, Z.eqb_refl.
    destruct (users d !! u) as [r|] eqn:E; simpl.
    + rewrite (F r eq_refl). lia.
    + destruct S as [[x Hx]| ->]; [discriminate|lia].
  - rewrite lookup_alter_ne by exact N.
    destruct (Z.eqb_spec v u); [contradiction|lia].
Qed.

(** Columns other than the balance are written, nothing is booked. *)
Lemma reconciled_frame (v : Z) (f : user.row -> user.row) (d d' : db) :
  reconciled d ->
  users d' = alter f v (users d) ->
  (forall r, user.balance (f r) = user.balance r) ->
  transactions d' = transactions d ->
  reconciled d'.
Proof.
  intros R U F T u. specialize (R u).
  unfold balance_or_zero, ledger_sum in *. rewrite U, T.
  destruct (decide (v = u)) as [->|N].
  - rewrite lookup_alter_eq. destruct (users d !! u) as [r|]; simpl; [|exact R].
    now rewrite F.
  - now rewrite lookup_alter_ne by exact N.
Qed.

Lemma reconciled_same (d d' : db) :
  reconciled d -> users d' = users d -> transactions d' = transactions d ->
  reconciled d'.
Proof.
  intros R U T u. specialize (R u).
  unfold balance_or_zero, ledger_sum in *. now rewrite U, T.
Qed.

Lemma update_user_balance_reconciled (user_id amount : Z) (type : string)
    (reference : option string) (affect_wager : bool) (d : db) :
  reconciled d ->
  reconciled (snd (Database.update_user_balance user_id amount type reference
                     affect_wager d)).
Proof.
  intros R. unfold Database.update_user_balance.
  destruct (users d !! user_id) as [row|] eqn:U; [|exact R].
  destruct (_ <? 0); [exact R|]. cbn [snd].
  eapply (reconciled_step user_id amount); [exact R|reflexivity| |reflexivity..|eauto].
  intros r Hr. rewrite U in Hr. injection Hr as <-. reflexivity.
Qed.

Lemma create_user_reconciled (user_id : Z) (d : db) :
  reconciled d -> reconciled (snd (Database.create_user user_id d)).
Proof.
  intros R. unfold Database.create_user.
  destruct (users d !! user_id) as [row|] eqn:U; [exact R|]. cbn [snd].
  intros u. specialize (R u). unfold balance_or_zero, ledger_sum in *. simpl.
  rewrite ledger_sum_of_app. simpl.
  destruct (decide (user_id = u)) as [->|N].
  - rewrite lookup_insert_eq, Z.eqb_refl. rewrite U in R. simpl. lia.
  - rewrite lookup_insert_ne by exact N.
    destruct (Z.eqb_spec user_id u); [contradiction|lia].
Qed.

Lemma place_bet_reconciled (user_id : Z) (match_id bet_type : string) (amount : Z)
    (odds : Q) (home away date : option string) (d : db) :
  reconciled d ->
  reconciled (snd (Database.place_bet user_id match_id bet_type amount odds
                     home away date d)).
Proof.
  intros R. unfold Database.place_bet.
  destruct (users d !! user_id) as [row|] eqn:U; [|exact R].
  destruct (_ <? amount); [exact R|]. cbn [snd].
  eapply (reconciled_step user_id (- amount)); [exact R|reflexivity| |reflexivity..|eauto].
  intros r Hr. rewrite U in Hr. injection Hr as <-. simpl. lia.
Qed.

Lemma sell_bet_reconciled (bet_id user_id sell_price : Z) (d : db) :
  is_Some (users d !! user_id) ->
  reconciled d ->
  reconciled (snd (Database.sell_bet bet_id user_id sell_price d)).
Proof.
  intros S R. unfold Database.sell_bet.
  destruct (Database.fetch_own_pending_bet bet_id user_id d) as [b|]; [|exact R].
  cbn [snd].
  eapply (reconciled_step user_id sell_price); [exact R|reflexivity| |reflexivity..|eauto].
  intros r _. reflexivity.
Qed.

Lemma settle_bet_reconciled (bet_id : Z) (result : string) (exact_score : option string)
    (d : db) :
  reconciled d -> reconciled (snd (Database.settle_bet bet_id result exact_score d)).
Proof.
  intros R. unfold Database.settle_bet.
  destruct (Database.fetch_pending_bet bet_id d) as [b|]; [|exact R].
  match goal with |- context [if ?c then _ else _] => destruct c end; cbn [snd].
  - eapply reconciled_same; [|reflexivity..].
    eapply (reconciled_frame (bet.user_id b)); [|reflexivity| |reflexivity].
    + apply update_user_balance_reconciled, R.
    + reflexivity.
  - eapply reconciled_same; [|reflexivity..].
    eapply (reconciled_frame (bet.user_id b)); [exact R|reflexivity| |reflexivity].
    reflexivity.
Qed.

Lemma settle_prediction_reconciled (prediction_id : Z) (actual : string) (d : db) :
  reconciled d -> reconciled (snd (Database.settle_prediction prediction_id actual d)).
Proof.
  intros R. unfold Database.settle_prediction.
  destruct (Database.fetch_pending_prediction prediction_id d) as [p|]; [|exact R].
  destruct (String.eqb _ actual); cbn [snd];
    (eapply reconciled_same; [|reflexivity..]);
    (eapply (reconciled_frame (prediction.user_id p)); [|reflexivity| |reflexivity]);
    first [apply update_user_balance_reconciled, R | reflexivity].
Qed.

Lemma settle_bets_reconciled (result : string) (exact_score : option string)
    (rows : list bet.row) (n : Z) (d : db) :
  reconciled d -> reconciled (snd (Database.settle_bets result exact_score rows n d)).
Proof.
  revert n d. induction rows as [|b rows IH]; intros n d R; [exact R|]. simpl.
  pose proof (settle_bet_reconciled (bet.bet_id b) result exact_score d R) as R1.
  destruct (Database.settle_bet (bet.bet_id b) result exact_score d) as [ok d1].
  now apply IH.
Qed.

Lemma settle_predictions_reconciled (result : string) (rows : list prediction.row)
    (n : Z) (d : db) :
  reconciled d -> reconciled (snd (Database.settle_predictions result rows n d)).
Proof.
  revert n d. induction rows as [|p rows IH]; intros n d R; [exact R|]. simpl.
  pose proof (settle_prediction_reconciled (prediction.prediction_id p) result d R) as R1.
  destruct (Database.settle_prediction (prediction.prediction_id p) result d) as [ok d1].
  now apply IH.
Qed.

(** Every operation of [database.py] that moves points books them: on a
    database whose ledger accounts for the balances it still does after a
    deposit, a bonus or a debit, a registration, a placed bet and a sold
    bet. *)
Theorem account_operations_keep_the_ledger (d : db) :
  reconciled d ->
  (forall user_id amount type reference affect_wager,
      reconciled (snd (Database.update_user_balance user_id amount type reference
                         affect_wager d))) /\
  (forall user_id, reconciled (snd (Database.create_user user_id d))) /\
  (forall user_id match_id bet_type amount odds home away date,
      reconciled (snd (Database.place_bet user_id match_id bet_type amount odds
                         home away date d))) /\
  (forall bet_id user_id sell_price,
      is_Some (users d !! user_id) ->
      reconciled (snd (Database.sell_bet bet_id user_id sell_price d))).
Proof.
  intros R. split; [|split; [|split]]; intros.
  - now apply update_user_balance_reconciled.
  - now apply create_user_reconciled.
  - now apply place_bet_reconciled.
  - now apply sell_bet_reconciled.
Qed.

(** ... and after a settlement through [database.py], of one bet, of one
    prediction or of a whole match. *)
Theorem database_settlement_keeps_the_ledger (d : db) :
  reconciled d ->
  (forall bet_id outcome exact_score,
      reconciled (snd (Database.settle_bet bet_id outcome exact_score d))) /\
  (forall prediction_id actual,
      reconciled (snd (Database.settle_prediction prediction_id actual d))) /\
  (forall match_id outcome exact_score,
      reconciled (snd (Database.settle_all_for_match match_id outcome exact_score d))).
Proof.
  intros R. split; [|split].
  - intros. now apply settle_bet_reconciled.
  - intros. now apply settle_prediction_reconciled.
  - intros match_id res exact_score. unfold Database.settle_all_for_match.
    pose proof (settle_bets_reconciled res exact_score
                  (pending_bets match_id d) 0 d R) as R1.
    destruct (Database.settle_bets _ _ _ 0 d) as [n1 d1]. cbn [snd] in R1.
    pose proof (settle_predictions_reconciled res
                  (pending_predictions match_id d1) 0 d1 R1) as R2.
    destruct (Database.settle_predictions _ _ 0 d1) as [n2 d2]. exact R2.
Qed.

Lemma nobody_reconciled : reconciled Sample.nobody.
Proof. intros u. reflexivity. Qed.

Lemma opened_reconciled : reconciled Sample.opened.
Proof.
  apply place_bet_reconciled, create_user_reconciled, nobody_reconciled.
Qed.

Lemma account_operations_keep_the_ledger_witness :
  reconciled Sample.nobody /\
  reconciled (snd (Database.create_user 7 Sample.nobody)) /\
  balance_of 7 (snd (Database.create_user 7 Sample.nobody)) = Some 50.
Proof.
  split; [intros u; reflexivity|]. split; [|reflexivity].
  apply (proj1 (proj2 (account_operations_keep_the_ledger Sample.nobody
                         (fun u => eq_refl)))).
Defined.

Lemma database_settlement_keeps_the_ledger_witness :
  reconciled Sample.opened /\
  reconciled (snd (Database.settle_all_for_match "m1" "home" (Some "2-0") Sample.opened)) /\
  balance_of 7 (snd (Database.settle_all_for_match "m1" "home" (Some "2-0") Sample.opened))
    = Some 58.
Proof.
  split; [exact opened_reconciled|]. split; [|reflexivity].
  apply (proj2 (proj2 (database_settlement_keeps_the_ledger Sample.opened
                         opened_reconciled))).
Defined.

(** ** The ledger on the bot path and on the API path *)

Lemma same_names_refl (d : db) : same_names d d.
Proof. intros u. reflexivity. Qed.

Lemma same_names_users (d d' : db) : users d' = users d -> same_names d d'.
Proof. intros U u. now rewrite U. Qed.

Lemma same_names_alter (v : Z) (f : user.row -> user.row) (d d' : db) :
  users d' = alter f v (users d) -> same_names d d'.
Proof.
  intros U u. rewrite U. destruct (decide (v = u)) as [->|N].
  - rewrite lookup_alter_eq. destruct (users d !! u); simpl; split; intros [x Hx]; eauto;
      discriminate.
  - now rewrite lookup_alter_ne by exact N.
Qed.

Lemma same_names_trans (d d1 d2 : db) :
  same_names d d1 -> same_names d1 d2 -> same_names d d2.
Proof. intros H1 H2 u. etransitivity; [apply H2|apply H1]. Qed.

Lemma bot_one_bet_keeps_the_ledger (s : stats) (b : bet.row) (r : Bot.counts) (d : db) :
  reconciled d -> is_Some (users d !! bet.user_id b) ->
  let d' := snd (Bot.settle_one_bet s b r d) in
  reconciled d' /\ same_names d d' /\ predictions d' = predictions d.
Proof.
  intros R S. cbv zeta. unfold Bot.settle_one_bet.
  destruct (Bot.check_bet_won (bet.bet_type b) s) as [[[|]|]|e]; cbn [snd];
    try (split; [exact R|split; [apply same_names_refl|reflexivity]]).
  - split; [|split; [|reflexivity]].
    + eapply (reconciled_step (bet.user_id b) (winnings_of (bet.amount b) (bet.odds b)));
        [exact R|reflexivity| |reflexivity..|eauto].
      intros x Hx. simpl. unfold balance_or_zero. now rewrite Hx.
    + eapply same_names_alter. reflexivity.
  - split; [|split; [|reflexivity]].
    + eapply (reconciled_step (bet.user_id b) 0);
        [exact R|reflexivity| |reflexivity..|eauto].
      intros x Hx. simpl. lia.
    + eapply same_names_alter. reflexivity.
Qed.

Lemma bot_bets_keep_the_ledger (s : stats) (rows : list bet.row) (r : Bot.counts) (d : db) :
  reconciled d -> (forall b, In b rows -> is_Some (users d !! bet.user_id b)) ->
  let d' := snd (Bot.settle_bets s rows r d) in
  reconciled d' /\ same_names d d' /\ predictions d' = predictions d.
Proof.
  revert r d. induction rows as [|b rows IH]; intros r d R S; cbv zeta.
  - split; [exact R|split; [apply same_names_refl|reflexivity]].
  - simpl.
    destruct (bot_one_bet_keeps_the_ledger s b r d R (S b (or_introl eq_refl)))
      as (R1 & N1 & P1).
    destruct (Bot.settle_one_bet s b r d) as [[r1|e] d1]; cbn [snd] in *.
    + destruct (IH r1 d1 R1) as (R2 & N2 & P2).
      { intros x Hx. apply N1, S. now right. }
      split; [exact R2|]. split; [now apply (same_names_trans d d1)|congruence].
    + auto.
Qed.

Lemma bot_one_prediction_keeps_the_ledger (s : stats) (p : prediction.row)
    (r : Bot.counts) (d : db) :
  reconciled d -> is_Some (users d !! prediction.user_id p) ->
  let d' := snd (Bot.settle_one_prediction s p r d) in
  reconciled d' /\ same_names d d'.
Proof.
  intros R S. cbv zeta. unfold Bot.settle_one_prediction.
  destruct (bool_decide _); cbn [snd].
  - split; [|eapply same_names_alter; reflexivity].
    eapply (reconciled_step (prediction.user_id p) 5);
      [exact R|reflexivity| |reflexivity..|eauto].
    intros x Hx. simpl. unfold balance_or_zero. now rewrite Hx.
  - split; [|eapply same_names_alter; reflexivity].
    eapply (reconciled_step (prediction.user_id p) (-10));
      [exact R|reflexivity| |reflexivity..|eauto].
    intros x Hx. simpl. unfold balance_or_zero. rewrite Hx. lia.
Qed.

Lemma bot_predictions_keep_the_ledger (s : stats) (rows : list prediction.row)
    (r : Bot.counts) (d : db) :
  reconciled d -> (forall p, In p rows -> is_Some (users d !! prediction.user_id p)) ->
  reconciled (snd (Bot.settle_predictions s rows r d)).
Proof.
  revert r d. induction rows as [|p rows IH]; intros r d R S; [exact R|]. simpl.
  destruct (bot_one_prediction_keeps_the_ledger s p r d R (S p (or_introl eq_refl)))
    as (R1 & N1).
  destruct (Bot.settle_one_prediction s p r d) as [r1 d1]; cbn [snd] in *.
  apply IH; [exact R1|]. intros x Hx. apply N1, S. now right.
Qed.


Lemma opened_owned : owned Sample.opened.
Proof.
  split.
  - intros b Hb. vm_compute in Hb. destruct Hb as [<-|[]]. vm_compute. eauto.
  - intros p [].
Qed.


(** What the API settlement loops leave alone. *)
Lemma api_one_bet_ledger (s : stats) (b : bet.row) (r : Api.counts) (d : db) :
  let d' := snd (Api.settle_one_bet s b r d) in
  transactions d' = transactions d /\ same_names d d'.
Proof.
  cbv zeta. unfold Api.settle_one_bet.
  destruct (Api.settle_bet_by_type (bet.bet_type b) s) as [[| |]|e]; cbn [snd];
    (split; [reflexivity|]);
    first [apply same_names_refl
          | apply same_names_users; reflexivity
          | eapply same_names_alter; reflexivity].
Qed.

Lemma api_bets_ledger (s : stats) (rows : list bet.row) (r : Api.counts) (d : db) :
  let d' := snd (Api.settle_bets s rows r d) in
  transactions d' = transactions d /\ same_names d d'.
Proof.
  revert r d. induction rows as [|b rows IH]; intros r d; cbv zeta.
  - split; [reflexivity|apply same_names_refl].
  - simpl. destruct (api_one_bet_ledger s b r d) as (T1 & N1).
    destruct (Api.settle_one_bet s b r d) as [[r1|e] d1]; cbn [snd] in *; [|auto].
    destruct (IH r1 d1) as (T2 & N2).
    split; [congruence|now apply (same_names_trans d d1)].
Qed.

Lemma api_one_prediction_ledger (s : stats) (p : prediction.row) (r : Api.counts) (d : db) :
  let d' := snd (Api.settle_one_prediction s p r d) in
  transactions d' = transactions d /\ same_names d d'.
Proof.
  cbv zeta. unfold Api.settle_one_prediction.
  destruct (getitem (outcome s) "outcome") as [o|e]; cbn [snd];
    [|split; [reflexivity|apply same_names_refl]].
  destruct (String.eqb _ o); (split; [reflexivity|]);
    eapply same_names_alter; reflexivity.
Qed.

Lemma api_predictions_ledger (s : stats) (rows : list prediction.row) (r : Api.counts)
    (d : db) :
  let d' := snd (Api.settle_predictions s rows r d) in
  transactions d' = transactions d /\ same_names d d'.
Proof.
  revert r d. induction rows as [|p rows IH]; intros r d; cbv zeta.
  - split; [reflexivity|apply same_names_refl].
  - simpl. destruct (api_one_prediction_ledger s p r d) as (T1 & N1).
    destruct (Api.settle_one_prediction s p r d) as [[r1|e] d1]; cbn [snd] in *; [|auto].
    destruct (IH r1 d1) as (T2 & N2).
    split; [congruence|now apply (same_names_trans d d1)].
Qed.

(** The API settlement never writes the ledger, whatever it pays: after a
    pass the ledger is the one before, so on a database whose ledger
    accounted for the balances it no longer does as soon as one balance has
    moved. *)
Theorem api_settlement_never_books (match_id : string) (s : stats) (d : db) :
  let d' := snd (Api.settle_all_bets_advanced match_id s d) in
  transactions d' = transactions d /\
  (reconciled d -> reconciled d' -> forall u, balance_of u d' = balance_of u d).
Proof.
  cbv zeta.
  assert (transactions (snd (Api.settle_all_bets_advanced match_id s d)) = transactions d
          /\ same_names d (snd (Api.settle_all_bets_advanced match_id s d))) as [T N].
  { unfold Api.settle_all_bets_advanced.
    destruct (api_bets_ledger s (pending_bets match_id d) Api.zero d) as (T1 & N1).
    destruct (Api.settle_bets s (pending_bets match_id d) Api.zero d) as [[r1|e] d1];
      cbn [snd] in *; [|auto].
    destruct (api_predictions_ledger s (pending_predictions match_id d1) r1 d1)
      as (T2 & N2).
    split; [congruence|now apply (same_names_trans d d1)]. }
  split; [exact T|].
  intros R R' u. specialize (R u). specialize (R' u). specialize (N u).
  unfold balance_of, balance_or_zero, ledger_sum in *. rewrite T in R'.
  destruct (users (snd (Api.settle_all_bets_advanced match_id s d)) !! u) as [x|],
           (users d !! u) as [y|]; simpl in *.
  - f_equal. lia.
  - destruct N as [N _]. destruct N as [z Hz]; [eauto|discriminate].
  - destruct N as [_ N]. destruct N as [z Hz]; [eauto|discriminate].
  - reflexivity.
Qed.

(** The stake of a won bet shows the gap: the balance moves, the ledger
    does not. *)
Example api_payout_is_not_booked :
  let d := snd (Api.settle_all_bets_advanced "m1" (Sample.final 2 0 9 4) Sample.opened) in
  reconciled Sample.opened /\
  balance_of 7 Sample.opened = Some 40 /\ balance_of 7 d = Some 58 /\
  ledger_amounts d = [50; -10] /\ ~ reconciled d.
Proof.
  split; [exact opened_reconciled|]. split; [reflexivity|]. split; [reflexivity|].
  split; [reflexivity|]. intros R. specialize (R 7). vm_compute in R. discriminate.
Qed.

(** ** The ledger behind the endpoints *)

Lemma process_referral_bonus_reconciled (user_id : Z) (d : db) :
  reconciled d -> reconciled (Api.process_referral_bonus user_id d).
Proof.
  intros R. unfold Api.process_referral_bonus.
  destruct (users d !! user_id) as [u|] eqn:U; [|exact R].
  destruct (user.referred_by u) as [referrer_id|]; [|exact R].
  destruct (referrer_id =? 0); [exact R|].
  destruct (existsb _ (transactions d)); [exact R|]. cbv zeta.
  set (d1 := match users d !! referrer_id with
             | Some referrer => _
             | None => d
             end).
  assert (reconciled d1 /\ same_names d d1) as [R1 N1].
  { subst d1. destruct (users d !! referrer_id) as [referrer|] eqn:F.
    - split; [|eapply same_names_alter; reflexivity].
      eapply (reconciled_step referrer_id 25);
        [exact R|reflexivity| |reflexivity..|eauto].
      intros x _. reflexivity.
    - split; [exact R|apply same_names_refl]. }
  destruct (users d1 !! user_id) as [u'|] eqn:U1; [|exact R1].
  eapply (reconciled_step user_id 25); [exact R1|reflexivity| |reflexivity..|eauto].
  intros x _. reflexivity.
Qed.

Lemma place_bet_same_names (user_id : Z) (match_id bet_type : string) (amount : Z)
    (odds : Q) (home away date : option string) (d : db) :
  same_names d (snd (Database.place_bet user_id match_id bet_type amount odds
                       home away date d)).
Proof.
  unfold Database.place_bet.
  destruct (users d !! user_id) as [row|]; [|apply same_names_refl].
  destruct (_ <? amount); [apply same_names_refl|].
  eapply same_names_alter. reflexivity.
Qed.

(** The endpoints that take or hand back a stake book it: placing a bet
    before the match, with its referral bonus, placing a live bet and
    selling a bet leave a ledger that still accounts for the balances. *)
Theorem endpoints_keep_the_ledger (d : db) :
  reconciled d ->
  (forall e bet user_id user,
      reconciled (snd (Api.place_bet_endpoint e bet user_id user d))) /\
  (forall live_match leon_data bet user_id user,
      reconciled (snd (Api.place_live_bet live_match leon_data bet user_id user d))) /\
  (forall strptime now bet_id user_id,
      is_Some (users d !! user_id) ->
      reconciled (snd (Api.sell_bet_endpoint strptime now bet_id user_id d))).
Proof.
  intros R. split; [|split].
  - intros e bet user_id user. unfold Api.place_bet_endpoint.
    destruct (Api.place_bet_checks e bet user) as [[odds m]|x]; [|exact R].
    match goal with
    | |- context [Database.place_bet ?a ?b ?c ?f ?g ?h ?i ?j d] =>
        pose proof (place_bet_reconciled a b c f g h i j d R) as R1;
        destruct (Database.place_bet a b c f g h i j d) as [[bet_id|] d1]
    end; cbn [snd] in *; [|exact R1].
    destruct (Nat.eqb _ 1); [|exact R1].
    now apply process_referral_bonus_reconciled.
  - intros live_match leon_data bet user_id user. unfold Api.place_live_bet.
    destruct (_ <=? 0); [exact R|].
    destruct (_ <? _); [exact R|].
    destruct (_ && _)%bool; [exact R|].
    match goal with |- context [if ?c then _ else _] => destruct c end; [exact R|].
    cbv zeta.
    match goal with
    | |- context [Database.place_bet ?a ?b ?c ?f ?g ?h ?i ?j d] =>
        pose proof (place_bet_reconciled a b c f g h i j d R) as R1;
        destruct (Database.place_bet a b c f g h i j d) as [[bet_id|] d1]
    end; exact R1.
  - intros strptime now bet_id user_id S. unfold Api.sell_bet_endpoint.
    destruct (List.find _ _) as [b|]; [|exact R].
    destruct (match bet.match_date b with Some text => strptime text | None => None end)
      as [mt|]; [|exact R].
    destruct (_ <=? now); [exact R|].
    pose proof (sell_bet_reconciled bet_id user_id (Api.sell_price_of (bet.amount b)) d S R)
      as R1.
    destruct (Database.sell_bet _ _ _ d) as [[|] d1]; exact R1.
Qed.

Lemma endpoints_keep_the_ledger_witness :
  let d := snd (Api.sell_bet_endpoint (fun _ => Some 1000) 900 1 7 Sample.opened) in
  reconciled Sample.opened /\ is_Some (users Sample.opened !! 7) /\
  reconciled d /\ balance_of 7 d = Some 45 /\ ledger_amounts d = [50; -10; 5].
Proof.
  split; [exact opened_reconciled|]. split; [vm_compute; eauto|].
  split; [|split; reflexivity].
  apply (proj2 (proj2 (endpoints_keep_the_ledger Sample.opened opened_reconciled))).
  vm_compute. eauto.
Defined.

(** ** No balance and no playthrough counter below zero *)

Lemma solvent_alter (v : Z) (f : user.row -> user.row) (d d' : db) :
  solvent d ->
  users d' = alter f v (users d) ->
  (forall r, users d !! v = Some r -> 0 <= user.balance r -> 0 <= user.wager_remaining r ->
             0 <= user.balance (f r) /\ 0 <= user.wager_remaining (f r)) ->
  solvent d'.
Proof.
  intros S U F u row H. rewrite U in H. destruct (decide (v = u)) as [->|N].
  - rewrite lookup_alter_eq in H. destruct (users d !! u) as [r|] eqn:E; [|discriminate].
    simpl in H. injection H as <-. destruct (S u r E). now apply F.
  - rewrite lookup_alter_ne in H by exact N. now apply (S u).
Qed.

Lemma solvent_same (d d' : db) : solvent d -> users d' = users d -> solvent d'.
Proof. intros S U u row H. rewrite U in H. now apply (S u). Qed.

Lemma update_user_balance_solvent (user_id amount : Z) (type : string)
    (reference : option string) (affect_wager : bool) (d : db) :
  solvent d ->
  solvent (snd (Database.update_user_balance user_id amount type reference
                  affect_wager d)).
Proof.
  intros S. unfold Database.update_user_balance.
  destruct (users d !! user_id) as [row|] eqn:U; [|exact S].
  destruct (Z.ltb_spec (user.balance row + amount) 0) as [L|L]; [exact S|]. cbn [snd].
  eapply (solvent_alter user_id); [exact S|reflexivity|].
  intros r Hr Hb Hw. rewrite U in Hr. injection Hr as <-. simpl.
  split; [exact L|].
  destruct affect_wager; simpl; [|exact Hw].
  destruct (Z.ltb_spec 0 amount); lia.
Qed.

Lemma create_user_solvent (user_id : Z) (d : db) :
  solvent d -> solvent (snd (Database.create_user user_id d)).
Proof.
  intros S. unfold Database.create_user.
  destruct (users d !! user_id) as [row|] eqn:U; [exact S|]. cbn [snd].
  intros u x H. simpl in H. destruct (decide (user_id = u)) as [->|N].
  - rewrite lookup_insert_eq in H. injection H as <-. simpl. lia.
  - rewrite lookup_insert_ne in H by exact N. now apply (S u).
Qed.

Lemma place_bet_solvent (user_id : Z) (match_id bet_type : string) (amount : Z)
    (odds : Q) (home away date : option string) (d : db) :
  solvent d ->
  solvent (snd (Database.place_bet user_id match_id bet_type amount odds
                  home away date d)).
Proof.
  intros S. unfold Database.place_bet.
  destruct (users d !! user_id) as [row|] eqn:U; [|exact S].
  destruct (Z.ltb_spec (user.balance row) amount) as [L|L]; [exact S|]. cbn [snd].
  eapply (solvent_alter user_id); [exact S|reflexivity|].
  intros r Hr Hb Hw. rewrite U in Hr. injection Hr as <-. simpl. lia.
Qed.

Lemma sell_bet_solvent (bet_id user_id sell_price : Z) (d : db) :
  0 <= sell_price -> solvent d ->
  solvent (snd (Database.sell_bet bet_id user_id sell_price d)).
Proof.
  intros P S. unfold Database.sell_bet.
  destruct (Database.fetch_own_pending_bet bet_id user_id d) as [b|]; [|exact S].
  cbn [snd]. eapply (solvent_alter user_id); [exact S|reflexivity|].
  intros r _ Hb Hw. simpl. lia.
Qed.

Lemma reduce_wager_solvent (user_id bet_amount : Z) (d : db) :
  solvent d -> solvent (snd (Database.reduce_wager user_id bet_amount d)).
Proof.
  intros S. unfold Database.reduce_wager.
  destruct (users d !! user_id) as [row|] eqn:U; [|exact S]. cbn [snd].
  eapply (solvent_alter user_id); [exact S|reflexivity|].
  intros r _ Hb Hw. simpl. lia.
Qed.

Lemma settle_bet_solvent (bet_id : Z) (outcome : string) (exact_score : option string)
    (d : db) :
  solvent d -> solvent (snd (Database.settle_bet bet_id outcome exact_score d)).
Proof.
  intros S. unfold Database.settle_bet.
  destruct (Database.fetch_pending_bet bet_id d) as [b|]; [|exact S].
  match goal with |- context [if ?c then _ else _] => destruct c end; cbn [snd].
  - eapply solvent_same; [|reflexivity].
    eapply (solvent_alter (bet.user_id b)); [|reflexivity|].
    + apply update_user_balance_solvent, S.
    + intros r _ Hb Hw. simpl. lia.
  - eapply solvent_same; [|reflexivity].
    eapply (solvent_alter (bet.user_id b)); [exact S|reflexivity|].
    intros r _ Hb Hw. simpl. lia.
Qed.

Lemma settle_prediction_solvent (prediction_id : Z) (actual : string) (d : db) :
  solvent d -> solvent (snd (Database.settle_prediction prediction_id actual d)).
Proof.
  intros S. unfold Database.settle_prediction.
  destruct (Database.fetch_pending_prediction prediction_id d) as [p|]; [|exact S].
  destruct (String.eqb _ actual); cbn [snd];
    (eapply solvent_same; [|reflexivity]);
    (eapply (solvent_alter (prediction.user_id p)); [|reflexivity|]);
    first [apply update_user_balance_solvent, S | intros r _ Hb Hw; simpl; lia].
Qed.

Lemma settle_all_for_match_solvent (match_id outcome : string)
    (exact_score : option string) (d : db) :
  solvent d ->
  solvent (snd (Database.settle_all_for_match match_id outcome exact_score d)).
Proof.
  intros S. unfold Database.settle_all_for_match.
  assert (forall rows n d0, solvent d0 ->
            solvent (snd (Database.settle_bets outcome exact_score rows n d0))) as B.
  { induction rows as [|b rows IH]; intros n d0 S0; [exact S0|]. simpl.
    pose proof (settle_bet_solvent (bet.bet_id b) outcome exact_score d0 S0) as S1.
    destruct (Database.settle_bet (bet.bet_id b) outcome exact_score d0) as [ok d1].
    now apply IH. }
  assert (forall rows n d0, solvent d0 ->
            solvent (snd (Database.settle_predictions outcome rows n d0))) as P.
  { induction rows as [|p rows IH]; intros n d0 S0; [exact S0|]. simpl.
    pose proof (settle_prediction_solvent (prediction.prediction_id p) outcome d0 S0)
      as S1.
    destruct (Database.settle_prediction (prediction.prediction_id p) outcome d0)
      as [ok d1].
    now apply IH. }
  pose proof (B (pending_bets match_id d) 0 d S) as S1.
  destruct (Database.settle_bets _ _ _ 0 d) as [n1 d1]. cbn [snd] in S1.
  pose proof (P (pending_predictions match_id d1) 0 d1 S1) as S2.
  destruct (Database.settle_predictions _ _ 0 d1) as [n2 d2]. exact S2.
Qed.

(** [database.py] never overdraws: where no balance and no playthrough
    counter is negative, none is after a credit or debit through
    [update_user_balance] (whatever the amount), a registration, a placed
    bet (whatever the stake), a bet sold at a price that is not negative, a
    reduced wager, or the settlement of a match. *)
Theorem database_never_overdraws (d : db) :
  solvent d ->
  (forall user_id amount type reference affect_wager,
      solvent (snd (Database.update_user_balance user_id amount type reference
                      affect_wager d))) /\
  (forall user_id, solvent (snd (Database.create_user user_id d))) /\
  (forall user_id match_id bet_type amount odds home away date,
      solvent (snd (Database.place_bet user_id match_id bet_type amount odds
                      home away date d))) /\
  (forall bet_id user_id sell_price,
      0 <= sell_price -> solvent (snd (Database.sell_bet bet_id user_id sell_price d))) /\
  (forall user_id bet_amount, solvent (snd (Database.reduce_wager user_id bet_amount d))) /\
  (forall match_id outcome exact_score,
      solvent (snd (Database.settle_all_for_match match_id outcome exact_score d))).
Proof.
  intros S. split; [|split; [|split; [|split; [|split]]]].
  - intros. now apply update_user_balance_solvent.
  - intros. now apply create_user_solvent.
  - intros. now apply place_bet_solvent.
  - intros bet_id user_id sell_price P. now apply sell_bet_solvent.
  - intros. now apply reduce_wager_solvent.
  - intros. now apply settle_all_for_match_solvent.
Qed.

Lemma nobody_solvent : solvent Sample.nobody.
Proof. intros u row H. discriminate. Qed.

Lemma opened_solvent : solvent Sample.opened.
Proof. apply place_bet_solvent, create_user_solvent, nobody_solvent. Qed.

Lemma database_never_overdraws_witness :
  let d := snd (Database.update_user_balance 7 (-41) "prize" None false Sample.opened) in
  solvent Sample.opened /\ solvent d /\ balance_of 7 d = Some 40.
Proof.
  split; [exact opened_solvent|]. split; [|reflexivity].
  apply (proj1 (database_never_overdraws Sample.opened opened_solvent)).
Defined.

Lemma process_referral_bonus_solvent (user_id : Z) (d : db) :
  solvent d -> solvent (Api.process_referral_bonus user_id d).
Proof.
  intros S. unfold Api.process_referral_bonus.
  destruct (users d !! user_id) as [u|] eqn:U; [|exact S].
  destruct (user.referred_by u) as [referrer_id|]; [|exact S].
  destruct (referrer_id =? 0); [exact S|].
  destruct (existsb _ (transactions d)); [exact S|]. cbv zeta.
  set (d1 := match users d !! referrer_id with
             | Some referrer => _
             | None => d
             end).
  assert (solvent d1) as S1.
  { subst d1. destruct (users d !! referrer_id) as [referrer|] eqn:F; [|exact S].
    eapply (solvent_alter referrer_id); [exact S|reflexivity|].
    intros r _ Hb Hw. simpl. lia. }
  destruct (users d1 !! user_id) as [u'|] eqn:U1; [|exact S1].
  eapply (solvent_alter user_id); [exact S1|reflexivity|].
  intros r _ Hb Hw. simpl. lia.
Qed.

Lemma sell_price_positive (amount : Z) : 1 <= Api.sell_price_of amount.
Proof. unfold Api.sell_price_of. lia. Qed.

(** The endpoints never overdraw either: a bet placed before the match,
    with its referral bonus, a live bet and a sale leave no balance and no
    playthrough counter below zero, whatever the request says. *)
Theorem endpoints_never_overdraw (d : db) :
  solvent d ->
  (forall e bet user_id user,
      solvent (snd (Api.place_bet_endpoint e bet user_id user d))) /\
  (forall live_match leon_data bet user_id user,
      solvent (snd (Api.place_live_bet live_match leon_data bet user_id user d))) /\
  (forall strptime now bet_id user_id,
      solvent (snd (Api.sell_bet_endpoint strptime now bet_id user_id d))).
Proof.
  intros S. split; [|split].
  - intros e bet user_id user. unfold Api.place_bet_endpoint.
    destruct (Api.place_bet_checks e bet user) as [[odds m]|x]; [|exact S].
    match goal with
    | |- context [Database.place_bet ?a ?b ?c ?f ?g ?h ?i ?j d] =>
        pose proof (place_bet_solvent a b c f g h i j d S) as S1;
        destruct (Database.place_bet a b c f g h i j d) as [[bet_id|] d1]
    end; cbn [snd] in *; [|exact S1].
    destruct (Nat.eqb _ 1); [|exact S1].
    now apply process_referral_bonus_solvent.
  - intros live_match leon_data bet user_id user. unfold Api.place_live_bet.
    destruct (_ <=? 0); [exact S|].
    destruct (_ <? _); [exact S|].
    destruct (_ && _)%bool; [exact S|].
    match goal with |- context [if ?c then _ else _] => destruct c end; [exact S|].
    cbv zeta.
    match goal with
    | |- context [Database.place_bet ?a ?b ?c ?f ?g ?h ?i ?j d] =>
        pose proof (place_bet_solvent a b c f g h i j d S) as S1;
        destruct (Database.place_bet a b c f g h i j d) as [[bet_id|] d1]
    end; exact S1.
  - intros strptime now bet_id user_id. unfold Api.sell_bet_endpoint.
    destruct (List.find _ _) as [b|]; [|exact S].
    destruct (match bet.match_date b with Some text => strptime text | None => None end)
      as [mt|]; [|exact S].
    destruct (_ <=? now); [exact S|].
    assert (0 <= Api.sell_price_of (bet.amount b)) as P
      by (pose proof (sell_price_positive (bet.amount b)); lia).
    pose proof (sell_bet_solvent bet_id user_id (Api.sell_price_of (bet.amount b)) d P S)
      as S1.
    destruct (Database.sell_bet _ _ _ d) as [[|] d1]; exact S1.
Qed.

Lemma endpoints_never_overdraw_witness :
  let bet := {| Api.live_req_match_id := "m1"; Api.live_req_bet_type := "home";
                Api.live_req_amount := 40; Api.live_req_odds := 2 |} in
  let d := snd (Api.place_live_bet (Api.sofa_live "Real Madrid" "Barcelona" 0 0 "12")
                  Api.leon_idle bet 7 (Sample.player 40 0) Sample.opened) in
  solvent Sample.opened /\ solvent d /\ balance_of 7 d = Some 0.
Proof.
  split; [exact opened_solvent|]. split; [|reflexivity].
  apply (proj1 (proj2 (endpoints_never_overdraw Sample.opened opened_solvent))).
Defined.

(** ** Registration and the wagering requirement *)



(** Purchased points have to be wagered before a prize can be claimed, a
    bonus does not: after a purchase of [n] points the requirement has
    grown by [n] and [can_claim_prize] answers no; every stake placed takes
    its amount off the requirement, never below zero, and the answer turns
    to yes once the stakes cover it; a bonus leaves the requirement as it
    was. *)
Theorem purchased_points_must_be_wagered (user_id n : Z) (u : user.row) (d : db) :
  users d !! user_id = Some u ->
  0 <= user.balance u -> 0 <= user.wager_remaining u -> 0 < n ->
  let bought := snd (Database.admin_add_points user_id n d) in
  let gifted := snd (Database.admin_add_bonus user_id n d) in
  balance_of user_id bought = Some (user.balance u + n) /\
  Database.can_claim_prize user_id bought = (false, user.wager_remaining u + n) /\
  balance_of user_id gifted = Some (user.balance u + n) /\
  Database.can_claim_prize user_id gifted = Database.can_claim_prize user_id d /\
  (forall match_id bet_type stake odds home away date,
      stake <= user.balance u + n ->
      Database.can_claim_prize user_id
        (snd (Database.place_bet user_id match_id bet_type stake odds home away date
                bought))
      = (user.wager_remaining u + n <=? stake,
         Z.max 0 (user.wager_remaining u + n - stake))).
Proof.
  intros U Hb Hw Hn. cbv zeta.
  unfold Database.admin_add_points, Database.admin_add_bonus,
    Database.update_user_balance. rewrite U.
  destruct (Z.ltb_spec (user.balance u + n) 0) as [L|L]; [lia|].
  destruct (Z.ltb_spec 0 n) as [P|P]; [|lia]. cbn [snd andb].
  unfold balance_of, Database.can_claim_prize, Database.get_user. simpl.
  rewrite !lookup_alter_eq, U. simpl.
  split; [reflexivity|]. split.
  { destruct (Z.leb_spec (user.wager_remaining u + n) 0); [lia|]. f_equal. lia. }
  split; [reflexivity|]. split; [reflexivity|].
  intros match_id bet_type stake odds home away date Hs.
  unfold Database.place_bet. simpl. rewrite lookup_alter_eq, U. simpl.
  destruct (Z.ltb_spec (user.balance u + n) stake) as [L'|L']; [lia|].
  simpl. rewrite lookup_alter_eq, lookup_alter_eq, U. simpl.
  f_equal; [|lia].
  destruct (Z.leb_spec (Z.max 0 (user.wager_remaining u + n - stake)) 0),
           (Z.leb_spec (user.wager_remaining u + n) stake); reflexivity || lia.
Qed.

Lemma purchased_points_must_be_wagered_witness :
  let d := snd (Database.create_user 7 Sample.nobody) in
  let bought := snd (Database.admin_add_points 7 1000 d) in
  users d !! 7 = Some Database.welcome /\
  Database.can_claim_prize 7 bought = (false, 1000) /\
  Database.can_claim_prize 7
    (snd (Database.place_bet 7 "m1" "home" 1000 1.85 None None None bought)) = (true, 0).
Proof.
  split; [reflexivity|].
  destruct (purchased_points_must_be_wagered 7 1000 Database.welcome
              (snd (Database.create_user 7 Sample.nobody)) eq_refl)
    as (_ & C & _ & _ & P); [simpl; lia..|].
  split; [exact C|].
  rewrite (P "m1" "home" 1000 1.85%Q None None None); [reflexivity|simpl; lia].
Defined.

(** ** Selling a bet *)

Lemma find_all_false {A} (f : A -> bool) (l : list A) :
  (forall x, In x l -> f x = false) -> List.find f l = None.
Proof.
  induction l as [|a l IH]; intros H; [reflexivity|]. simpl.
  rewrite (H a (or_introl eq_refl)). apply IH. intros x Hx. apply H. now right.
Qed.

Lemma status_after_update_bet (bet_id : Z) (f : bet.row -> bet.row) (d : db) (x : bet.row) :
  (forall b, bet.bet_id (f b) = bet.bet_id b) ->
  In x (bets (update_bet bet_id f d)) -> bet.bet_id x = bet_id ->
  exists b, In b (bets d) /\ bet.bet_id b = bet_id /\ x = f b.
Proof.
  intros Hf Hx Hid. simpl in Hx. apply in_map_iff in Hx as (b & E & Hb).
  destruct (Z.eqb_spec (bet.bet_id b) bet_id) as [Eb|Nb].
  - eauto.
  - subst x. contradiction.
Qed.

(** A sold bet is closed for good.  A successful [sell_bet] found a
    pending bet of that user, marks it [sold] with the loss as its profit,
    credits the price and books it; after that the bet cannot be sold
    again, [settle_bet] refuses it, and no settlement job selects it. *)
Theorem sold_bet_is_closed (bet_id user_id sell_price : Z) (d d1 : db) :
  Database.sell_bet bet_id user_id sell_price d = (true, d1) ->
  (exists b, In b (bets d) /\ bet.bet_id b = bet_id /\ bet.user_id b = user_id /\
             bet.status b = "pending" /\
             forall x, In x (bets d1) -> bet.bet_id x = bet_id ->
                       bet.status x = "sold" /\
                       bet.profit x = - bet.amount b + sell_price) /\
  balance_of user_id d1 = (fun bal => bal + sell_price) <$> balance_of user_id d /\
  (forall v, v <> user_id -> users d1 !! v = users d !! v) /\
  (exists t, transactions d1 = (transactions d ++ [t])%list /\
             transaction.user_id t = user_id /\
             transaction.type t = "bet_sell" /\
             transaction.amount t = sell_price) /\
  (forall price, Database.sell_bet bet_id user_id price d1 = (false, d1)) /\
  (forall outcome exact_score,
      Database.settle_bet bet_id outcome exact_score d1 = (false, d1)) /\
  (forall match_id x, In x (pending_bets match_id d1) -> bet.bet_id x <> bet_id).
Proof.
  unfold Database.sell_bet. intros H.
  destruct (Database.fetch_own_pending_bet bet_id user_id d) as [b|] eqn:F;
    [|discriminate].
  injection H as <-.
  unfold Database.fetch_own_pending_bet in F. apply find_some in F as [Hb Hp].
  apply andb_true_iff in Hp as [Hp Hs]. apply andb_true_iff in Hp as [Hi Hu].
  apply Z.eqb_eq in Hi, Hu. apply String.eqb_eq in Hs.
  set (f := settle_row "sold" None (Some (- bet.amount b + sell_price)) None).
  assert (forall x, In x (map (fun y => if bet.bet_id y =? bet_id then f y else y) (bets d)) ->
                    bet.bet_id x = bet_id ->
                    bet.status x = "sold" /\ bet.profit x = - bet.amount b + sell_price)
    as Sold.
  { intros x Hx Hid. apply in_map_iff in Hx as (y & E & Hy).
    destruct (Z.eqb_spec (bet.bet_id y) bet_id) as [Ey|Ny]; subst x.
    - split; reflexivity.
    - contradiction. }
  split.
  { exists b. repeat (split; [assumption|]). exact Sold. }
  split.
  { unfold balance_of. simpl. rewrite lookup_alter_eq.
    now destruct (users d !! user_id). }
  split; [intros v Hv; simpl; now rewrite lookup_alter_ne|].
  split; [eexists; split; [reflexivity|]; simpl; auto|].
  split.
  { intros price. unfold Database.fetch_own_pending_bet.
    rewrite find_all_false; [reflexivity|].
    intros x Hx. destruct (Z.eqb_spec (bet.bet_id x) bet_id) as [E|E]; [|reflexivity].
    destruct (Sold x Hx E) as [-> _]. now rewrite andb_false_r. }
  split.
  { intros outcome exact_score. unfold Database.settle_bet, Database.fetch_pending_bet.
    rewrite find_all_false; [reflexivity|].
    intros x Hx. destruct (Z.eqb_spec (bet.bet_id x) bet_id) as [E|E]; [|reflexivity].
    now destruct (Sold x Hx E) as [-> _]. }
  intros match_id x Hx E. unfold pending_bets in Hx. apply filter_In in Hx as [Hx Hq].
  destruct (Sold x Hx E) as [S _]. rewrite S in Hq. now rewrite andb_false_r in Hq.
Qed.

Lemma sold_bet_is_closed_witness :
  let d1 := snd (Database.sell_bet 1 7 5 Sample.opened) in
  Database.sell_bet 1 7 5 Sample.opened = (true, d1) /\
  statuses d1 = ["sold"] /\ balance_of 7 d1 = Some 45 /\
  Database.settle_bet 1 "home" None d1 = (false, d1).
Proof.
  split; [reflexivity|]. split; [reflexivity|]. split; [reflexivity|].
  apply (sold_bet_is_closed 1 7 5 Sample.opened _ eq_refl).
Defined.

(** Rows of the latest bets of a user are rows of the table. *)
Lemma latest_first_rows (user_id : Z) (d : db) (b : bet.row) :
  In b (Database.get_user_bets_latest_first user_id d) ->
  In b (bets d) /\ bet.user_id b = user_id.
Proof.
  unfold Database.get_user_bets_latest_first. intros H.
  apply list_elem_of_In, elem_of_take in H as (i & H & _).
  apply list_elem_of_lookup_2, list_elem_of_In, in_rev, filter_In in H as [H1 H2].
  split; [exact H1|now apply Z.eqb_eq].
Qed.



(** ** New rows: identifiers, predictions *)

(** [cursor.lastrowid] is above every key of the table. *)
Lemma next_id_fresh (ids : list Z) :
  0 < Database.next_id ids /\ forall i, In i ids -> i < Database.next_id ids.
Proof.
  unfold Database.next_id. induction ids as [|x ids [IH0 IH]]; simpl.
  - split; [lia|intros i []].
  - split; [lia|]. intros i [<-|Hi]; [lia|]. specialize (IH i Hi). lia.
Qed.

Lemma find_app_last {A} (f : A -> bool) (l : list A) (x : A) :
  (forall y, In y l -> f y = false) -> f x = true ->
  List.find f (l ++ [x])%list = Some x.
Proof.
  intros H Hx. induction l as [|a l IH]; simpl.
  - now rewrite Hx.
  - rewrite (H a (or_introl eq_refl)). apply IH. intros y Hy. apply H. now right.
Qed.



Lemma existsb_forecast (user_id : Z) (match_id : string) (l : list prediction.row) :
  existsb (fun p => (prediction.user_id p =? user_id)
                    && String.eqb (prediction.match_id p) match_id)%bool l = true <->
  In (user_id, match_id) (map forecast_key l).
Proof.
  rewrite existsb_exists, in_map_iff. split; intros (p & H1 & H2); exists p.
  - apply andb_true_iff in H2 as [Hu Hm]. apply Z.eqb_eq in Hu.
    apply String.eqb_eq in Hm. unfold forecast_key. split; [congruence|exact H1].
  - injection H1 as Hu Hm. split; [exact H2|].
    rewrite Hu, Hm, Z.eqb_refl. now apply String.eqb_eq.
Qed.



(** ** What the database path settles on *)

(** The word [auto_settle_task] settles a match on. *)
Lemma outcome_word (home_score away_score : Z) :
  among (if away_score <? home_score then "home"
         else if home_score <? away_score then "away" else "draw")
        ["home"; "draw"; "away"] = true.
Proof.
  destruct (away_score <? home_score), (home_score <? away_score); reflexivity.
Qed.

(** [database.py] settles on the outcome word and the exact score alone:
    a pending bet on any other key, be it a total, a handicap, corners,
    cards, both-to-score or a double chance, is closed as lost with the
    stake as its loss, whatever happened in the match; no balance moves
    and nothing is booked.  This is the path [auto_settle_task] takes: a
    round over one finished match is [settle_all_for_match] on the word
    for the score and on the score as text. *)
Theorem database_path_loses_side_markets (b : bet.row) (outcome : string)
    (exact_score : option string) (d : db) :
  Database.fetch_pending_bet (bet.bet_id b) d = Some b ->
  among outcome ["home"; "draw"; "away"] = true ->
  among (bet.bet_type b) ["home"; "draw"; "away"] = false ->
  Py.startswith (bet.bet_type b) "score_" = false ->
  let d' := snd (Database.settle_bet (bet.bet_id b) outcome exact_score d) in
  fst (Database.settle_bet (bet.bet_id b) outcome exact_score d) = true /\
  (forall x, In x (bets d') -> bet.bet_id x = bet.bet_id b ->
             bet.status x = "lost" /\ bet.profit x = - bet.amount b) /\
  (forall u, balance_of u d' = balance_of u d) /\
  transactions d' = transactions d /\
  (forall (r : Api.recent.t) (_settled_matches : gset string) (d0 : db),
      Api.recent.matchId r <> "" -> Api.recent.matchId r ∉ _settled_matches ->
      exists word,
        among word ["home"; "draw"; "away"] = true /\
        snd (Api.auto_settle_task [r] _settled_matches d0) =
          snd (Database.settle_all_for_match (Api.recent.matchId r) word
                 (Some (Py.str (Api.recent.homeScore r) ++ "-"
                        ++ Py.str (Api.recent.awayScore r))) d0)).
Proof.
  intros F Ho Hb Hs. cbv zeta. unfold Database.settle_bet. rewrite F, Hs.
  assert (String.eqb (bet.bet_type b) outcome = false) as ->.
  { destruct (String.eqb_spec (bet.bet_type b) outcome) as [E|E]; [|reflexivity].
    rewrite E in Hb. congruence. }
  cbn [fst snd]. split; [reflexivity|]. split.
  { intros x Hx Hid. apply in_map_iff in Hx as (y & E & Hy).
    destruct (Z.eqb_spec (bet.bet_id y) (bet.bet_id b)) as [Ey|Ny]; subst x.
    - split; reflexivity.
    - contradiction. }
  split.
  { intros u.
    apply (balance_of_update_user_frame u (bet.user_id b)
             (fun u0 => bump c_bets_profit (- bet.amount b) (bump c_bets_lost 1 u0)) d).
    reflexivity. }
  split; [reflexivity|].
  intros r settled d0 Hid Hin.
  exists (if Api.recent.awayScore r <? Api.recent.homeScore r then "home"
          else if Api.recent.homeScore r <? Api.recent.awayScore r then "away"
          else "draw").
  split; [apply outcome_word|].
  cbn [Api.auto_settle_task].
  assert (String.eqb (Api.recent.matchId r) "" = false) as ->
    by now apply String.eqb_neq.
  rewrite bool_decide_eq_false_2 by exact Hin. cbn [orb].
  destruct (Database.settle_all_for_match _ _ _ d0) as [[n1 n2] d1]. reflexivity.
Qed.

Lemma database_path_loses_side_markets_witness :
  let b := Sample.wager 1 7 "total_over_2.5" 10 1.9%Q in
  let d := Sample.book 90 [b] [] in
  Database.fetch_pending_bet 1 d = Some b /\
  Bot.check_bet_won "total_over_2.5" (Sample.final 3 1 9 4) = Ok (Some true) /\
  statuses (snd (Database.settle_bet 1 "home" (Some "3-1") d)) = ["lost"] /\
  forall u, balance_of u (snd (Database.settle_bet 1 "home" (Some "3-1") d)) = balance_of u d.
Proof.
  split; [reflexivity|]. split; [reflexivity|]. split; [reflexivity|].
  apply (database_path_loses_side_markets (Sample.wager 1 7 "total_over_2.5" 10 1.9%Q)
           "home" (Some "3-1")
           (Sample.book 90 [Sample.wager 1 7 "total_over_2.5" 10 1.9%Q] [])
           eq_refl eq_refl eq_refl eq_refl).
Defined.

(** ** The referral bonus *)

(** The referral bonus is paid once.  [process_referral_bonus] books at
    most two entries, each of 25 points and of type [referral_bonus], and a
    second call changes nothing: the entry under the new user's name is the
    mark that the bonus was paid. *)
Theorem referral_bonus_is_paid_once (user_id : Z) (d : db) :
  let d1 := Api.process_referral_bonus user_id d in
  Api.process_referral_bonus user_id d1 = d1 /\
  bets d1 = bets d /\ predictions d1 = predictions d /\
  exists paid,
    transactions d1 = (transactions d ++ paid)%list /\
    (length paid <= 2)%nat /\
    Forall (fun t => transaction.amount t = 25 /\
                     transaction.type t = "referral_bonus") paid /\
    forall u, balance_or_zero u d1 - balance_or_zero u d
              = ledger_sum_of u paid.
Proof.
  cbv zeta.
  assert (Api.process_referral_bonus user_id d = d ->
          Api.process_referral_bonus user_id (Api.process_referral_bonus user_id d)
          = Api.process_referral_bonus user_id d /\
          bets (Api.process_referral_bonus user_id d) = bets d /\
          predictions (Api.process_referral_bonus user_id d) = predictions d /\
          exists paid,
            transactions (Api.process_referral_bonus user_id d)
            = (transactions d ++ paid)%list /\
            (length paid <= 2)%nat /\
            Forall (fun t => transaction.amount t = 25 /\
                             transaction.type t = "referral_bonus") paid /\
            forall u, balance_or_zero u (Api.process_referral_bonus user_id d)
                      - balance_or_zero u d = ledger_sum_of u paid) as Same.
  { intros E. rewrite !E. split; [reflexivity|]. split; [reflexivity|].
    split; [reflexivity|].
    exists []. rewrite app_nil_r. split; [reflexivity|]. split; [simpl; lia|].
    split; [constructor|]. intros u. simpl. lia. }
  assert (Api.process_referral_bonus user_id d = Api.process_referral_bonus user_id d)
    as E by reflexivity.
  unfold Api.process_referral_bonus in E at 2.
  destruct (users d !! user_id) as [u|] eqn:U; [|now apply Same].
  destruct (user.referred_by u) as [referrer_id|] eqn:Rf; [|now apply Same].
  destruct (referrer_id =? 0) eqn:Z0; [now apply Same|].
  destruct (existsb _ (transactions d)) eqn:X; [now apply Same|].
  clear Same. rewrite !E. clear E. cbv zeta.
  set (paid1 := match users d !! referrer_id with
                | Some referrer =>
                    [{| transaction.user_id := referrer_id;
                        transaction.type := "referral_bonus";
                        transaction.amount := 25;
                        transaction.balance_before := Some (user.balance referrer);
                        transaction.balance_after := Some (user.balance referrer + 25);
                        transaction.wager_before := None;
                        transaction.wager_after := None;
                        transaction.reference_id := Some (Py.str user_id) |}]
                | None => []
                end).
  set (d1 := match users d !! referrer_id with
             | Some referrer => _
             | None => d
             end).
  assert (transactions d1 = (transactions d ++ paid1)%list /\
          bets d1 = bets d /\ predictions d1 = predictions d /\
          (exists u1, users d1 !! user_id = Some u1 /\
                      user.referred_by u1 = Some referrer_id) /\
          forall v, balance_or_zero v d1 - balance_or_zero v d = ledger_sum_of v paid1)
    as (T1 & B1 & P1 & (u1 & U1 & Rf1) & L1).
  { subst d1 paid1. destruct (users d !! referrer_id) as [referrer|] eqn:F.
    - split; [reflexivity|]. split; [reflexivity|]. split; [reflexivity|]. split.
      + simpl. destruct (decide (referrer_id = user_id)) as [->|N].
        * rewrite lookup_alter_eq, U. simpl. eauto.
        * rewrite lookup_alter_ne by exact N. eauto.
      + intros v. unfold balance_or_zero. simpl.
        destruct (decide (referrer_id = v)) as [->|N].
        * rewrite lookup_alter_eq, F, Z.eqb_refl. simpl. lia.
        * rewrite lookup_alter_ne by exact N.
          destruct (Z.eqb_spec referrer_id v); [contradiction|].
          destruct (users d !! v); lia.
    - split; [now rewrite app_nil_r|]. split; [reflexivity|]. split; [reflexivity|].
      split; [eauto|]. intros v. simpl. lia. }
  rewrite U1.
  split.
  { unfold Api.process_referral_bonus. simpl. rewrite lookup_alter_eq, U1. simpl.
    rewrite Rf1, Z0. rewrite existsb_app. simpl.
    rewrite Z.eqb_refl, bool_decide_eq_true_2 by reflexivity.
    now rewrite orb_true_r. }
  split; [exact B1|]. split; [exact P1|].
  eexists (paid1 ++ [_])%list. split.
  { simpl. rewrite T1. now rewrite <- app_assoc. }
  split.
  { rewrite length_app. subst paid1. destruct (users d !! referrer_id); simpl; lia. }
  split.
  { apply Forall_app. split; [|repeat constructor].
    subst paid1. destruct (users d !! referrer_id); repeat constructor. }
  intros v. rewrite ledger_sum_of_app. simpl. specialize (L1 v).
  unfold balance_or_zero in *. simpl.
  destruct (decide (user_id = v)) as [->|N].
  - rewrite lookup_alter_eq, Z.eqb_refl. rewrite U1 in *. simpl. lia.
  - rewrite lookup_alter_ne by exact N.
    destruct (Z.eqb_spec user_id v); [contradiction|lia].
Qed.

(** On the sample club the invited user 7 and the referrer 3 get 25
    points each, once. *)
Example referral_bonus_on_the_club :
  let d1 := Api.process_referral_bonus 7 Sample.club in
  balance_of 7 d1 = Some 125 /\ balance_of 3 d1 = Some 35 /\
  ledger_amounts d1 = [25; 25] /\ Api.process_referral_bonus 7 d1 = d1.
Proof. repeat split; reflexivity. Qed.

(** ** Placing a live bet *)

Lemma priced_not_empty (odds : gmap string Q) (key : string) (p : Q) :
  Api.priced odds key = Some p -> bool_decide (odds = ∅) = false.
Proof.
  intros H. apply priced_lookup in H. apply bool_decide_eq_false_2.
  intros ->. now rewrite lookup_empty in H.
Qed.



(** ** The price of an accepted bet *)

Lemma feed_prices_bounded (markets : list market.t) :
  price_bounded (fst (Api._parse_leon_markets markets)).
Proof.
  unfold Api._parse_leon_markets.
  apply (fold_left_preserves (fun acc => price_bounded (fst acc))).
  - intros [odds n] m H. apply parse_market_elim; [exact H|].
    intros F HF. now apply runner_loop_bounded.
  - intros k p. simpl. now rewrite lookup_empty.
Qed.

Lemma feed_of_markets_odds (is_live : bool) (markets : list market.t) :
  Api.live_odds (Api.feed_of_markets is_live markets) = fst (Api._parse_leon_markets markets).
Proof.
  unfold Api.feed_of_markets. now destruct (Api._parse_leon_markets markets).
Qed.

(** From the bookmaker's markets to the stored bet: when the feed answers
    are the ones [get_leon_live_match] builds from market lists, a bet
    accepted by [place_bet_endpoint] is priced above 1 and at most 50, or at
    the fixed 30 of an exact score, so it can pay at most fifty times the
    stake. *)
Theorem accepted_price_is_bounded (e : Api.env) (bet : Api.BetRequest) (user_id : Z)
    (user : user.row) (d d' : db) (r : Api.placed) :
  (forall opponent l, Api._get_leon_cached e opponent = Some l ->
                      exists is_live markets, l = Api.feed_of_markets is_live markets) ->
  Api.place_bet_endpoint e bet user_id user d = (Ok r, d') ->
  ((Py.startswith (Api.req_bet_type bet) "score_" = true /\ Api.placed_odds r = 30%Q) \/
   (1 < Api.placed_odds r)%Q /\ (Api.placed_odds r <= 50)%Q) /\
  0 <= Api.placed_potential_win r <= 50 * Api.req_amount bet.
Proof.
  intros Feed H.
  unfold Api.place_bet_endpoint in H.
  destruct (Api.place_bet_checks e bet user) as [[odds m]|x] eqn:C; [|discriminate].
  destruct (place_bet_checks_passed _ _ _ _ _ C) as ([Hpos Hle] & _ & _ & _ & Hq).
  assert (price_bounded (snd (Api.consulted_feed e m))) as B.
  { unfold Api.consulted_feed, Api.leon_odds_of.
    assert (forall o, price_bounded match Api._get_leon_cached e o with
                                    | Some l => Api.live_odds l
                                    | None => ∅
                                    end) as G.
    { intros o. destruct (Api._get_leon_cached e o) as [l|] eqn:L.
      - destruct (Feed o l L) as (is_live & markets & ->).
        rewrite feed_of_markets_odds. apply feed_prices_bounded.
      - intros k p. now rewrite lookup_empty. }
    destruct (bool_decide _); cbn [snd]; apply G. }
  assert ((Py.startswith (Api.req_bet_type bet) "score_" = true /\ odds = 30%Q) \/
          (1 < odds)%Q /\ (odds <= 50)%Q) as Hodds.
  { destruct Hq as [Hq | [Hq | [Hq | Hq]]]; [now left| | |];
      right; apply priced_lookup in Hq; exact (B _ _ Hq). }
  destruct (Database.place_bet _ _ _ _ _ _ _ _ d) as [[bet_id|] d1]; [|discriminate].
  injection H as <- _. cbn [Api.placed_odds Api.placed_potential_win].
  split; [exact Hodds|].
  assert ((0 <= odds)%Q /\ (odds <= 50)%Q) as [O0 O50].
  { destruct Hodds as [[_ ->] | [H1 H2]]; [split; discriminate|].
    split; [|exact H2]. apply Qlt_le_weak. eapply Qlt_trans; [|exact H1]. reflexivity. }
  unfold winnings_of. rewrite trunc_is_floor.
  - split.
    + assert (0 <= inject_Z (Api.req_amount bet) * odds)%Q as P.
      { apply Qmult_le_0_compat; [|exact O0]. unfold Qle. simpl. lia. }
      apply Qfloor_resp_le in P. exact P.
    + assert (inject_Z (Api.req_amount bet) * odds
              <= inject_Z (Api.req_amount bet) * 50)%Q as P.
      { apply Qmult_le_l; [unfold Qlt; simpl; lia|exact O50]. }
      assert (inject_Z (Api.req_amount bet) * 50 == inject_Z (50 * Api.req_amount bet))%Q
        as E by (rewrite inject_Z_mult; apply Qmult_comm).
      rewrite E in P. apply Qfloor_resp_le in P. now rewrite Qfloor_Z in P.
  - apply Qmult_le_0_compat; [|exact O0]. unfold Qle. simpl. lia.
Qed.

Lemma accepted_price_is_bounded_witness :
  exists r d',
    Api.place_bet_endpoint (Feed.world 900) (Sample.request "home" 10) 7
      (Sample.player 100 0) (Sample.book 100 [] []) = (Ok r, d') /\
    Api.placed_odds r = 1.85%Q /\
    0 <= Api.placed_potential_win r <= 50 * 10.
Proof.
  eexists _, _. split; [vm_compute; reflexivity|]. split; [reflexivity|].
  refine (proj2 (accepted_price_is_bounded (Feed.world 900) (Sample.request "home" 10) 7
                   (Sample.player 100 0) (Sample.book 100 [] []) _ _ _ eq_refl)).
  intros opponent l [= <-]. eauto.
Defined.

(** ** Statistics from SofaScore and the API settlement job *)

(** Reading the items leaves the score entries alone. *)
Lemma read_items_scores (items : list Api.statistics_item) (m : Api.match_stats.t) :
  let m' := Api.read_items items m in
  Api.match_stats.total_goals m' = Api.match_stats.total_goals m /\
  Api.match_stats.home_score m' = Api.match_stats.home_score m /\
  Api.match_stats.away_score m' = Api.match_stats.away_score m /\
  Api.match_stats.both_scored m' = Api.match_stats.both_scored m /\
  Api.match_stats.outcome m' = Api.match_stats.outcome m.
Proof.
  revert m. induction items as [|stat items IH]; intros m; cbv zeta; [easy|].
  cbn [Api.read_items].
  destruct (Api.int_or_zero (Api.item_home stat)) as [home_val|]; [|easy].
  destruct (Api.int_or_zero (Api.item_away stat)) as [away_val|]; [|easy].
  cbv zeta.
  match goal with |- context [Api.read_items items ?x] => destruct (IH x) as (A & B & C & D & E) end.
  rewrite A, B, C, D, E.
  destruct (String.eqb _ "Corner kicks"), (String.eqb _ "Yellow cards"),
    (String.eqb _ "Red cards"); easy.
Qed.

(** An item whose value is not an integer ends the reading: what comes
    after it is never looked at. *)
Lemma read_items_stops (pre post : list Api.statistics_item) (bad : Api.statistics_item)
    (m : Api.match_stats.t) :
  Api.int_or_zero (Api.item_home bad) = None \/ Api.int_or_zero (Api.item_away bad) = None ->
  Api.read_items (pre ++ bad :: post)%list m = Api.read_items pre m.
Proof.
  intros H. revert m. induction pre as [|stat pre IH]; intros m.
  - cbn [app Api.read_items].
    destruct H as [-> | ->]; [reflexivity|].
    now destruct (Api.int_or_zero (Api.item_home bad)).
  - cbn [app Api.read_items].
    destruct (Api.int_or_zero (Api.item_home stat)) as [home_val|]; [|reflexivity].
    destruct (Api.int_or_zero (Api.item_away stat)) as [away_val|]; [|reflexivity].
    apply IH.
Qed.

(** What [get_match_statistics] hands to the resolver.  The goal total is
    the sum of the two scores, both-scored and the outcome word follow from
    the scores, and every key the resolver reads with [stats[...]] is set:
    on this path the resolver never raises [KeyError], only the
    [ValueError] of a line that is no number.  The side of the first goal
    is never among the keys, so a bet on the home or the away side scoring
    first is always lost.  An item whose value is not an integer, such as
    a percentage, ends the reading of the statistics: corners and cards
    listed after it stay at what was read before. *)
Theorem sofascore_statistics_shape (event : Api.response (Z * Z))
    (statistics : Api.response (list (list (list Api.statistics_item)))) :
  let m := Api.get_match_statistics event statistics in
  let h := Api.match_stats.home_score m in
  let a := Api.match_stats.away_score m in
  Api.match_stats.total_goals m = h + a /\
  Api.match_stats.both_scored m = ((0 <? h) && (0 <? a))%bool /\
  Api.match_stats.outcome m
    = (if a <? h then "home" else if h <? a then "away" else "draw") /\
  (forall key e, Api.settle_bet_by_type key (Api.as_stats m) = Raise e ->
                 exists text, e = ValueError text) /\
  Api.settle_bet_by_type "first_goal_home" (Api.as_stats m) = Ok Lose /\
  Api.settle_bet_by_type "first_goal_away" (Api.as_stats m) = Ok Lose /\
  (forall groups pre bad post,
      statistics = Api.answered groups ->
      concat (concat groups) = (pre ++ bad :: post)%list ->
      Api.int_or_zero (Api.item_home bad) = None \/
      Api.int_or_zero (Api.item_away bad) = None ->
      m = Api.get_match_statistics event (Api.answered [[pre]])).
Proof.
  cbv zeta.
  assert (Api.match_stats.total_goals (Api.get_match_statistics event statistics)
          = Api.match_stats.home_score (Api.get_match_statistics event statistics)
            + Api.match_stats.away_score (Api.get_match_statistics event statistics) /\
          Api.match_stats.both_scored (Api.get_match_statistics event statistics)
          = ((0 <? Api.match_stats.home_score (Api.get_match_statistics event statistics))
             && (0 <? Api.match_stats.away_score
                        (Api.get_match_statistics event statistics)))%bool /\
          Api.match_stats.outcome (Api.get_match_statistics event statistics)
          = (if Api.match_stats.away_score (Api.get_match_statistics event statistics)
                <? Api.match_stats.home_score (Api.get_match_statistics event statistics)
             then "home"
             else if Api.match_stats.home_score (Api.get_match_statistics event statistics)
                     <? Api.match_stats.away_score
                          (Api.get_match_statistics event statistics)
                  then "away" else "draw")) as (T & B & O).
  { unfold Api.get_match_statistics.
    destruct event as [| |[home_score away_score]]; [easy| |];
      (destruct statistics as [| |groups]; [easy|easy|]);
      match goal with
      | |- context [Api.read_items ?l ?x] =>
          destruct (read_items_scores l x) as (A & B & C & D & E)
      end;
      rewrite A, B, C, D, E; easy. }
  split; [exact T|]. split; [exact B|]. split; [exact O|]. split.
  { intros key e H. unfold Api.settle_bet_by_type in H.
    cbn [Api.as_stats outcome home_score away_score total_goals both_scored
         total_corners first_goal getitem bind] in H.
    repeat match type of H with
      | context [if ?c then _ else _] => destruct c
      end;
      try discriminate;
      unfold float_or_raise in H;
      match type of H with
      | context [Py.float ?x] => destruct (Py.float x)
      end;
      cbn [bind] in H; first [discriminate | injection H as <-; eauto]. }
  split; [reflexivity|]. split; [reflexivity|].
  intros groups pre bad post -> C Hbad. unfold Api.get_match_statistics.
  cbn [concat app]. rewrite app_nil_r, C.
  destruct event as [| |[home_score away_score]]; [reflexivity| |];
    now rewrite read_items_stops.
Qed.

(** Possession comes first and is a percentage: the corners listed after
    it are not read. *)
Example possession_hides_the_corners :
  let items := [[[ {| Api.item_name := "Ball possession"; Api.item_home := "54%";
                      Api.item_away := "46%" |};
                   {| Api.item_name := "Corner kicks"; Api.item_home := "7";
                      Api.item_away := "3" |} ]]] in
  let m := Api.get_match_statistics (Api.answered (2, 1)) (Api.answered items) in
  Api.match_stats.total_corners m = 0 /\
  Api.settle_bet_by_type "corners_over_8.5" (Api.as_stats m) = Ok Lose /\
  Api.match_stats.total_corners
    (Api.get_match_statistics (Api.answered (2, 1))
       (Api.answered [[[ {| Api.item_name := "Corner kicks"; Api.item_home := "7";
                            Api.item_away := "3" |} ]]])) = 10.
Proof. repeat split; reflexivity. Qed.

(** Without a score from the event request, or with 0:0, the goal entries
    stay at zero whatever the statistics say. *)
Lemma sofascore_statistics_goalless (event : Api.response (Z * Z))
    (statistics : Api.response (list (list (list Api.statistics_item)))) :
  event = Api.failed \/ event = Api.refused \/ event = Api.answered (0, 0) ->
  Api.match_stats.total_goals (Api.get_match_statistics event statistics) = 0 /\
  Api.match_stats.home_score (Api.get_match_statistics event statistics) = 0.
Proof.
  intros H. unfold Api.get_match_statistics.
  destruct H as [-> | [-> | ->]]; [easy| |];
    (destruct statistics as [| |groups]; [easy|easy|]);
    match goal with
    | |- context [Api.read_items ?l ?x] =>
        destruct (read_items_scores l x) as (A & B & _)
    end;
    rewrite A, B; easy.
Qed.

(** [check_and_settle] never settles a goalless match.  When the event
    request fails, is refused, or reports 0:0, the match is passed over:
    nothing is written, and the match is not remembered as settled either,
    so every later run passes it over again and its bets stay pending on
    this path. *)
Theorem goalless_match_is_never_settled (api : Api.sofascore_api) (result : Api.recent.t)
    (results : list Api.recent.t) (settled_info : list Api.settled_entry)
    (_settled_matches : gset string) (d : db) :
  fst (api (Api.recent.matchId result)) = Api.failed \/
  fst (api (Api.recent.matchId result)) = Api.refused \/
  fst (api (Api.recent.matchId result)) = Api.answered (0, 0) ->
  Api.check_and_settle api (result :: results) settled_info _settled_matches d
  = Api.check_and_settle api results settled_info _settled_matches d /\
  Api.check_and_settle api [result] settled_info _settled_matches d
  = (Ok settled_info, (_settled_matches, d)).
Proof.
  intros H.
  assert (forall rest,
            Api.check_and_settle api (result :: rest) settled_info _settled_matches d
            = Api.check_and_settle api rest settled_info _settled_matches d) as G.
  { intros rest. cbn [Api.check_and_settle].
    destruct (_ || _)%bool; [reflexivity|].
    destruct (sofascore_statistics_goalless (fst (api (Api.recent.matchId result)))
                (snd (api (Api.recent.matchId result))) H) as [-> ->].
    reflexivity. }
  split; [apply G|]. now rewrite G.
Qed.

(** A finished 0:0 with a pending bet on the draw: the job leaves the bet
    pending and does not remember the match. *)
Lemma goalless_match_is_never_settled_witness :
  let api : Api.sofascore_api := fun _ => (Api.answered (0, 0), Api.refused) in
  let r := {| Api.recent.matchId := "m1"; Api.recent.homeTeam := "Real Madrid";
              Api.recent.awayTeam := "Barcelona"; Api.recent.homeScore := 0;
              Api.recent.awayScore := 0 |} in
  let d := Sample.book 90 [Sample.wager 1 7 "draw" 10 3.4%Q] [] in
  fst (api "m1") = Api.answered (0, 0) /\
  statuses d = ["pending"] /\
  Api.check_and_settle api [r] [] ∅ d = (Ok [], (∅, d)).
Proof.
  cbv zeta. split; [reflexivity|]. split; [reflexivity|].
  exact (proj2 (goalless_match_is_never_settled
                  (fun _ => (Api.answered (0, 0), Api.refused))
                  {| Api.recent.matchId := "m1"; Api.recent.homeTeam := "Real Madrid";
                     Api.recent.awayTeam := "Barcelona"; Api.recent.homeScore := 0;
                     Api.recent.awayScore := 0 |}
                  [] [] ∅ (Sample.book 90 [Sample.wager 1 7 "draw" 10 3.4%Q] [])
                  (or_intror (or_intror eq_refl)))).
Defined.

(** ** The first goal *)

Lemma insert_goal_head (ke : Bot.key_event) (l : list Bot.key_event) :
  hd_error (Bot.insert_goal ke l) = earlier (hd_error l) ke.
Proof.
  destruct l as [|y l]; [reflexivity|]. cbn [Bot.insert_goal hd_error earlier].
  now destruct (Py.Qltb _ _).
Qed.

Lemma sort_goals_head (goals acc : list Bot.key_event) :
  hd_error (fold_left (fun acc ke => Bot.insert_goal ke acc) goals acc)
  = fold_left earlier goals (hd_error acc).
Proof.
  revert acc. induction goals as [|ke goals IH]; intros acc; [reflexivity|].
  cbn [fold_left]. now rewrite IH, insert_goal_head.
Qed.

Lemma earlier_among (goals : list Bot.key_event) (best : option Bot.key_event) :
  fold_left earlier goals best = best \/
  exists x, In x goals /\ fold_left earlier goals best = Some x.
Proof.
  revert best. induction goals as [|ke goals IH]; intros best; [now left|].
  cbn [fold_left]. destruct (IH (earlier best ke)) as [E | (x & Hx & E)].
  - rewrite E. unfold earlier. destruct best as [y|].
    + destruct (Py.Qltb _ _); [right; exists ke; split; [now left|reflexivity]|now left].
    + right. exists ke. split; [now left|reflexivity].
  - right. exists x. split; [now right|exact E].
Qed.

Lemma earlier_stays (goals : list Bot.key_event) (g : Bot.key_event) :
  (forall x, In x goals -> (Bot.clock g <= Bot.clock x)%Q) ->
  fold_left earlier goals (Some g) = Some g.
Proof.
  induction goals as [|ke goals IH]; intros H; [reflexivity|].
  cbn [fold_left earlier]. rewrite Qltb_ge by (apply H; now left).
  apply IH. intros x Hx. apply H. now right.
Qed.

(** The side [get_first_goal_team] reads off the key events is the side of
    the goal with the smallest clock value, and among goals with that value
    the one listed first; events that are no goals play no part. *)
Theorem first_goal_is_the_earliest (home_id : string) (keyEvents : list Bot.key_event)
    (pre post : list Bot.key_event) (g : Bot.key_event) :
  List.filter Bot.is_goal keyEvents = (pre ++ g :: post)%list ->
  (forall x, In x pre -> (Bot.clock g < Bot.clock x)%Q) ->
  (forall x, In x post -> (Bot.clock g <= Bot.clock x)%Q) ->
  Bot.first_goal_of home_id keyEvents
  = if String.eqb (Bot.team_id g) home_id then "home" else "away".
Proof.
  intros F Hpre Hpost. unfold Bot.first_goal_of, Bot.sort_goals.
  assert (hd_error (fold_left (fun acc ke => Bot.insert_goal ke acc)
                      (List.filter Bot.is_goal keyEvents) []) = Some g) as H.
  { rewrite sort_goals_head, F, fold_left_app. cbn [fold_left hd_error].
    assert (earlier (fold_left earlier pre None) g = Some g) as ->.
    { destruct (earlier_among pre None) as [-> | (x & Hx & ->)]; [reflexivity|].
      cbn [earlier]. now rewrite Qltb_lt by (now apply Hpre). }
    now apply earlier_stays. }
  destruct (fold_left _ _ []) as [|g' l]; [discriminate|].
  now injection H as ->.
Qed.

(** Two goals at the same clock value after a later one was listed first:
    the first of the two counts, here the visitors' goal. *)
Lemma first_goal_is_the_earliest_witness :
  let goal clock team :=
    {| Bot.type_of := "Goal"; Bot.clock := clock; Bot.team_id := team |} in
  let events :=
    [ {| Bot.type_of := "kickoff"; Bot.clock := 0; Bot.team_id := "" |};
      goal 2700%Q "86";
      {| Bot.type_of := "yellow-card"; Bot.clock := 300; Bot.team_id := "86" |};
      goal 600%Q "83";
      {| Bot.type_of := "penalty---scored"; Bot.clock := 600; Bot.team_id := "86" |} ] in
  List.filter Bot.is_goal events
  = [goal 2700%Q "86"; goal 600%Q "83";
     {| Bot.type_of := "penalty---scored"; Bot.clock := 600; Bot.team_id := "86" |}] /\
  Bot.first_goal_of "86" events = "away".
Proof.
  cbv zeta. split; [reflexivity|].
  apply (first_goal_is_the_earliest "86" _
           [{| Bot.type_of := "Goal"; Bot.clock := 2700; Bot.team_id := "86" |}]
           [{| Bot.type_of := "penalty---scored"; Bot.clock := 600; Bot.team_id := "86" |}]
           {| Bot.type_of := "Goal"; Bot.clock := 600; Bot.team_id := "83" |}).
  - reflexivity.
  - intros x [<-|[]]. reflexivity.
  - intros x [<-|[]]. discriminate.
Defined.

(** How the bot settles the first-goal market of a finished match.  With
    one side scoreless the scores decide without ESPN: 0:0 is [none], and
    otherwise the side that scored.  When both sides scored, the answer of
    the ESPN search decides, and when the search found nothing all three
    bets are left undetermined. *)
Theorem bot_first_goal_settlement (espn : string) (m : Bot.finished.t) :
  let h := Bot.finished.home_score m in
  let a := Bot.finished.away_score m in
  let won key :=
    Bot.check_bet_won key (Bot.stats_of m (Bot.get_first_goal_team espn h a)) in
  (h = 0 -> a = 0 ->
   won "first_goal_none" = Ok (Some true) /\
   won "first_goal_home" = Ok (Some false) /\
   won "first_goal_away" = Ok (Some false)) /\
  (0 < h -> a = 0 ->
   won "first_goal_home" = Ok (Some true) /\
   won "first_goal_away" = Ok (Some false) /\
   won "first_goal_none" = Ok (Some false)) /\
  (h = 0 -> 0 < a ->
   won "first_goal_away" = Ok (Some true) /\
   won "first_goal_home" = Ok (Some false) /\
   won "first_goal_none" = Ok (Some false)) /\
  (0 < h -> 0 < a -> espn = "home" ->
   won "first_goal_home" = Ok (Some true) /\
   won "first_goal_away" = Ok (Some false) /\
   won "first_goal_none" = Ok (Some false)) /\
  (0 < h -> 0 < a -> espn = "away" ->
   won "first_goal_away" = Ok (Some true) /\
   won "first_goal_home" = Ok (Some false) /\
   won "first_goal_none" = Ok (Some false)) /\
  (0 < h -> 0 < a -> espn = "" ->
   won "first_goal_home" = Ok None /\
   won "first_goal_away" = Ok None /\
   won "first_goal_none" = Ok None).
Proof.
  cbv zeta. unfold Bot.get_first_goal_team.
  destruct (Z.eqb_spec (Bot.finished.home_score m) 0) as [H0|H0];
    destruct (Z.eqb_spec (Bot.finished.away_score m) 0) as [A0|A0];
    destruct (Z.ltb_spec 0 (Bot.finished.home_score m)) as [H1|H1];
    destruct (Z.ltb_spec 0 (Bot.finished.away_score m)) as [A1|A1];
    cbn [andb];
    (split; [intros; try lia; repeat split; reflexivity|]);
    (split; [intros; try lia; repeat split; reflexivity|]);
    (split; [intros; try lia; repeat split; reflexivity|]);
    (split; [intros ? ? ->; try lia; repeat split; reflexivity|]);
    (split; [intros ? ? ->; try lia; repeat split; reflexivity|]);
    intros ? ? ->; try lia; repeat split; reflexivity.
Qed.

(** ** The automatic job of the bot *)

(** A match the job remembers is passed over. *)
Lemma auto_settle_skips (espn : Bot.finished.t -> string) (matches : list Bot.finished.t)
    (_settled : gset string) (d : db) :
  Forall (fun x => Bot.finished.matchId x ∈ _settled) matches ->
  Bot.auto_settle espn matches _settled d = (_settled, d).
Proof.
  induction 1 as [|x matches Hx _ IH]; [reflexivity|].
  cbn [Bot.auto_settle]. unfold Bot.auto_settle_match.
  now rewrite bool_decide_eq_true_2 by exact Hx.
Qed.

(** A finished match without a pending bet is remembered as settled
    although nothing was settled, its predictions included; and a match the
    job remembers is never looked at again, whatever is pending on it by
    then.  So predictions made for such a match, and bets placed on it
    afterwards, are never settled by this job. *)
Theorem match_without_bets_is_closed_for_good (espn : Bot.finished.t -> string)
    (m : Bot.finished.t) (_settled : gset string) (d : db) :
  pending_bets (Bot.finished.matchId m) d = [] ->
  let remembered := fst (Bot.auto_settle espn [m] _settled d) in
  snd (Bot.auto_settle espn [m] _settled d) = d /\
  Bot.finished.matchId m ∈ remembered /\
  forall (matches : list Bot.finished.t) (later : gset string) (d2 : db),
    remembered ⊆ later ->
    Forall (fun x => Bot.finished.matchId x ∈ remembered) matches ->
    Bot.auto_settle espn matches later d2 = (later, d2).
Proof.
  intros P. cbv zeta.
  assert (Bot.auto_settle espn [m] _settled d
          = (if bool_decide (Bot.finished.matchId m ∈ _settled) then _settled
             else {[ Bot.finished.matchId m ]} ∪ _settled, d)) as ->.
  { cbn [Bot.auto_settle]. unfold Bot.auto_settle_match. rewrite P.
    now destruct (bool_decide _). }
  cbn [fst snd]. split; [reflexivity|]. split.
  { destruct (bool_decide_reflect (Bot.finished.matchId m ∈ _settled)); set_solver. }
  intros matches later d2 Sub All. apply auto_settle_skips.
  eapply Forall_impl; [exact All|]. intros x Hx. now apply Sub.
Qed.

(** A prediction is pending on a finished match nobody has bet on: the job
    remembers the match, and neither the prediction nor a bet placed
    afterwards is settled by the next run. *)
Lemma match_without_bets_is_closed_for_good_witness :
  let m := {| Bot.finished.matchId := "m1"; Bot.finished.homeTeam := "Real Madrid";
              Bot.finished.awayTeam := "Barcelona"; Bot.finished.home_score := 2;
              Bot.finished.away_score := 1; Bot.finished.total_goals := 3;
              Bot.finished.home_corners := 6; Bot.finished.away_corners := 3;
              Bot.finished.total_corners := 9; Bot.finished.home_yellow := 2;
              Bot.finished.away_yellow := 2; Bot.finished.total_yellow := 4;
              Bot.finished.both_scored := true; Bot.finished.outcome := "home";
              Bot.finished.has_penalty := false; Bot.finished.date := "15.01.2026 21:00" |} in
  let d := Sample.book 100 [] [Sample.forecast 1 7 "home"] in
  let d2 := Sample.book 90 [Sample.wager 1 7 "home" 10 1.85%Q] [Sample.forecast 1 7 "home"] in
  pending_bets "m1" d = [] /\
  Bot.auto_settle (fun _ => "") [m] ∅ d = ({[ "m1" ]} ∪ ∅, d) /\
  Bot.auto_settle (fun _ => "") [m] ({[ "m1" ]} ∪ ∅) d2 = ({[ "m1" ]} ∪ ∅, d2) /\
  statuses d2 = ["pending"].
Proof.
  cbv zeta. split; [reflexivity|]. split; [reflexivity|]. split; [|reflexivity].
  refine (proj2 (proj2 (match_without_bets_is_closed_for_good (fun _ => "")
            {| Bot.finished.matchId := "m1"; Bot.finished.homeTeam := "Real Madrid";
               Bot.finished.awayTeam := "Barcelona"; Bot.finished.home_score := 2;
               Bot.finished.away_score := 1; Bot.finished.total_goals := 3;
               Bot.finished.home_corners := 6; Bot.finished.away_corners := 3;
               Bot.finished.total_corners := 9; Bot.finished.home_yellow := 2;
               Bot.finished.away_yellow := 2; Bot.finished.total_yellow := 4;
               Bot.finished.both_scored := true; Bot.finished.outcome := "home";
               Bot.finished.has_penalty := false;
               Bot.finished.date := "15.01.2026 21:00" |}
            ∅ (Sample.book 100 [] [Sample.forecast 1 7 "home"]) eq_refl)) _ _ _ _ _).
  - reflexivity.
  - repeat constructor.
Defined.

(** The completeness check of the job comes down to two conditions: at
    least two corners in total, and a goal total that equals the sum of the
    scores unless that sum is not positive.  A match that fails it is left
    as it is: nothing is written, and while a bet is pending on it the
    match is not remembered, so the job meets it again in every run. *)
Theorem incomplete_match_is_left_pending (espn : Bot.finished.t -> string)
    (m : Bot.finished.t) (_settled : gset string) (d : db) :
  let goals := Bot.finished.home_score m + Bot.finished.away_score m in
  Bot._match_data_complete m
  = ((2 <=? Bot.finished.total_corners m)
     && ((Bot.finished.total_goals m =? goals) || (goals <=? 0)))%bool /\
  (Bot._match_data_complete m = false ->
   snd (Bot.auto_settle espn [m] _settled d) = d /\
   (pending_bets (Bot.finished.matchId m) d <> [] ->
    fst (Bot.auto_settle espn [m] _settled d) = _settled)).
Proof.
  cbv zeta. split.
  - unfold Bot._match_data_complete.
    destruct (Z.eqb_spec (Bot.finished.total_goals m)
                (Bot.finished.home_score m + Bot.finished.away_score m));
      destruct (Z.ltb_spec 0 (Bot.finished.home_score m + Bot.finished.away_score m));
      destruct (Z.ltb_spec 0 (Bot.finished.total_goals m));
      destruct (Z.eqb_spec (Bot.finished.total_corners m) 0);
      destruct (Z.ltb_spec (Bot.finished.total_corners m) 2);
      destruct (Z.leb_spec 2 (Bot.finished.total_corners m));
      destruct (Z.leb_spec (Bot.finished.home_score m + Bot.finished.away_score m) 0);
      cbn [negb andb orb]; first [reflexivity | lia].
  - intros C. cbn [Bot.auto_settle]. unfold Bot.auto_settle_match. rewrite C.
    cbn [negb].
    destruct (bool_decide _); [split; reflexivity|].
    destruct (pending_bets _ d) as [|b rows]; cbn [length Nat.eqb fst snd];
      [split; [reflexivity|congruence]|split; reflexivity].
Qed.

(** A 1:0 with a single corner in the sheet: the bet on the home side
    stays pending. *)
Example one_corner_is_not_enough :
  let m := {| Bot.finished.matchId := "m1"; Bot.finished.homeTeam := "Real Madrid";
              Bot.finished.awayTeam := "Barcelona"; Bot.finished.home_score := 1;
              Bot.finished.away_score := 0; Bot.finished.total_goals := 1;
              Bot.finished.home_corners := 1; Bot.finished.away_corners := 0;
              Bot.finished.total_corners := 1; Bot.finished.home_yellow := 2;
              Bot.finished.away_yellow := 2; Bot.finished.total_yellow := 4;
              Bot.finished.both_scored := false; Bot.finished.outcome := "home";
              Bot.finished.has_penalty := false; Bot.finished.date := "15.01.2026 21:00" |} in
  let d := Sample.book 90 [Sample.wager 1 7 "home" 10 1.85%Q] [] in
  Bot._match_data_complete m = false /\
  Bot.auto_settle (fun _ => "") [m] ∅ d = (∅, d).
Proof. split; reflexivity. Qed.

(** ** Where the two resolvers agree *)

Lemma among_cases (key : string) (l : list string) :
  among key l = true -> In key l.
Proof.
  unfold among. intros H. apply existsb_exists in H as (x & Hx & E).
  apply String.eqb_eq in E. now subst.
Qed.

(** On statistics that carry the outcome, the two scores and the
    both-scored flag, the resolver of the bot and the resolver of the API
    return the same answer for the outcome, the exact score, both teams to
    score and the double chance.  For draw-no-bet they agree unless the
    match was drawn: then the API returns the stake and the bot counts the
    bet as lost. *)
Theorem main_markets_resolve_alike (key : string) (s : stats) (o : string) (h a : Z)
    (bs : bool) :
  outcome s = Some o -> home_score s = Some h -> away_score s = Some a ->
  both_scored s = Some bs ->
  (among key ["home"; "draw"; "away"; "btts_yes"; "btts_no"; "dc_1x"; "dc_x2"; "dc_12"]
   = true \/ Py.startswith key "score_" = true ->
   exists b, Bot.check_bet_won key s = Ok (Some b) /\
             Api.settle_bet_by_type key s = Ok (of_bool b)) /\
  (key = "dnb_home" \/ key = "dnb_away" ->
   (o <> "draw" ->
    exists b, Bot.check_bet_won key s = Ok (Some b) /\
              Api.settle_bet_by_type key s = Ok (of_bool b)) /\
   (o = "draw" ->
    Bot.check_bet_won key s = Ok (Some false) /\
    Api.settle_bet_by_type key s = Ok Push)).
Proof.
  intros Ho Hh Ha Hbs. split.
  - intros [Hk | Hk].
    + apply among_cases in Hk. cbn [In] in Hk.
      destruct Hk as [<- | [<- | [<- | [<- | [<- | [<- | [<- | [<- | []]]]]]]]];
        unfold Bot.check_bet_won, Api.settle_bet_by_type; rewrite ?Ho, ?Hbs;
        destruct bs; eexists; split; reflexivity.
    + unfold Bot.check_bet_won, Api.settle_bet_by_type.
      rewrite (startswith_apart key "score_" "LIVE_" eq_refl Hk).
      skip_branches Hk. rewrite Hk, Hh, Ha. eexists. split; reflexivity.
  - intros Hk. split.
    + intros Hd. apply String.eqb_neq in Hd.
      destruct Hk as [-> | ->];
        unfold Bot.check_bet_won, Api.settle_bet_by_type; rewrite Ho;
        eexists; (split; [reflexivity|]); cbn; rewrite Hd; reflexivity.
    + intros ->. destruct Hk as [-> | ->];
        unfold Bot.check_bet_won, Api.settle_bet_by_type; rewrite Ho;
        split; reflexivity.
Qed.

(** A drawn match and a draw-no-bet on the home side: the API path hands
    the stake of 10 back, the bot path closes the bet as lost. *)
Lemma main_markets_resolve_alike_witness :
  let s := Sample.final 1 1 9 4 in
  let d := Sample.book 90 [Sample.wager 1 7 "dnb_home" 10 1.4%Q] [] in
  Bot.check_bet_won "dnb_home" s = Ok (Some false) /\
  Api.settle_bet_by_type "dnb_home" s = Ok Push /\
  statuses (snd (Bot.settle_all_bets "m1" s d)) = ["lost"] /\
  balance_of 7 (snd (Bot.settle_all_bets "m1" s d)) = Some 90 /\
  statuses (snd (Api.settle_all_bets_advanced "m1" s d)) = ["returned"] /\
  balance_of 7 (snd (Api.settle_all_bets_advanced "m1" s d)) = Some 100.
Proof.
  cbv zeta.
  destruct (proj2 (proj2 (main_markets_resolve_alike "dnb_home" (Sample.final 1 1 9 4)
                            "draw" 1 1 true eq_refl eq_refl eq_refl eq_refl)
                     (or_introl eq_refl)) eq_refl) as [B A].
  split; [exact B|]. split; [exact A|]. repeat split; reflexivity.
Defined.
